(** * KnoRa frontend: store, API client and query / ingestion handlers

    A shallow embedding of the TypeScript sources

    - [frontend/lib/store.ts]        (the zustand application store),
    - [lib/api.ts]                   (axios client, error messages, retry),
    - [components/IntelligentQueryTab.tsx] (query pipeline, cancellation),
    - [components/FileUpload.tsx]    (file validation),
    - [components/DocumentIngestionTab.tsx] (document deletion),

    together with the properties the design document states about them.

    Conventions.  A JavaScript [string] is a [string] of code units below
    256 (the Latin-1 view); a JavaScript [number] that only ever carries an
    integer or a short decimal is a rational [Q]; [null] / [undefined] is
    [None].  A fixed message with a character outside that range is
    written as it stands in the source.  Asynchronous handlers run to completion between two [await]s,
    so a handler is a function on the observable world, and what happens
    during an [await] (the reply of the backend, the user pressing Cancel)
    is an explicit argument. *)

From Stdlib Require Import QArith Ascii String.
From stdpp Require Import gmap strings list fin_maps.

Close Scope Q_scope.
Open Scope string_scope.
Open Scope list_scope.

(** ** Numbers *)

Definition number := Q.

Definition num (z : Z) : number := inject_Z z.

(** ** Types of [lib/api.ts] *)

Record DocumentChunk := {
  dc_text : string;
  dc_size : number;
  dc_chunk_id : number;
}.

Record ProcessedDocument := {
  file_path : string;
  file_name : string;
  file_type : string;
  text : string;
  chunks : list DocumentChunk;
  num_chunks : number;
  file_size : number;
}.

Record SearchRequest := {
  sreq_query : string;
  sreq_k : option number;
  sreq_score_threshold : option number;
}.

Record SearchResult := {
  sr_file_path : string;
  sr_file_name : string;
  sr_file_type : string;
  sr_chunk_id : number;
  sr_chunk_size : number;
  sr_text : string;
  sr_similarity_score : number;
}.

(** [searchResponse.data]: [results] may be missing at run time, which is
    why the handler reads it as [results || []]. *)
Record SearchResponse := {
  results : option (list SearchResult);
  sresp_query : string;
  sresp_count : number;
}.

Record AnswerRequest := {
  areq_query : string;
  retrieved_chunks : list SearchResult;
  areq_max_tokens : option number;
  areq_temperature : option number;
}.

(** One element of [answerResponse.data.sources]: the handler accepts a
    plain string or an object with optional [file_name] / [source]. *)
Inductive Source :=
| SrcString (s : string)
| SrcObject (src_file_name src_source : option string).

(** The [sources] field as the handler inspects it: falsy, truthy but not
    an array, or an array. *)
Inductive SourcesField :=
| SourcesMissing
| SourcesNotArray
| SourcesArray (l : list Source).

Record AnswerResponse := {
  answer : string;
  sources : SourcesField;
  context_used : string;
  num_sources : number;
  llm_type : string;
  model_used : string;
}.

Record VectorStoreStats := {
  total_vectors : number;
  total_documents : number;
  embedding_model : string;
  dimension : number;
  store_path : string;
  vs_documents : list string;
  storage_size_mb : number;
}.

Record LLMModel := {
  model_id : string;
  model_name : string;
  model_max_tokens : number;
}.

Record SupportedFormat := {
  extension : string;
  fmt_name : string;
  max_size_mb : number;
}.

(** ** The application store, [frontend/lib/store.ts] *)

Inductive Tab := ingestion | query | analytics.

(** An [AbortSignal] is a reference to the flag of its controller. *)
Definition AbortSignal := nat.

Record AppState := {
  activeTab : Tab;
  error : option string;
  documents : list ProcessedDocument;
  searchResults : list SearchResult;
  currentQuery : string;
  currentAnswer : option string;
  stats : option VectorStoreStats;
  chunkSize : number;
  chunkOverlap : number;
  searchK : number;
  scoreThreshold : number;
  temperature : number;
  maxTokens : number;
  selectedModel : string;
  backendConnected : bool;
  isSearching : bool;
  searchAbortSignal : option AbortSignal;
}.

(** The initial state given to [create]. *)
Definition initialState : AppState := {|
  activeTab := query;
  error := None;
  documents := [];
  searchResults := [];
  currentQuery := "";
  currentAnswer := None;
  stats := None;
  chunkSize := num 1000;
  chunkOverlap := num 200;
  searchK := num 5;
  scoreThreshold := num 0;
  temperature := (7 # 10)%Q;
  maxTokens := num 2048;
  selectedModel := "mixtral-8x7b-32768";
  backendConnected := false;
  isSearching := false;
  searchAbortSignal := None;
|}.

(** zustand's [set(partial)] merges the given fields into the state; each
    action below is that merge written as a record update. *)
Module Store.

Definition setDocuments (docs : list ProcessedDocument) (s : AppState) : AppState :=
  {| activeTab := activeTab s; error := error s; documents := docs;
     searchResults := searchResults s; currentQuery := currentQuery s;
     currentAnswer := currentAnswer s; stats := stats s;
     chunkSize := chunkSize s; chunkOverlap := chunkOverlap s;
     searchK := searchK s; scoreThreshold := scoreThreshold s;
     temperature := temperature s; maxTokens := maxTokens s;
     selectedModel := selectedModel s; backendConnected := backendConnected s;
     isSearching := isSearching s; searchAbortSignal := searchAbortSignal s |}.

Definition addDocument (doc : ProcessedDocument) (s : AppState) : AppState :=
  setDocuments (documents s ++ [doc]) s.

(** [documents: state.documents.filter((d) => d.file_path !== filePath)] *)
Definition removeDocument (filePath : string) (s : AppState) : AppState :=
  setDocuments (filter (λ d, file_path d ≠ filePath) (documents s)) s.

Definition setSearchResults (rs : list SearchResult) (s : AppState) : AppState :=
  {| activeTab := activeTab s; error := error s; documents := documents s;
     searchResults := rs; currentQuery := currentQuery s;
     currentAnswer := currentAnswer s; stats := stats s;
     chunkSize := chunkSize s; chunkOverlap := chunkOverlap s;
     searchK := searchK s; scoreThreshold := scoreThreshold s;
     temperature := temperature s; maxTokens := maxTokens s;
     selectedModel := selectedModel s; backendConnected := backendConnected s;
     isSearching := isSearching s; searchAbortSignal := searchAbortSignal s |}.

Definition clearSearchResults (s : AppState) : AppState := setSearchResults [] s.

Definition setCurrentQuery (q : string) (s : AppState) : AppState :=
  {| activeTab := activeTab s; error := error s; documents := documents s;
     searchResults := searchResults s; currentQuery := q;
     currentAnswer := currentAnswer s; stats := stats s;
     chunkSize := chunkSize s; chunkOverlap := chunkOverlap s;
     searchK := searchK s; scoreThreshold := scoreThreshold s;
     temperature := temperature s; maxTokens := maxTokens s;
     selectedModel := selectedModel s; backendConnected := backendConnected s;
     isSearching := isSearching s; searchAbortSignal := searchAbortSignal s |}.

Definition setCurrentAnswer (a : option string) (s : AppState) : AppState :=
  {| activeTab := activeTab s; error := error s; documents := documents s;
     searchResults := searchResults s; currentQuery := currentQuery s;
     currentAnswer := a; stats := stats s;
     chunkSize := chunkSize s; chunkOverlap := chunkOverlap s;
     searchK := searchK s; scoreThreshold := scoreThreshold s;
     temperature := temperature s; maxTokens := maxTokens s;
     selectedModel := selectedModel s; backendConnected := backendConnected s;
     isSearching := isSearching s; searchAbortSignal := searchAbortSignal s |}.

(** [set({ currentQuery: "", currentAnswer: null, searchResults: [] })] *)
Definition clearQueryState (s : AppState) : AppState :=
  {| activeTab := activeTab s; error := error s; documents := documents s;
     searchResults := []; currentQuery := "";
     currentAnswer := None; stats := stats s;
     chunkSize := chunkSize s; chunkOverlap := chunkOverlap s;
     searchK := searchK s; scoreThreshold := scoreThreshold s;
     temperature := temperature s; maxTokens := maxTokens s;
     selectedModel := selectedModel s; backendConnected := backendConnected s;
     isSearching := isSearching s; searchAbortSignal := searchAbortSignal s |}.

Definition setIsSearching (b : bool) (s : AppState) : AppState :=
  {| activeTab := activeTab s; error := error s; documents := documents s;
     searchResults := searchResults s; currentQuery := currentQuery s;
     currentAnswer := currentAnswer s; stats := stats s;
     chunkSize := chunkSize s; chunkOverlap := chunkOverlap s;
     searchK := searchK s; scoreThreshold := scoreThreshold s;
     temperature := temperature s; maxTokens := maxTokens s;
     selectedModel := selectedModel s; backendConnected := backendConnected s;
     isSearching := b; searchAbortSignal := searchAbortSignal s |}.

(** What [persist] writes to local storage: a JavaScript object, i.e. a
    finite map from property names to values. *)
Inductive Persisted :=
| PTab (t : Tab)
| PNumber (n : number)
| PString (s : string).

(** The [partialize] option of the [persist] middleware. *)
Definition partialize (state : AppState) : gmap string Persisted :=
  <["activeTab" := PTab (activeTab state)]>
  (<["chunkSize" := PNumber (chunkSize state)]>
  (<["chunkOverlap" := PNumber (chunkOverlap state)]>
  (<["searchK" := PNumber (searchK state)]>
  (<["scoreThreshold" := PNumber (scoreThreshold state)]>
  (<["temperature" := PNumber (temperature state)]>
  (<["maxTokens" := PNumber (maxTokens state)]>
  (<["selectedModel" := PString (selectedModel state)]> ∅))))))).

End Store.

(** ** JavaScript strings *)

Module Js.

(** A string is truthy when it is not empty. *)
Definition truthy (s : string) : bool :=
  match s with "" => false | _ => true end.

(** An optional property is truthy when present and not empty. *)
Definition truthy_opt (o : option string) : bool :=
  match o with Some s => truthy s | None => false end.

(** [a || b] on strings. *)
Definition or_else (a b : string) : string := if truthy a then a else b.

(** The white space of [String.prototype.trim] among the code units below
    256: TAB, LF, VT, FF, CR, SPACE and NO-BREAK SPACE. *)
Definition is_white_space (c : ascii) : bool :=
  let n := N_of_ascii c in
  ((9 <=? n) && (n <=? 13) || (n =? 32) || (n =? 160))%N.

Fixpoint trimStart (s : string) : string :=
  match s with
  | "" => ""
  | String c r => if is_white_space c then trimStart r else s
  end.

Fixpoint trimEnd (s : string) : string :=
  match s with
  | "" => ""
  | String c r =>
      let r' := trimEnd r in
      if is_white_space c && negb (truthy r') then "" else String c r'
  end.

Definition trim (s : string) : string := trimEnd (trimStart s).

(** Every code unit is white space (so also: the string is empty). *)
Fixpoint blank (s : string) : bool :=
  match s with
  | "" => true
  | String c r => is_white_space c && blank r
  end.

(** [String.prototype.toLowerCase] on code units below 256: A-Z and the
    accented capitals U+00C0-U+00DE (without the multiplication sign). *)
Definition lower_char (c : ascii) : ascii :=
  let n := N_of_ascii c in
  if ((65 <=? n) && (n <=? 90)
      || (192 <=? n) && (n <=? 222) && negb (n =? 215))%N
  then ascii_of_N (n + 32) else c.

Fixpoint toLowerCase (s : string) : string :=
  match s with
  | "" => ""
  | String c r => String (lower_char c) (toLowerCase r)
  end.

(** The text after the last ["."], when there is one. *)
Fixpoint after_last_dot (s : string) : option string :=
  match s with
  | "" => None
  | String c r =>
      match after_last_dot r with
      | Some t => Some t
      | None => if Ascii.eqb c "." then Some r else None
      end
  end.

(** [s.split(".").pop()]: the last piece, the whole string without a dot. *)
Definition split_dot_pop (s : string) : string :=
  default s (after_last_dot s).

End Js.

(** ** Errors and their messages, [lib/api.ts] *)

(** [error.response] of an axios error, as far as the client reads it. *)
Record ErrorResponse := {
  status : Z;
  statusText : string;
  data_message : option string;
}.

(** The values a rejected request or a [throw] can carry. *)
Inductive JsError :=
| Undefined
| APIError (message : string)
| AxiosError (code : option string) (response : option ErrorResponse)
| OtherError (message : option string).

Definition isAxiosError (e : JsError) : bool :=
  match e with AxiosError _ _ => true | _ => false end.

Definition code_is (code : option string) (c : string) : bool :=
  match code with Some c' => String.eqb c' c | None => false end.

Definition getErrorMessage (e : JsError) : string :=
  match e with
  | APIError m => m
  | AxiosError code resp =>
      if code_is code "ECONNABORTED"
      then "Request timeout - backend is not responding"
      else
        match resp with
        | None => "Network error - check your connection and backend status"
        | Some r =>
            if code_is code "ERR_NETWORK"
            then "Network error - check your connection and backend status"
            else if Js.truthy_opt (data_message r)
            then default "" (data_message r)
            else if (status r =? 400)%Z then "Invalid request - check your input"
            else if (status r =? 404)%Z then "Resource not found"
            else if (status r =? 408)%Z then "Request timeout"
            else if (status r =? 413)%Z then "File too large"
            else if (status r =? 429)%Z then "Too many requests - please wait"
            else if (status r =? 500)%Z then "Server error - please try again later"
            else if (status r =? 503)%Z
            then "Server is unavailable - please try again later"
            else Js.or_else (statusText r) "Unknown error occurred"
        end
  | OtherError m => Js.or_else (default "" m) "Unknown error occurred"
  | Undefined => "Unknown error occurred"
  end.

(** ** Retry logic, [lib/api.ts] *)

Record RetryConfig := {
  maxRetries : nat;
  delayMs : Q;
  backoffMultiplier : Q;
}.

Definition DEFAULT_RETRY_CONFIG : RetryConfig :=
  {| maxRetries := 2; delayMs := 500; backoffMultiplier := 3 # 2 |}.

(** [error.response?.status] *)
Definition response_status (resp : option ErrorResponse) : option Z :=
  status <$> resp.

Definition shouldRetry (e : JsError) (attemptNumber maxRetries : nat) : bool :=
  if (maxRetries <=? attemptNumber)%nat then false
  else
    match e with
    | AxiosError code resp =>
        if code_is code "ECONNABORTED" || code_is code "ERR_NETWORK" then true
        else
          match response_status resp with
          | Some st =>
              if negb (st =? 0)%Z && (500 <=? st)%Z then true
              else if (st =? 408)%Z || (st =? 429)%Z then true
              else false
          | None => false
          end
    | _ => false
    end.

(** [retryConfig.delayMs * Math.pow(retryConfig.backoffMultiplier, attempt)];
    the products that occur (500 and 750) are exact in binary floating
    point, and the rational is kept in lowest terms. *)
Definition waitTime (cfg : RetryConfig) (attempt : nat) : Q :=
  Qred (delayMs cfg * backoffMultiplier cfg ^ Z.of_nat attempt)%Q.

(** ** The observable world *)

(** A [File] of the browser, as far as validation reads it. *)
Record File := {
  name : string;
  fsize : N;
}.

Inductive ToastKind := ToastError | ToastSuccess.

(** The text of a toast; the two validation messages carry the values
    they interpolate instead of their decimal rendering. *)
Inductive ToastText :=
| Plain (s : string)
| ExceedsLimit (file : string) (maxSizeMB : N) (bytes : N)
| TypeNotSupported (ext : string) (supported : list string).

Inductive RequestBody :=
| SearchBody (data : SearchRequest)
| AnswerBody (data : AnswerRequest)
| DeleteParams (filePath : string)
| UploadForm (file : File).

(** The writes to the shared zustand store. *)
Inductive StoreAction :=
| SetSearchResults (rs : list SearchResult)
| ClearSearchResults
| SetCurrentAnswer (a : option string)
| SetIsSearching (b : bool)
| RemoveDocument (filePath : string).

(** The writes to the state of the query tab ([useState]). *)
Inductive TabAction :=
| SetError (e : option string)
| SetAnswerSources (l : list string)
| SetAbortController (c : option AbortSignal).

Inductive Event :=
| Toast (k : ToastKind) (t : ToastText)
| ConsoleError (label : string) (e : JsError)
| Http (method path : string) (body : RequestBody)
| Delay (ms : Q)
| Abort (c : AbortSignal)
| StoreWrite (a : StoreAction)
| TabWrite (a : TabAction).

(** The [useState] cells of [IntelligentQueryTab]. *)
Record TabState := {
  showAdvanced : bool;
  answerSources : list string;
  availableModels : list LLMModel;
  modelInfoLoading : bool;
  abortController : option AbortSignal;
  tab_error : option string;
}.

(** The store, the tab, the [aborted] flags of the abort controllers
    created so far (a controller is its index), and what happened, oldest
    first. *)
Record World := {
  store : AppState;
  tab : TabState;
  signals : list bool;
  log : list Event;
}.

Definition emits (es : list Event) (w : World) : World :=
  {| store := store w; tab := tab w; signals := signals w;
     log := log w ++ es |}.

Definition emit (e : Event) : World → World := emits [e].

Definition reduce (a : StoreAction) (s : AppState) : AppState :=
  match a with
  | SetSearchResults rs => Store.setSearchResults rs s
  | ClearSearchResults => Store.clearSearchResults s
  | SetCurrentAnswer x => Store.setCurrentAnswer x s
  | SetIsSearching b => Store.setIsSearching b s
  | RemoveDocument p => Store.removeDocument p s
  end.

(** Calling a store action: the store changes and the write is recorded. *)
Definition dispatch (a : StoreAction) (w : World) : World :=
  {| store := reduce a (store w); tab := tab w; signals := signals w;
     log := log w ++ [StoreWrite a] |}.

Definition reduce_tab (a : TabAction) (t : TabState) : TabState :=
  match a with
  | SetError e =>
      {| showAdvanced := showAdvanced t; answerSources := answerSources t;
         availableModels := availableModels t;
         modelInfoLoading := modelInfoLoading t;
         abortController := abortController t; tab_error := e |}
  | SetAnswerSources l =>
      {| showAdvanced := showAdvanced t; answerSources := l;
         availableModels := availableModels t;
         modelInfoLoading := modelInfoLoading t;
         abortController := abortController t; tab_error := tab_error t |}
  | SetAbortController c =>
      {| showAdvanced := showAdvanced t; answerSources := answerSources t;
         availableModels := availableModels t;
         modelInfoLoading := modelInfoLoading t;
         abortController := c; tab_error := tab_error t |}
  end.

Definition setState (a : TabAction) (w : World) : World :=
  {| store := store w; tab := reduce_tab a (tab w); signals := signals w;
     log := log w ++ [TabWrite a] |}.

Definition toast (k : ToastKind) (s : string) : World → World :=
  emit (Toast k (Plain s)).

(** [new AbortController()]: a fresh flag, not aborted. *)
Definition newAbortController (w : World) : AbortSignal * World :=
  (length (signals w),
   {| store := store w; tab := tab w; signals := signals w ++ [false];
      log := log w |}).

(** [controller.abort()] *)
Definition abort (c : AbortSignal) (w : World) : World :=
  {| store := store w; tab := tab w; signals := <[c := true]> (signals w);
     log := log w ++ [Abort c] |}.

(** [controller.signal.aborted] *)
Definition aborted (c : AbortSignal) (w : World) : bool :=
  default false (signals w !! c).

Notation "w |> f" := (f w) (at level 45, left associativity, only parsing).

(** ** [apiService], [lib/api.ts] *)

(** The backend as seen by one call of the client: the outcome of its
    n-th request, a rejection or the [data] of the response. *)
Definition Net (R : Type) := nat → JsError + R.

Module apiService.

(** The [for] loop that [search] and [generateAnswer] share word for word:
    [remaining] iterations are left, [attempt] is the loop counter and
    [lastError] the last rejection, thrown when the loop runs out.  The
    client touches neither the store nor the tab, so a call is its outcome
    and the requests and waits it made, oldest first. *)
Fixpoint retryLoop {R} (cfg : RetryConfig) (path : string) (body : RequestBody)
    (net : Net R) (remaining attempt : nat) (lastError : JsError)
    : (JsError + R) * list Event :=
  match remaining with
  | O => (inl lastError, [])
  | S remaining' =>
      match net attempt with
      | inr r => (inr r, [Http "POST" path body])
      | inl e =>
          if shouldRetry e attempt (maxRetries cfg)
          then
            let '(res, evs) :=
              retryLoop cfg path body net remaining' (S attempt) e in
            (res, Http "POST" path body :: Delay (waitTime cfg attempt) :: evs)
          else (inl e, [Http "POST" path body])
      end
  end.

Definition search (data : SearchRequest) (net : Net SearchResponse)
    : (JsError + SearchResponse) * list Event :=
  let retryConfig := DEFAULT_RETRY_CONFIG in
  retryLoop retryConfig "/search" (SearchBody data) net
    (maxRetries retryConfig) 0 Undefined.

Definition generateAnswer (data : AnswerRequest) (net : Net AnswerResponse)
    : (JsError + AnswerResponse) * list Event :=
  let retryConfig := DEFAULT_RETRY_CONFIG in
  retryLoop retryConfig "/llm/answer" (AnswerBody data) net
    (maxRetries retryConfig) 0 Undefined.

(** [apiClient.delete("/search/delete", { params })]: one request, no
    retry; the reply is the backend's. *)
Definition deleteDocument (filePath : string) (reply : JsError + unit)
    : (JsError + unit) * list Event :=
  (reply, [Http "DELETE" "/search/delete" (DeleteParams filePath)]).

End apiService.

(** ** The query tab, [components/IntelligentQueryTab.tsx] *)

Module IntelligentQueryTab.

(** [handleCancelSearch], the Cancel button. *)
Definition handleCancelSearch (w : World) : World :=
  match abortController (tab w) with
  | Some c =>
      w |> abort c
        |> setState (SetAbortController None)
        |> dispatch (SetIsSearching false)
        |> toast ToastSuccess "Search cancelled"
  | None => w
  end.

(** The clean-up of the last [useEffect], as far as the controller goes. *)
Definition effectCleanup (w : World) : World :=
  match abortController (tab w) with
  | Some c => abort c w
  | None => w
  end.

(** What can run while the handler is suspended in an [await]. *)
Inductive Interrupt := NoInterrupt | UserCancel | EffectCleanup.

Definition interrupt (i : Interrupt) (w : World) : World :=
  match i with
  | NoInterrupt => w
  | UserCancel => handleCancelSearch w
  | EffectCleanup => effectCleanup w
  end.

(** The surroundings of one run of [handleSearch]: the backend behind the
    two calls and what interrupts each [await].  The signal is not handed
    to axios, so the requests of an [await] are the same with and without
    an interrupt, which is recorded when the [await] resumes. *)
Record Env := {
  search_net : Net SearchResponse;
  during_search : Interrupt;
  answer_net : Net AnswerResponse;
  during_answer : Interrupt;
}.

(** [typeof s === "string" ? s : s.file_name || s.source || ""] *)
Definition sourceName (s : Source) : string :=
  match s with
  | SrcString x => x
  | SrcObject fn src =>
      Js.or_else (default "" fn) (Js.or_else (default "" src) "")
  end.

Definition sourceDocs (f : SourcesField) : list string :=
  match f with
  | SourcesArray l => List.filter Js.truthy (sourceName <$> l)
  | SourcesNotArray | SourcesMissing => []
  end.

(** [{ query: currentQuery, k: searchK, score_threshold: scoreThreshold }] *)
Definition searchRequest (s : AppState) : SearchRequest :=
  {| sreq_query := currentQuery s; sreq_k := Some (searchK s);
     sreq_score_threshold := Some (scoreThreshold s) |}.

(** The [finally] block. *)
Definition finally (controller : AbortSignal) (w : World) : World :=
  if aborted controller w then w
  else w |> setState (SetAbortController None)
         |> dispatch (SetIsSearching false).

(** The inner [try] / [catch] around [generateAnswer]. *)
Definition answerStage (env : Env) (controller : AbortSignal)
    (q : string) (rs : list SearchResult) (maxTok temp : number)
    (w : World) : World :=
  let '(r, requests) :=
    apiService.generateAnswer
      {| areq_query := q; retrieved_chunks := rs;
         areq_max_tokens := Some maxTok; areq_temperature := Some temp |}
      (answer_net env) in
  let w2 := w |> emits requests |> interrupt (during_answer env) in
  match r with
  | inr answerResponse =>
      if aborted controller w2 then w2
      else if Js.truthy (answer answerResponse)
      then w2 |> dispatch (SetCurrentAnswer (Some (answer answerResponse)))
              |> setState (SetAnswerSources (sourceDocs (sources answerResponse)))
              |> setState (SetError None)
              |> toast ToastSuccess "Answer generated successfully"
      else w2 |> setState (SetError (Some "Failed to generate answer - empty response"))
              |> dispatch (SetCurrentAnswer (Some ""))
  | inl answerErr =>
      let errorMsg := getErrorMessage answerErr in
      w2 |> setState (SetError (Some ("Failed to generate answer: " +:+ errorMsg)))
         |> dispatch (SetCurrentAnswer (Some ""))
         |> emit (ConsoleError "Answer generation error:" answerErr)
  end.

(** [handleSearch], the submit handler of the query form. *)
Definition handleSearch (env : Env) (w : World) : World :=
  let q := currentQuery (store w) in
  let maxTok := maxTokens (store w) in
  let temp := temperature (store w) in
  if negb (Js.truthy (Js.trim q))
  then w |> toast ToastError "Please enter a query"
  else
    let w1 := w |> setState (SetError None)
                |> setState (SetAnswerSources [])
                |> dispatch ClearSearchResults in
    let '(controller, w2) := newAbortController w1 in
    let w3 := w2 |> setState (SetAbortController (Some controller))
                 |> dispatch (SetIsSearching true) in
    let '(r, requests) := apiService.search (searchRequest (store w)) (search_net env) in
    let w5 := w3 |> emits requests |> interrupt (during_search env) in
    match r with
    | inr searchResponse =>
        if aborted controller w5 then w5 |> finally controller
        else
          let rs := default [] (results searchResponse) in
          match rs with
          | [] =>
              w5 |> setState (SetError (Some "No relevant documents found for this query"))
                 |> dispatch (SetCurrentAnswer (Some ""))
                 |> dispatch (SetSearchResults [])
                 |> dispatch (SetIsSearching false)
                 |> finally controller
          | _ :: _ =>
              w5 |> dispatch (SetSearchResults rs)
                 |> answerStage env controller q rs maxTok temp
                 |> finally controller
          end
    | inl searchErr =>
        if aborted controller w5 then w5 |> finally controller
        else
          let errorMsg := getErrorMessage searchErr in
          w5 |> setState (SetError (Some ("Search failed: " +:+ errorMsg)))
             |> dispatch (SetCurrentAnswer (Some ""))
             |> dispatch (SetSearchResults [])
             |> emit (ConsoleError "Search error:" searchErr)
             |> finally controller
    end.

End IntelligentQueryTab.

(** ** File validation, [components/FileUpload.tsx] *)

Module FileUpload.

Definition DEFAULT_FORMATS : list SupportedFormat :=
  [ {| extension := ".pdf"; fmt_name := "PDF Document"; max_size_mb := num 100 |};
    {| extension := ".txt"; fmt_name := "Plain Text"; max_size_mb := num 100 |};
    {| extension := ".docx"; fmt_name := "Word Document"; max_size_mb := num 100 |};
    {| extension := ".doc"; fmt_name := "Word Document (97-2003)"; max_size_mb := num 100 |};
    {| extension := ".csv"; fmt_name := "CSV Spreadsheet"; max_size_mb := num 100 |};
    {| extension := ".xlsx"; fmt_name := "Excel Spreadsheet"; max_size_mb := num 100 |};
    {| extension := ".xls"; fmt_name := "Excel Spreadsheet (97-2003)"; max_size_mb := num 100 |};
    {| extension := ".md"; fmt_name := "Markdown"; max_size_mb := num 100 |};
    {| extension := ".pptx"; fmt_name := "PowerPoint"; max_size_mb := num 100 |};
    {| extension := ".json"; fmt_name := "JSON Data"; max_size_mb := num 100 |} ].

(** ["." + file.name.split(".").pop()?.toLowerCase()] *)
Definition extensionOf (file : File) : string :=
  "." +:+ Js.toLowerCase (Js.split_dot_pop (name file)).

Definition isSupported (supportedFormats : list SupportedFormat) (ext : string) : bool :=
  existsb
    (λ fmt, String.eqb (Js.toLowerCase (extension fmt)) (Js.toLowerCase ext))
    supportedFormats.

(** [validateFile]: the verdict and the toast it shows. *)
Definition validateFile (supportedFormats : list SupportedFormat) (file : File)
    : bool * list Event :=
  let ext := extensionOf file in
  let maxSizeMB := 100%N in
  if (maxSizeMB * 1024 * 1024 <? fsize file)%N
  then (false, [Toast ToastError (ExceedsLimit (name file) maxSizeMB (fsize file))])
  else if negb (isSupported supportedFormats ext)
  then (false, [Toast ToastError
                  (TypeNotSupported ext (extension <$> supportedFormats))])
  else (true, []).

(** [selectedFiles.filter((file) => validateFile(file))] with its toasts. *)
Fixpoint validFiles (supportedFormats : list SupportedFormat)
    (selectedFiles : list File) : list File * list Event :=
  match selectedFiles with
  | [] => ([], [])
  | file :: rest =>
      let '(ok, ts) := validateFile supportedFormats file in
      let '(vs, tss) := validFiles supportedFormats rest in
      (if ok then file :: vs else vs, ts ++ tss)
  end.

(** The requests of [uploadFiles]: one form per file, whatever the reply. *)
Definition uploadRequests (filesToUpload : list File) : list Event :=
  (λ f, Http "POST" "/documents/upload" (UploadForm f)) <$> filesToUpload.

(** [handleFilesSelected]: validate, then upload what passed (nothing is
    uploaded when nothing passed).  The result is what the user and the
    backend see: the toasts followed by the upload requests. *)
Definition handleFilesSelected (supportedFormats : list SupportedFormat)
    (selectedFiles : list File) : list Event :=
  let '(vs, ts) := validFiles supportedFormats selectedFiles in
  match vs with
  | [] => ts
  | _ :: _ => ts ++ uploadRequests vs
  end.

End FileUpload.

(** ** Document deletion, [components/DocumentIngestionTab.tsx] *)

Module DocumentIngestionTab.

(** [handleDelete]; [reply] is the backend's answer to the DELETE. *)
Definition handleDelete (filePath : string) (reply : JsError + unit)
    (w : World) : World :=
  let '(r, requests) := apiService.deleteDocument filePath reply in
  let w1 := w |> emits requests in
  match r with
  | inr _ =>
      w1 |> dispatch (RemoveDocument filePath)
         |> toast ToastSuccess "✓ Document removed from vector store"
  | inl e =>
      w1 |> toast ToastError "Failed to delete document"
         |> emit (ConsoleError "Delete error:" e)
  end.

End DocumentIngestionTab.

(** ** The chunker *)

Module Chunker.

Record Chunk := {
  start : nat;
  chunk_text : string;
}.

Inductive ChunkError := OverlapNotBelowChunkSize.

Inductive IngestError :=
| ConfigurationError (e : ChunkError)
| EmptyDocument.

(** Modelled from the spec: the chunking loop of the backend, which is not
    among the sources (the frontend only displays [num_chunks]).  The
    design document, section 4.1: the chunks are taken in order, each one
    [chunk_size] characters from its starting offset, the starting offset
    advances by [chunk_size - overlap], and the final chunk may be shorter.
    The chunk that reaches the end of the text is the final one, which is
    the reading under which a text no longer than the chunk size gives one
    chunk equal to the whole text.  [fuel] bounds the iterations. *)
Fixpoint chunksFrom (fuel : nat) (text : string) (chunk_size overlap : nat)
    (offset : nat) : list Chunk :=
  match fuel with
  | O => []
  | S fuel' =>
      {| start := offset; chunk_text := substring offset chunk_size text |}
      :: (if (String.length text <=? offset + chunk_size)%nat then []
          else chunksFrom fuel' text chunk_size overlap
                 (offset + (chunk_size - overlap)))
  end.

(** Modelled from the spec: the chunker's entry point (section 4.1): a
    configuration with [overlap >= chunk_size] fails fast, zero-length text
    yields zero chunks, any other text is chunked from offset 0.  The
    offsets grow by at least one, so [String.length text] iterations are
    enough. *)
Definition chunk (text : string) (chunk_size overlap : nat)
    : ChunkError + list Chunk :=
  if (chunk_size <=? overlap)%nat then inl OverlapNotBelowChunkSize
  else
    match text with
    | "" => inr []
    | _ => inr (chunksFrom (String.length text) text chunk_size overlap 0)
    end.

(** Modelled from the spec: the caller of the chunker (section 4.1, edge
    cases): a document without chunks is rejected as empty, it is not a
    success with zero chunks. *)
Definition ingest (text : string) (chunk_size overlap : nat)
    : IngestError + list Chunk :=
  match chunk text chunk_size overlap with
  | inl e => inl (ConfigurationError e)
  | inr [] => inl EmptyDocument
  | inr cs => inr cs
  end.

(** The least [n] with [a <= n * b], for [b > 0]. *)
Definition ceil_div (a b : nat) : nat := ((a + b - 1) / b)%nat.

End Chunker.

(** ** Vocabulary of the properties *)

(** The transient classes of the retry policy as the design document lists
    them (section 5): timeout, network error, HTTP status 500 and above,
    408 and 429.  This one follows the document, [shouldRetry] the code. *)
Definition transient (e : JsError) : bool :=
  match e with
  | AxiosError code resp =>
      code_is code "ECONNABORTED"
      || code_is code "ERR_NETWORK"
      || match response_status resp with
         | Some st => (500 <=? st)%Z || (st =? 408)%Z || (st =? 429)%Z
         | None => false
         end
  | _ => false
  end.

Definition isRequest (e : Event) : bool :=
  match e with Http _ _ _ => true | _ => false end.

(** The number of requests among some events. *)
Definition requestCount (es : list Event) : nat :=
  length (List.filter isRequest es).

Definition isAnswerRequest (e : Event) : bool :=
  match e with Http _ _ (AnswerBody _) => true | _ => false end.

Definition isConsoleError (e : Event) : bool :=
  match e with ConsoleError _ _ => true | _ => false end.

(** An answer request carries at least one retrieved chunk. *)
Definition carriesChunks (e : Event) : Prop :=
  ∀ m p data, e = Http m p (AnswerBody data) → retrieved_chunks data ≠ [].

(** The waits among some events, oldest first. *)
Definition delays (es : list Event) : list Q :=
  omap (λ e, match e with Delay ms => Some ms | _ => None end) es.

(** The retry policy of one client call [call], which is given the
    backend and returns its outcome and its requests and waits: one or two
    requests; two exactly when the first one failed with a transient error,
    and then 500 ms lie between them; the waits are 500 ms times 1.5 to
    the number of the attempt before them; a failure of the first request
    that is not transient is the outcome. *)
Definition boundedRetry {R} (call : Net R → (JsError + R) * list Event) : Prop :=
  ∀ net : Net R,
    let es := (call net).2 in
    (1 ≤ requestCount es ≤ 2)%nat
    ∧ (requestCount es = 2%nat ↔ ∃ e, net 0%nat = inl e ∧ transient e = true)
    ∧ (requestCount es = 2%nat →
       ∃ req rest, es = req :: Delay 500 :: req :: rest
                   ∧ isRequest req = true ∧ requestCount rest = 0%nat)
    ∧ delays es = waitTime DEFAULT_RETRY_CONFIG <$> seq 0 (length (delays es))
    ∧ (∀ e, net 0%nat = inl e → transient e = false →
       call net = (inl e, List.filter isRequest es)).

(** From [w] to [w'] the log only grew, by events that satisfy [P]. *)
Definition adds (P : Event → Prop) (w w' : World) : Prop :=
  ∃ d, log w' = log w ++ d ∧ Forall P d.

(** What the retrieval of a run of [handleSearch] gave: the results
    ([results || []]) of a successful search, nothing for a failed one. *)
Definition retrieved (env : IntelligentQueryTab.Env) (w : World)
    : option (list SearchResult) :=
  match (apiService.search (IntelligentQueryTab.searchRequest (store w))
           (IntelligentQueryTab.search_net env)).1 with
  | inr searchResponse => Some (default [] (results searchResponse))
  | inl _ => None
  end.

(** An answer request is made for the retrieved results [rs], and there
    is at least one of them. *)
Definition answersFor (rs : option (list SearchResult)) (e : Event) : Prop :=
  ∀ m p data, e = Http m p (AnswerBody data) →
    rs = Some (retrieved_chunks data) ∧ retrieved_chunks data ≠ [].

(** The upload ceiling in bytes. *)
Definition sizeLimit : N := 100 * 1024 * 1024.

(** ** Sample data *)

Module Sample.

Definition tab0 : TabState :=
  {| showAdvanced := false; answerSources := []; availableModels := [];
     modelInfoLoading := false; abortController := None; tab_error := None |}.

(** A fresh page on which [q] was typed while [a] is still displayed. *)
Definition world (q : string) (a : option string) : World :=
  {| store := Store.setCurrentAnswer a (Store.setCurrentQuery q initialState);
     tab := tab0; signals := []; log := [] |}.

Definition hit : SearchResult :=
  {| sr_file_path := "uploads/guide.pdf"; sr_file_name := "guide.pdf";
     sr_file_type := "pdf"; sr_chunk_id := num 2; sr_chunk_size := num 1000;
     sr_text := "Retention is thirty days.";
     sr_similarity_score := (9 # 10)%Q |}.

Definition found (rs : list SearchResult) : SearchResponse :=
  {| results := Some rs; sresp_query := "retention?";
     sresp_count := num (Z.of_nat (length rs)) |}.

Definition answered (a : string) : AnswerResponse :=
  {| answer := a; sources := SourcesArray [SrcString "guide.pdf"];
     context_used := "Retention is thirty days."; num_sources := num 1;
     llm_type := "groq"; model_used := "mixtral-8x7b-32768" |}.

Definition replies {R} (r : R) : Net R := λ _, inr r.
Definition rejects {R} (e : JsError) : Net R := λ _, inl e.

Definition networkError : JsError := AxiosError (Some "ERR_NETWORK") None.

Definition unavailable : JsError :=
  AxiosError (Some "ERR_BAD_RESPONSE")
    (Some {| status := 503; statusText := "Service Unavailable";
             data_message := None |}).

Definition badRequest : JsError :=
  AxiosError (Some "ERR_BAD_REQUEST")
    (Some {| status := 400; statusText := "Bad Request";
             data_message := None |}).

Definition doc (path : string) : ProcessedDocument :=
  {| file_path := path; file_name := path; file_type := "txt"; text := "";
     chunks := []; num_chunks := num 0; file_size := num 0 |}.

(** A text of [n] characters. *)
Fixpoint textOf (n : nat) : string :=
  match n with O => "" | S n' => String "x" (textOf n') end.

Import IntelligentQueryTab.

(** The store is empty: the search succeeds with no result. *)
Definition emptyStore : Env :=
  {| search_net := replies (found []); during_search := NoInterrupt;
     answer_net := replies (answered "unused"); during_answer := NoInterrupt |}.

(** The backend is down: every search request is answered with 503. *)
Definition backendDown : Env :=
  {| search_net := rejects unavailable; during_search := NoInterrupt;
     answer_net := replies (answered "unused"); during_answer := NoInterrupt |}.

(** One hit; the user cancels while the answer is generated and the
    language-model requests then fail on the network. *)
Definition cancelThenFail : Env :=
  {| search_net := replies (found [hit]); during_search := NoInterrupt;
     answer_net := rejects networkError; during_answer := UserCancel |}.

(** One hit; the user cancels while the answer is generated and the
    language model then answers. *)
Definition cancelThenAnswer : Env :=
  {| search_net := replies (found [hit]); during_search := NoInterrupt;
     answer_net := replies (answered "Thirty days."); during_answer := UserCancel |}.

End Sample.

(** ** The other actions of the store, [frontend/lib/store.ts] *)

(** Each one is [set({ field: value })]. *)
Module StoreActions.

Definition setActiveTab (tab : Tab) (s : AppState) : AppState :=
  {| activeTab := tab; error := error s; documents := documents s;
     searchResults := searchResults s; currentQuery := currentQuery s;
     currentAnswer := currentAnswer s; stats := stats s;
     chunkSize := chunkSize s; chunkOverlap := chunkOverlap s;
     searchK := searchK s; scoreThreshold := scoreThreshold s;
     temperature := temperature s; maxTokens := maxTokens s;
     selectedModel := selectedModel s;
     backendConnected := backendConnected s; isSearching := isSearching s;
     searchAbortSignal := searchAbortSignal s |}.

Definition setError (e : option string) (s : AppState) : AppState :=
  {| activeTab := activeTab s; error := e; documents := documents s;
     searchResults := searchResults s; currentQuery := currentQuery s;
     currentAnswer := currentAnswer s; stats := stats s;
     chunkSize := chunkSize s; chunkOverlap := chunkOverlap s;
     searchK := searchK s; scoreThreshold := scoreThreshold s;
     temperature := temperature s; maxTokens := maxTokens s;
     selectedModel := selectedModel s;
     backendConnected := backendConnected s; isSearching := isSearching s;
     searchAbortSignal := searchAbortSignal s |}.

Definition setStats (st : option VectorStoreStats) (s : AppState) : AppState :=
  {| activeTab := activeTab s; error := error s; documents := documents s;
     searchResults := searchResults s; currentQuery := currentQuery s;
     currentAnswer := currentAnswer s; stats := st;
     chunkSize := chunkSize s; chunkOverlap := chunkOverlap s;
     searchK := searchK s; scoreThreshold := scoreThreshold s;
     temperature := temperature s; maxTokens := maxTokens s;
     selectedModel := selectedModel s;
     backendConnected := backendConnected s; isSearching := isSearching s;
     searchAbortSignal := searchAbortSignal s |}.

Definition setChunkSize (size : number) (s : AppState) : AppState :=
  {| activeTab := activeTab s; error := error s; documents := documents s;
     searchResults := searchResults s; currentQuery := currentQuery s;
     currentAnswer := currentAnswer s; stats := stats s;
     chunkSize := size; chunkOverlap := chunkOverlap s;
     searchK := searchK s; scoreThreshold := scoreThreshold s;
     temperature := temperature s; maxTokens := maxTokens s;
     selectedModel := selectedModel s;
     backendConnected := backendConnected s; isSearching := isSearching s;
     searchAbortSignal := searchAbortSignal s |}.

Definition setChunkOverlap (overlap : number) (s : AppState) : AppState :=
  {| activeTab := activeTab s; error := error s; documents := documents s;
     searchResults := searchResults s; currentQuery := currentQuery s;
     currentAnswer := currentAnswer s; stats := stats s;
     chunkSize := chunkSize s; chunkOverlap := overlap;
     searchK := searchK s; scoreThreshold := scoreThreshold s;
     temperature := temperature s; maxTokens := maxTokens s;
     selectedModel := selectedModel s;
     backendConnected := backendConnected s; isSearching := isSearching s;
     searchAbortSignal := searchAbortSignal s |}.

Definition setSearchK (k : number) (s : AppState) : AppState :=
  {| activeTab := activeTab s; error := error s; documents := documents s;
     searchResults := searchResults s; currentQuery := currentQuery s;
     currentAnswer := currentAnswer s; stats := stats s;
     chunkSize := chunkSize s; chunkOverlap := chunkOverlap s;
     searchK := k; scoreThreshold := scoreThreshold s;
     temperature := temperature s; maxTokens := maxTokens s;
     selectedModel := selectedModel s;
     backendConnected := backendConnected s; isSearching := isSearching s;
     searchAbortSignal := searchAbortSignal s |}.

Definition setScoreThreshold (threshold : number) (s : AppState) : AppState :=
  {| activeTab := activeTab s; error := error s; documents := documents s;
     searchResults := searchResults s; currentQuery := currentQuery s;
     currentAnswer := currentAnswer s; stats := stats s;
     chunkSize := chunkSize s; chunkOverlap := chunkOverlap s;
     searchK := searchK s; scoreThreshold := threshold;
     temperature := temperature s; maxTokens := maxTokens s;
     selectedModel := selectedModel s;
     backendConnected := backendConnected s; isSearching := isSearching s;
     searchAbortSignal := searchAbortSignal s |}.

Definition setTemperature (temp : number) (s : AppState) : AppState :=
  {| activeTab := activeTab s; error := error s; documents := documents s;
     searchResults := searchResults s; currentQuery := currentQuery s;
     currentAnswer := currentAnswer s; stats := stats s;
     chunkSize := chunkSize s; chunkOverlap := chunkOverlap s;
     searchK := searchK s; scoreThreshold := scoreThreshold s;
     temperature := temp; maxTokens := maxTokens s;
     selectedModel := selectedModel s;
     backendConnected := backendConnected s; isSearching := isSearching s;
     searchAbortSignal := searchAbortSignal s |}.

Definition setMaxTokens (tokens : number) (s : AppState) : AppState :=
  {| activeTab := activeTab s; error := error s; documents := documents s;
     searchResults := searchResults s; currentQuery := currentQuery s;
     currentAnswer := currentAnswer s; stats := stats s;
     chunkSize := chunkSize s; chunkOverlap := chunkOverlap s;
     searchK := searchK s; scoreThreshold := scoreThreshold s;
     temperature := temperature s; maxTokens := tokens;
     selectedModel := selectedModel s;
     backendConnected := backendConnected s; isSearching := isSearching s;
     searchAbortSignal := searchAbortSignal s |}.

Definition setSelectedModel (model : string) (s : AppState) : AppState :=
  {| activeTab := activeTab s; error := error s; documents := documents s;
     searchResults := searchResults s; currentQuery := currentQuery s;
     currentAnswer := currentAnswer s; stats := stats s;
     chunkSize := chunkSize s; chunkOverlap := chunkOverlap s;
     searchK := searchK s; scoreThreshold := scoreThreshold s;
     temperature := temperature s; maxTokens := maxTokens s;
     selectedModel := model; backendConnected := backendConnected s;
     isSearching := isSearching s;
     searchAbortSignal := searchAbortSignal s |}.

Definition setBackendConnected (connected : bool) (s : AppState) : AppState :=
  {| activeTab := activeTab s; error := error s; documents := documents s;
     searchResults := searchResults s; currentQuery := currentQuery s;
     currentAnswer := currentAnswer s; stats := stats s;
     chunkSize := chunkSize s; chunkOverlap := chunkOverlap s;
     searchK := searchK s; scoreThreshold := scoreThreshold s;
     temperature := temperature s; maxTokens := maxTokens s;
     selectedModel := selectedModel s; backendConnected := connected;
     isSearching := isSearching s;
     searchAbortSignal := searchAbortSignal s |}.

Definition setSearchAbortSignal (signal : option AbortSignal) (s : AppState) : AppState :=
  {| activeTab := activeTab s; error := error s; documents := documents s;
     searchResults := searchResults s; currentQuery := currentQuery s;
     currentAnswer := currentAnswer s; stats := stats s;
     chunkSize := chunkSize s; chunkOverlap := chunkOverlap s;
     searchK := searchK s; scoreThreshold := scoreThreshold s;
     temperature := temperature s; maxTokens := maxTokens s;
     selectedModel := selectedModel s;
     backendConnected := backendConnected s; isSearching := isSearching s;
     searchAbortSignal := signal |}.

End StoreActions.

(** ** The page, [app/page.tsx] and [components/Navigation.tsx] *)

(** A tab is its identifier in the URL. *)
Definition tabId (t : Tab) : string :=
  match t with
  | ingestion => "ingestion"
  | query => "query"
  | analytics => "analytics"
  end.

(** [["ingestion", "query", "analytics"].includes(tab)], with the tab that
    the string names. *)
Definition isValidTab (tab : string) : option Tab :=
  if String.eqb tab "ingestion" then Some ingestion
  else if String.eqb tab "query" then Some query
  else if String.eqb tab "analytics" then Some analytics
  else None.

Definition tab_eqb (a b : Tab) : bool :=
  match a, b with
  | ingestion, ingestion | query, query | analytics, analytics => true
  | _, _ => false
  end.

Module AppContent.

(** The first effect: [tabParam] is [searchParams.get("tab")]. *)
Definition syncTab (tabParam : option string) (s : AppState) : AppState :=
  match tabParam with
  | Some p =>
      if Js.truthy p then
        match isValidTab p with
        | Some t =>
            if negb (tab_eqb (activeTab s) t)
            then StoreActions.setActiveTab t s else s
        | None => s
        end
      else s
  | None => s
  end.

(** One run of [checkBackendHealth]: [healthy] tells whether
    [apiService.checkHealth()] resolved; the effect is mounted when the
    check starts ([mountedBefore]) and when it resumes ([mountedAfter]). *)
Definition checkBackendHealth (mountedBefore mountedAfter healthy : bool)
    (s : AppState) : AppState :=
  if negb mountedBefore then s
  else if healthy then
    if mountedAfter && negb (backendConnected s)
    then s |> StoreActions.setBackendConnected true
           |> StoreActions.setError None
    else s
  else
    if mountedAfter && backendConnected s
    then s |> StoreActions.setBackendConnected false
           |> StoreActions.setError
                (Some "Backend is not accessible at http://localhost:8000")
    else s.

(** What happens to the store on the page: a health check of the mounted
    effect, or the Dismiss button of the error screen. *)
Inductive PageEvent :=
| HealthCheck (healthy : bool)
| Dismiss.

Definition step (s : AppState) (e : PageEvent) : AppState :=
  match e with
  | HealthCheck healthy => checkBackendHealth true true healthy s
  | Dismiss => StoreActions.setError None s
  end.

Definition run (es : list PageEvent) (s : AppState) : AppState :=
  fold_left step es s.

(** [if (error)]: the connection error screen replaces the page. *)
Definition showsConnectionError (s : AppState) : bool :=
  Js.truthy_opt (error s).

End AppContent.

Module Navigation.

(** The tab derived from the URL ([useMemo]): the valid [tab] parameter,
    and the query tab otherwise. *)
Definition activeTabOf (tabParam : option string) : Tab :=
  match tabParam with
  | Some p => if Js.truthy p then default query (isValidTab p) else query
  | None => query
  end.

(** The effect that keeps the store in sync with the URL. *)
Definition syncStore (tabParam : option string) (s : AppState) : AppState :=
  StoreActions.setActiveTab (activeTabOf tabParam) s.

(** [handleTabClick]: the URL pushed to the router. *)
Definition handleTabClick (tabId' : Tab) : string := "/app?tab=" +:+ tabId tabId'.

End Navigation.

(** ** The drop zone, [components/FileUpload.tsx] *)

Module DropZone.

(** The events [handleDrag] is registered for. *)
Inductive DragType := dragenter | dragover | dragleave.

(** [dragCounter.current] and the [isDragActive] state. *)
Record DragState := {
  dragCounter : Z;
  isDragActive : bool;
}.

Definition handleDrag (type : DragType) (d : DragState) : DragState :=
  match type with
  | dragenter | dragover =>
      {| dragCounter := dragCounter d + 1; isDragActive := true |}
  | dragleave =>
      let c := (dragCounter d - 1)%Z in
      {| dragCounter := c;
         isDragActive := if (c =? 0)%Z then false else isDragActive d |}
  end.

(** [handleDrop], as far as the drop zone goes (the dropped files are
    handed to [handleFilesSelected]). *)
Definition handleDrop (d : DragState) : DragState :=
  {| dragCounter := 0; isDragActive := false |}.

Definition drags (ts : list DragType) (d : DragState) : DragState :=
  fold_left (λ d t, handleDrag t d) ts d.

(** Drag events in which every entry ([dragenter] or [dragover]) is
    closed by a later [dragleave], properly nested. *)
Inductive balanced : list DragType → Prop :=
| balanced_nil : balanced []
| balanced_enter ts : balanced ts → balanced (dragenter :: ts ++ [dragleave])
| balanced_over ts : balanced ts → balanced (dragover :: ts ++ [dragleave])
| balanced_app ts1 ts2 : balanced ts1 → balanced ts2 → balanced (ts1 ++ ts2).

End DropZone.

(** ** What the query tab shows, [components/IntelligentQueryTab.tsx] *)

Module QueryView.

(** [handleClear] on the store and the tab. *)
Definition handleClear (st : AppState * TabState) : AppState * TabState :=
  (Store.clearQueryState st.1,
   reduce_tab (SetError None) (reduce_tab (SetAnswerSources []) st.2)).

(** The conditions of the JSX: [{error && ...}], [{currentAnswer && ...}],
    [{searchResults.length > 0 && ...}], the Clear button and the empty
    state. *)
Definition showsError (t : TabState) : bool := Js.truthy_opt (tab_error t).

Definition showsAnswer (s : AppState) : bool := Js.truthy_opt (currentAnswer s).

Definition showsResults (s : AppState) : bool :=
  (0 <? length (searchResults s))%nat.

Definition showsClear (s : AppState) : bool :=
  (showsAnswer s || showsResults s) && negb (isSearching s).

Definition showsEmptyState (s : AppState) (t : TabState) : bool :=
  negb (showsAnswer s) && (length (searchResults s) =? 0)%nat
  && negb (isSearching s) && negb (showsError t).

End QueryView.

(** ** Vocabulary of the further properties *)

(** The outcome of a client call [call] with a budget of [n] attempts
    comes from the backend: a resolved value is the reply to the last
    request made, a rejection is the rejection of the last request made
    (or, with no attempt allowed, the initial [undefined]); all requests
    before the last one failed with a transient error; a rejection that
    ends the call early is not transient, and the one that exhausts the
    budget is followed by one more wait. *)
Definition settlesWithLastReply {R} (n : nat)
    (call : Net R → (JsError + R) * list Event) : Prop :=
  ∀ net : Net R,
    let es := (call net).2 in
    (requestCount es ≤ n)%nat
    ∧ match (call net).1 with
      | inr x =>
          ∃ k, (k < n)%nat ∧ net k = inr x
               ∧ requestCount es = S k ∧ length (delays es) = k
               ∧ ∀ j, (j < k)%nat → ∃ e, net j = inl e ∧ transient e = true
      | inl e =>
          (n = 0%nat ∧ e = Undefined ∧ es = [])
          ∨ ∃ k, (k < n)%nat ∧ net k = inl e
                 ∧ requestCount es = S k
                 ∧ (∀ j, (j < k)%nat → ∃ e', net j = inl e' ∧ transient e' = true)
                 ∧ (transient e = false ∧ length (delays es) = k
                    ∨ S k = n ∧ transient e = true ∧ length (delays es) = S k)
      end.

(** What a run of the query handler has no business with: everything in
    the store but the search results, the answer and the searching flag. *)
Definition outsideQueryOutcome (s : AppState) :=
  (activeTab s, error s, documents s, currentQuery s, stats s,
   (chunkSize s, chunkOverlap s, searchK s, scoreThreshold s),
   (temperature s, maxTokens s, selectedModel s),
   backendConnected s, searchAbortSignal s).

(** [{ query: currentQuery, retrieved_chunks: results, max_tokens:
    maxTokens, temperature }], the request of the answer stage. *)
Definition answerRequest (s : AppState) (rs : list SearchResult) : AnswerRequest :=
  {| areq_query := currentQuery s; retrieved_chunks := rs;
     areq_max_tokens := Some (maxTokens s);
     areq_temperature := Some (temperature s) |}.

(** The events a run of [handleSearch] adds before it reads the outcome of
    the search, given the controller it creates. *)
Definition searchPrelude (c : AbortSignal) : list Event :=
  [ TabWrite (SetError None); TabWrite (SetAnswerSources []);
    StoreWrite ClearSearchResults; TabWrite (SetAbortController (Some c));
    StoreWrite (SetIsSearching true) ].

(** The events of the Cancel button for the controller [c]. *)
Definition cancelEvents (c : AbortSignal) : list Event :=
  [ Abort c; TabWrite (SetAbortController None);
    StoreWrite (SetIsSearching false);
    Toast ToastSuccess (Plain "Search cancelled") ].


(** The number of entries ([dragenter], [dragover]) less the number of
    [dragleave]s among some drag events. *)
Fixpoint dragBalance (ts : list DropZone.DragType) : Z :=
  match ts with
  | [] => 0
  | DropZone.dragleave :: ts' => dragBalance ts' - 1
  | _ :: ts' => dragBalance ts' + 1
  end.

(** ** Cleaning the text shown, [components/IntelligentQueryTab.tsx] *)

Module AnswerText.

(** [\d]: an ASCII digit. *)
Definition is_digit (c : ascii) : bool :=
  let n := N_of_ascii c in ((48 <=? n) && (n <=? 57))%N.

(** The length of the longest run of digits, resp. white space ([\s]), a
    string starts with. *)
Fixpoint digitsLen (s : string) : nat :=
  match s with
  | String c r => if is_digit c then S (digitsLen r) else O
  | "" => O
  end.

Fixpoint spacesLen (s : string) : nat :=
  match s with
  | String c r => if Js.is_white_space c then S (spacesLen r) else O
  | "" => O
  end.

Fixpoint dropChars (n : nat) (s : string) : string :=
  match n, s with
  | O, _ => s
  | S k, String _ r => dropChars k r
  | S _, "" => ""
  end.

(** The rest of [s] after the prefix [p], compared without regard to case
    (the [i] flag); [p] is written in lower case. *)
Fixpoint prefix_ci (p s : string) : option string :=
  match p with
  | "" => Some s
  | String pc pr =>
      match s with
      | String c r =>
          if Ascii.eqb (Js.lower_char c) pc then prefix_ci pr r else None
      | "" => None
      end
  end.

(** The length of the match of [/\[\d+\]/] at the start of [s]. *)
Definition citation (s : string) : option nat :=
  match s with
  | String "[" r =>
      match digitsLen r with
      | O => None
      | S k =>
          match dropChars (S k) r with
          | String "]" _ => Some (S k + 2)%nat
          | _ => None
          end
      end
  | _ => None
  end.

(** The length of the match of [/\(Source:\s*\d+\)/i] at the start of [s]. *)
Definition sourceMarker (s : string) : option nat :=
  match prefix_ci "(source:" s with
  | Some r =>
      let a := spacesLen r in
      let r1 := dropChars a r in
      match digitsLen r1 with
      | O => None
      | S k =>
          match dropChars (S k) r1 with
          | String ")" _ => Some (8 + a + S k + 1)%nat
          | _ => None
          end
      end
  | None => None
  end.

(** The length of the match of [/Reference:\s*\d+/i] at the start of [s]. *)
Definition referenceMarker (s : string) : option nat :=
  match prefix_ci "reference:" s with
  | Some r =>
      let a := spacesLen r in
      match digitsLen (dropChars a r) with
      | O => None
      | S k => Some (10 + a + S k)%nat
      end
  | None => None
  end.

(** [s.replace(re, "")] for a global [re] whose match at the start of a
    string has the length [m] gives: the matches are looked for from left
    to right and do not overlap; [skip] characters of the current match
    are still to be dropped. *)
Fixpoint removeAll (m : string → option nat) (skip : nat) (s : string) : string :=
  match s with
  | "" => ""
  | String c r =>
      match skip with
      | S k => removeAll m k r
      | O =>
          match m s with
          | Some (S n) => removeAll m n r
          | _ => String c (removeAll m 0 r)
          end
      end
  end.

Definition remove (m : string → option nat) (s : string) : string :=
  removeAll m 0 s.

(** [s.split("\n\n")]: a paragraph ends where two line feeds follow each
    other, looked for from left to right. *)
Fixpoint splitParagraphs (s : string) : list string :=
  match s with
  | "" => [""]
  | String c r =>
      let continue :=
        match splitParagraphs r with
        | p :: ps => String c p :: ps
        | [] => [String c ""]
        end in
      match r with
      | String c' r' =>
          if Ascii.eqb c "010" && Ascii.eqb c' "010"
          then "" :: splitParagraphs r'
          else continue
      | "" => continue
      end
  end.

Definition paragraphBreak : string := String "010" (String "010" "").

(** The paragraphs [cleanText] keeps. *)
Definition paragraphs (text : string) : list string :=
  let cleaned :=
    remove referenceMarker (remove sourceMarker (remove citation text)) in
  List.filter Js.truthy (Js.trim <$> splitParagraphs cleaned).

Definition cleanText (text : string) : string :=
  if negb (Js.truthy text) then ""
  else String.concat paragraphBreak (paragraphs text).

Definition formatSearchResult (text : string) : string :=
  if negb (Js.truthy text) then ""
  else substring 0 500 (remove sourceMarker (remove citation text)).

(** [currentAnswer ? cleanText(currentAnswer) : ""] *)
Definition cleanedAnswer (s : AppState) : string :=
  if Js.truthy_opt (currentAnswer s)
  then cleanText (default "" (currentAnswer s)) else "".

End AnswerText.

(** The character [c] occurs in [s]. *)
Fixpoint occurs (c : ascii) (s : string) : bool :=
  match s with
  | "" => false
  | String c' r => Ascii.eqb c' c || occurs c r
  end.

(** ** The analytics tab, [components/KnowledgeAnalyticsTab.tsx] *)

Module KnowledgeAnalyticsTab.

Record StorageFile := {
  sf_name : string;
  sf_size_bytes : number;
  sf_size_mb : string;
}.

Record StorageInfo := {
  total_files : number;
  total_size_bytes : number;
  total_size_mb : string;
  files : list StorageFile;
}.

(** The [data] of the cleanup reply; the handler reads both fields with a
    fallback ([|| 0], [|| "0.00"]), so either may be missing. *)
Record CleanupResponse := {
  freed_space_mb : option number;
  deleted_files : option number;
}.

(** What the handlers read of a caught error: [error.response?.data?.error],
    [error.response?.data?.message] and [error.message]. *)
Record Thrown := {
  data_error : option string;
  data_message' : option string;
  thrown_message : option string;
}.

(** [freedSpace]: the number of the reply, or the string "0.00". *)
Inductive FreedSpace := FreedNumber (n : number) | FreedDefault.

(** The text of a toast; the message of a finished cleanup carries the
    values it interpolates. *)
Inductive Notice :=
| Text (s : string)
| CleanupComplete (freedSpace : FreedSpace) (deletedFiles : number).

Inductive AEvent :=
| Request (method path : string)
| Notify (k : ToastKind) (n : Notice)
| ConsoleLog (s : string) (data : option CleanupResponse)
| ConsoleErr (label : string) (e : Thrown).

(** The [useState] cells of the tab. *)
Record AnalyticsState := {
  a_stats : option VectorStoreStats;
  storageInfo : option StorageInfo;
  isLoading : bool;
  isCleaningUp : bool;
  autoRefresh : bool;
  refreshError : option string;
}.

Record AWorld := {
  state : AnalyticsState;
  alog : list AEvent;
}.

Definition say (e : AEvent) (w : AWorld) : AWorld :=
  {| state := state w; alog := alog w ++ [e] |}.

Definition setStats (x : option VectorStoreStats) (w : AWorld) : AWorld :=
  {| state := {| a_stats := x; storageInfo := storageInfo (state w);
                 isLoading := isLoading (state w);
                 isCleaningUp := isCleaningUp (state w);
                 autoRefresh := autoRefresh (state w);
                 refreshError := refreshError (state w) |};
     alog := alog w |}.

Definition setStorageInfo (x : option StorageInfo) (w : AWorld) : AWorld :=
  {| state := {| a_stats := a_stats (state w); storageInfo := x;
                 isLoading := isLoading (state w);
                 isCleaningUp := isCleaningUp (state w);
                 autoRefresh := autoRefresh (state w);
                 refreshError := refreshError (state w) |};
     alog := alog w |}.

Definition setIsCleaningUp (b : bool) (w : AWorld) : AWorld :=
  {| state := {| a_stats := a_stats (state w);
                 storageInfo := storageInfo (state w);
                 isLoading := isLoading (state w);
                 isCleaningUp := b;
                 autoRefresh := autoRefresh (state w);
                 refreshError := refreshError (state w) |};
     alog := alog w |}.

Definition setRefreshError (e : option string) (w : AWorld) : AWorld :=
  {| state := {| a_stats := a_stats (state w);
                 storageInfo := storageInfo (state w);
                 isLoading := isLoading (state w);
                 isCleaningUp := isCleaningUp (state w);
                 autoRefresh := autoRefresh (state w);
                 refreshError := e |};
     alog := alog w |}.

(** [error.response?.data?.error || fallback] *)
Definition errorOr (e : Thrown) (fallback : string) : string :=
  Js.or_else (default "" (data_error e)) fallback.

(** [fetchStats]; [reply] is the backend's answer to GET /search/stats. *)
Definition fetchStats (reply : Thrown + VectorStoreStats) (w : AWorld) : AWorld :=
  let w1 := w |> say (Request "GET" "/search/stats") in
  match reply with
  | inr data => w1 |> setStats (Some data) |> setRefreshError None
  | inl error =>
      let errorMsg := errorOr error "Failed to fetch analytics" in
      w1 |> say (ConsoleErr "Failed to fetch analytics:" error)
         |> setRefreshError (Some errorMsg)
         |> say (Notify ToastError (Text errorMsg))
         |> setStats None
  end.

(** [fetchStorageInfo]; a failure is not announced by a toast. *)
Definition fetchStorageInfo (reply : Thrown + StorageInfo) (w : AWorld) : AWorld :=
  let w1 := w |> say (Request "GET" "/search/storage") in
  match reply with
  | inr data => w1 |> setStorageInfo (Some data) |> setRefreshError None
  | inl error =>
      let errorMsg := errorOr error "Failed to fetch storage info" in
      w1 |> say (ConsoleErr "Failed to fetch storage info:" error)
         |> setRefreshError (Some errorMsg)
         |> setStorageInfo None
  end.

(** A number is truthy when it is not zero. *)
Definition nonzero (x : option number) : option number :=
  match x with
  | Some q => if (Qnum q =? 0)%Z then None else Some q
  | None => None
  end.

(** [toast.error("Cleanup failed: " + (error.response?.data?.message ||
    error.message))]; a missing message is written "undefined". *)
Definition cleanupFailed (e : Thrown) : string :=
  "Cleanup failed: "
  +:+ (if Js.truthy_opt (data_message' e) then default "" (data_message' e)
       else default "undefined" (thrown_message e)).

(** [handleCleanupOldFiles]; the three replies are those to the cleanup
    request and to the two refreshes that follow a successful cleanup. *)
Definition handleCleanupOldFiles (cleanup : Thrown + CleanupResponse)
    (storage : Thrown + StorageInfo) (stats : Thrown + VectorStoreStats)
    (w : AWorld) : AWorld :=
  let w1 := w |> setIsCleaningUp true
              |> say (ConsoleLog "🧹 Starting cleanup..." None)
              |> say (Request "POST" "/search/storage/cleanup") in
  let w2 :=
    match cleanup with
    | inr data =>
        let deletedFiles := default 0%Q (nonzero (deleted_files data)) in
        let freedSpace :=
          match nonzero (freed_space_mb data) with
          | Some q => FreedNumber q
          | None => FreedDefault
          end in
        w1 |> say (ConsoleLog "✅ Cleanup response:" (Some data))
           |> say (Notify ToastSuccess
                     (if (0 <? Qnum deletedFiles)%Z
                      then CleanupComplete freedSpace deletedFiles
                      else Text "ℹ️ No files older than 30 days found"))
           |> say (ConsoleLog "🔄 Refreshing storage info..." None)
           |> fetchStorageInfo storage
           |> say (ConsoleLog "🔄 Refreshing stats..." None)
           |> fetchStats stats
           |> say (ConsoleLog "✅ Refresh complete" None)
    | inl error =>
        w1 |> say (ConsoleErr "❌ Cleanup failed:" error)
           |> say (ConsoleErr "Error details:" error)
           |> say (Notify ToastError (Text (cleanupFailed error)))
    end in
  w2 |> setIsCleaningUp false.

(** What the tab renders: the spinner, the notice without data (with the
    refresh error, if any), or the cards. *)
Inductive View :=
| Loading
| NoData (refreshError : option string)
| Cards (stats : VectorStoreStats) (cleanupOffered : bool).

Definition view (s : AnalyticsState) : View :=
  if isLoading s then Loading
  else
    match a_stats s with
    | None => NoData (if Js.truthy_opt (refreshError s) then refreshError s else None)
    | Some st =>
        Cards st
          match storageInfo s with
          | Some info => (0 <? Qnum (total_files info))%Z
          | None => false
          end
    end.

Definition requests (es : list AEvent) : list (string * string) :=
  omap (λ e, match e with Request m p => Some (m, p) | _ => None end) es.

Definition toasts (es : list AEvent) : list (ToastKind * Notice) :=
  omap (λ e, match e with Notify k n => Some (k, n) | _ => None end) es.

End KnowledgeAnalyticsTab.

(** * Properties *)

(** ** The store *)

Section StoreFacts.

Import Store.

Lemma setDocuments_same (s : AppState) : setDocuments (documents s) s = s.
Proof. by destruct s. Qed.

Lemma setDocuments_twice (d1 d2 : list ProcessedDocument) (s : AppState) :
  setDocuments d2 (setDocuments d1 s) = setDocuments d2 s.
Proof. reflexivity. Qed.

(** Filtering out a path that no document has keeps the whole list. *)
Lemma filter_absent (p : string) (ds : list ProcessedDocument) :
  Forall (λ d, file_path d ≠ p) ds →
  filter (λ d, file_path d ≠ p) ds = ds.
Proof.
  induction 1 as [|d ds Hd _ IH]; [done|].
  rewrite filter_cons_True by done. by rewrite IH.
Qed.

Lemma filter_removes (p : string) (ds : list ProcessedDocument) :
  Forall (λ d, file_path d ≠ p) (filter (λ d, file_path d ≠ p) ds).
Proof.
  apply Forall_forall. intros d Hd.
  by apply list_elem_of_filter in Hd as [Hd _].
Qed.

Lemma removeDocument_absent (p : string) (s : AppState) :
  Forall (λ d, file_path d ≠ p) (documents s) → removeDocument p s = s.
Proof.
  intros H. unfold removeDocument. rewrite filter_absent by done.
  apply setDocuments_same.
Qed.

Lemma removeDocument_twice (p : string) (s : AppState) :
  removeDocument p (removeDocument p s) = removeDocument p s.
Proof. apply removeDocument_absent, filter_removes. Qed.

End StoreFacts.

(** C10.  [clearQueryState] sets the query to the empty string, the answer
    to null and the search results to the empty list, and every other field
    of the state keeps its value. *)
Theorem clearQueryState_resets_query_fields_only (s : AppState) :
  let s' := Store.clearQueryState s in
  currentQuery s' = ""
  ∧ currentAnswer s' = None
  ∧ searchResults s' = []
  ∧ activeTab s' = activeTab s
  ∧ error s' = error s
  ∧ documents s' = documents s
  ∧ stats s' = stats s
  ∧ chunkSize s' = chunkSize s
  ∧ chunkOverlap s' = chunkOverlap s
  ∧ searchK s' = searchK s
  ∧ scoreThreshold s' = scoreThreshold s
  ∧ temperature s' = temperature s
  ∧ maxTokens s' = maxTokens s
  ∧ selectedModel s' = selectedModel s
  ∧ backendConnected s' = backendConnected s
  ∧ isSearching s' = isSearching s
  ∧ searchAbortSignal s' = searchAbortSignal s.
Proof. cbn. repeat split. Qed.

(** C9.  The persisted projection of a state has exactly the eight settings
    as its properties, each with the value the state has, so
    [currentQuery], [currentAnswer] and [searchResults] are not in it, and
    two states that differ only in those three are persisted alike. *)
Theorem partialize_persists_settings_only (s : AppState) :
  dom (Store.partialize s)
    = ({[ "activeTab"; "chunkSize"; "chunkOverlap"; "searchK";
          "scoreThreshold"; "temperature"; "maxTokens"; "selectedModel" ]}
       : gset string)
  ∧ Store.partialize s !! "activeTab" = Some (Store.PTab (activeTab s))
  ∧ Store.partialize s !! "chunkSize" = Some (Store.PNumber (chunkSize s))
  ∧ Store.partialize s !! "chunkOverlap" = Some (Store.PNumber (chunkOverlap s))
  ∧ Store.partialize s !! "searchK" = Some (Store.PNumber (searchK s))
  ∧ Store.partialize s !! "scoreThreshold" = Some (Store.PNumber (scoreThreshold s))
  ∧ Store.partialize s !! "temperature" = Some (Store.PNumber (temperature s))
  ∧ Store.partialize s !! "maxTokens" = Some (Store.PNumber (maxTokens s))
  ∧ Store.partialize s !! "selectedModel" = Some (Store.PString (selectedModel s))
  ∧ Store.partialize s !! "currentQuery" = None
  ∧ Store.partialize s !! "currentAnswer" = None
  ∧ Store.partialize s !! "searchResults" = None
  ∧ ∀ q a rs,
      Store.partialize
        (Store.setCurrentQuery q
           (Store.setCurrentAnswer a (Store.setSearchResults rs s)))
      = Store.partialize s.
Proof.
  split.
  { unfold Store.partialize. rewrite !dom_insert_L, dom_empty_L. set_solver. }
  unfold Store.partialize.
  repeat (split; [by simplify_map_eq|]).
  done.
Qed.

(** C5.  Removing a document from the store twice gives the state that
    removing it once gives; removing a path that no stored document has
    leaves the state as it is; and the same holds for the store after
    [handleDelete] when the backend accepts the deletion. *)
Theorem delete_document_idempotent (p : string) (w : World) :
  let once := DocumentIngestionTab.handleDelete p (inr ()) w in
  let twice := DocumentIngestionTab.handleDelete p (inr ()) once in
  Store.removeDocument p (Store.removeDocument p (store w))
    = Store.removeDocument p (store w)
  ∧ store twice = store once
  ∧ (Forall (λ d, file_path d ≠ p) (documents (store w)) →
     Store.removeDocument p (store w) = store w
     ∧ store once = store w
     ∧ documents (store once) = documents (store w)
     ∧ last (log once)
         = Some (Toast ToastSuccess (Plain "✓ Document removed from vector store"))).
Proof.
  cbn. split; [apply removeDocument_twice|].
  split; [apply removeDocument_twice|].
  intros H. rewrite removeDocument_absent by done.
  repeat split; [by apply filter_absent | by rewrite last_snoc].
Qed.

Lemma delete_document_idempotent_witness :
  let w := {| store := Store.setDocuments [Sample.doc "a.txt"; Sample.doc "b.txt"]
                         initialState;
              tab := Sample.tab0; signals := []; log := [] |} in
  Forall (λ d, file_path d ≠ "c.txt") (documents (store w))
  ∧ store (DocumentIngestionTab.handleDelete "c.txt" (inr ()) w) = store w.
Proof.
  intros w.
  assert (H : Forall (λ d, file_path d ≠ "c.txt") (documents (store w))).
  { repeat constructor; discriminate. }
  split; [exact H|].
  exact (proj1 (proj2 (proj2 (proj2 (delete_document_idempotent "c.txt" w)) H))).
Defined.

(** ** File validation *)

Section FileUploadFacts.

Import FileUpload.

Context (supportedFormats : list SupportedFormat).

Lemma validateFile_too_large (file : File) :
  (sizeLimit < fsize file)%N → (validateFile supportedFormats file).1 = false.
Proof.
  intros H. unfold validateFile.
  replace (100 * 1024 * 1024 <? fsize file)%N with true; [done|].
  symmetry. by apply N.ltb_lt.
Qed.

Lemma validFiles_sound (selectedFiles : list File) (f : File) :
  f ∈ (validFiles supportedFormats selectedFiles).1 →
  (validateFile supportedFormats f).1 = true.
Proof.
  induction selectedFiles as [|g rest IH]; cbn.
  - by intros ?%elem_of_nil.
  - destruct (validateFile supportedFormats g) as [ok ts] eqn:Eg.
    destruct (validFiles supportedFormats rest) as [vs tss]. cbn in *.
    destruct ok; [|done].
    intros [->|?]%elem_of_cons; [by rewrite Eg | auto].
Qed.

Lemma validateFile_toasts (file : File) :
  Forall (λ e, isRequest e = false) (validateFile supportedFormats file).2.
Proof.
  unfold validateFile. repeat case_match; cbn; repeat constructor.
Qed.

Lemma validFiles_toasts (selectedFiles : list File) :
  Forall (λ e, isRequest e = false) (validFiles supportedFormats selectedFiles).2.
Proof.
  induction selectedFiles as [|g rest IH]; cbn; [constructor|].
  pose proof (validateFile_toasts g) as Hg.
  destruct (validateFile supportedFormats g) as [ok ts].
  destruct (validFiles supportedFormats rest) as [vs tss]. cbn in *.
  by apply Forall_app.
Qed.

(** Whatever is uploaded passed validation. *)
Lemma handleFilesSelected_uploads_valid (selectedFiles : list File) (f : File) :
  Http "POST" "/documents/upload" (UploadForm f)
    ∈ handleFilesSelected supportedFormats selectedFiles →
  (validateFile supportedFormats f).1 = true.
Proof.
  unfold handleFilesSelected.
  pose proof (validFiles_sound selectedFiles f) as Hs.
  pose proof (validFiles_toasts selectedFiles) as Ht.
  destruct (validFiles supportedFormats selectedFiles) as [vs ts]. cbn in *.
  rewrite Forall_forall in Ht.
  assert (Hts : Http "POST" "/documents/upload" (UploadForm f) ∈ ts → False).
  { intros Hin. by apply Ht in Hin. }
  assert (Hup : Http "POST" "/documents/upload" (UploadForm f) ∈ uploadRequests vs
                → f ∈ vs).
  { unfold uploadRequests. intros (g & Heq & Hg)%list_elem_of_fmap. by simplify_eq. }
  destruct vs as [|v vs'].
  - intros Hin. by destruct Hts.
  - intros [Hin|Hin]%elem_of_app; [by destruct Hts | auto].
Qed.

End FileUploadFacts.

(** C7.  A file larger than 100 MB (100 * 1024 * 1024 bytes) fails
    validation with the size message, whatever its extension, and no
    selection that contains it leads to an upload request for it; a file of
    at most 100 MB whose extension is among the supported formats passes
    validation. *)
Theorem validateFile_size_ceiling
    (supportedFormats : list SupportedFormat) (file : File) :
  sizeLimit = 104857600%N
  ∧ ((sizeLimit < fsize file)%N →
     FileUpload.validateFile supportedFormats file
       = (false, [Toast ToastError (ExceedsLimit (name file) 100 (fsize file))])
     ∧ ∀ selectedFiles,
         Http "POST" "/documents/upload" (UploadForm file)
           ∉ FileUpload.handleFilesSelected supportedFormats selectedFiles)
  ∧ ((fsize file ≤ sizeLimit)%N →
     FileUpload.isSupported supportedFormats (FileUpload.extensionOf file) = true →
     FileUpload.validateFile supportedFormats file = (true, [])).
Proof.
  split; [reflexivity|]. split.
  - intros H. split.
    + unfold FileUpload.validateFile.
      replace (100 * 1024 * 1024 <? fsize file)%N with true; [done|].
      symmetry. by apply N.ltb_lt.
    + intros sel Hin.
      apply handleFilesSelected_uploads_valid in Hin.
      rewrite validateFile_too_large in Hin; done.
  - intros H Hs. unfold FileUpload.validateFile.
    replace (100 * 1024 * 1024 <? fsize file)%N with false.
    + by rewrite Hs.
    + symmetry. apply N.ltb_ge. exact H.
Qed.

Lemma validateFile_size_ceiling_witness :
  FileUpload.validateFile FileUpload.DEFAULT_FORMATS
    {| name := "Report.PDF"; fsize := 104857600 |} = (true, [])
  ∧ FileUpload.validateFile FileUpload.DEFAULT_FORMATS
      {| name := "Report.PDF"; fsize := 104857601 |}
    = (false, [Toast ToastError (ExceedsLimit "Report.PDF" 100 104857601)]).
Proof.
  split.
  - apply (proj2 (proj2 (validateFile_size_ceiling FileUpload.DEFAULT_FORMATS
                           {| name := "Report.PDF"; fsize := 104857600 |}))).
    + vm_compute. discriminate.
    + vm_compute. reflexivity.
  - apply (proj1 (proj2 (validateFile_size_ceiling FileUpload.DEFAULT_FORMATS
                           {| name := "Report.PDF"; fsize := 104857601 |}))).
    vm_compute. reflexivity.
Defined.

(** ** Blank queries *)

Lemma trimStart_blank (s : string) : Js.blank s = true → Js.trimStart s = "".
Proof.
  induction s as [|c r IH]; cbn; [done|].
  destruct (Js.is_white_space c); cbn; [exact IH | done].
Qed.

(** [!s.trim()] holds exactly for the strings made of white space. *)
Lemma trim_truthy (s : string) : Js.truthy (Js.trim s) = negb (Js.blank s).
Proof.
  unfold Js.trim. induction s as [|c r IH]; [done|].
  cbn [Js.trimStart Js.blank].
  destruct (Js.is_white_space c) eqn:Hc; [exact IH|].
  cbn. by rewrite Hc.
Qed.

(** C8.  When the query is empty or made of white space only,
    [handleSearch] shows the toast "Please enter a query" and does nothing
    else: no request is in the log, and the store (so its search results
    and its answer), the tab and the abort flags are as before. *)
Theorem blank_query_rejected (env : IntelligentQueryTab.Env) (w : World) :
  Js.blank (currentQuery (store w)) = true →
  let w' := IntelligentQueryTab.handleSearch env w in
  log w' = log w ++ [Toast ToastError (Plain "Please enter a query")]
  ∧ store w' = store w
  ∧ searchResults (store w') = searchResults (store w)
  ∧ currentAnswer (store w') = currentAnswer (store w)
  ∧ tab w' = tab w
  ∧ signals w' = signals w.
Proof.
  intros H. unfold IntelligentQueryTab.handleSearch.
  rewrite trim_truthy, H. cbn. done.
Qed.

Lemma blank_query_rejected_witness :
  log (IntelligentQueryTab.handleSearch Sample.cancelThenAnswer
         (Sample.world "  	 " (Some "Thirty days.")))
  = [Toast ToastError (Plain "Please enter a query")].
Proof.
  exact (proj1 (blank_query_rejected Sample.cancelThenAnswer
                  (Sample.world "  	 " (Some "Thirty days.")) eq_refl)).
Defined.

(** ** The retry policy *)

(** Below the bound, [shouldRetry] decides by the class of the error. *)
Lemma shouldRetry_spec (e : JsError) (attempt maxRetries : nat) :
  shouldRetry e attempt maxRetries = (attempt <? maxRetries)%nat && transient e.
Proof.
  unfold shouldRetry, transient.
  destruct (Nat.leb_spec maxRetries attempt) as [Hle|Hlt].
  - by replace (attempt <? maxRetries)%nat with false
      by (symmetry; apply Nat.ltb_ge; lia).
  - replace (attempt <? maxRetries)%nat with true
      by (symmetry; apply Nat.ltb_lt; lia).
    destruct e as [| |code resp|]; try done. cbn.
    destruct (code_is code "ECONNABORTED"), (code_is code "ERR_NETWORK"); try done.
    destruct (response_status resp) as [st|]; [|done]. cbn.
    destruct (Z.eqb_spec st 0) as [->|]; [done|]. cbn.
    by destruct (500 <=? st)%Z, (st =? 408)%Z, (st =? 429)%Z.
Qed.

Lemma waitTime_default (attempt : nat) :
  (waitTime DEFAULT_RETRY_CONFIG attempt == 500 * (3 # 2) ^ Z.of_nat attempt)%Q.
Proof. unfold waitTime. apply Qred_correct. Qed.

(** The loop of the client under the default configuration. *)
Lemma retryLoop_default {R} (path : string) (body : RequestBody) :
  boundedRetry (λ net : Net R,
    apiService.retryLoop DEFAULT_RETRY_CONFIG path body net
      (maxRetries DEFAULT_RETRY_CONFIG) 0 Undefined).
Proof.
  intros net. cbn -[shouldRetry waitTime].
  destruct (net 0%nat) as [e0|r0] eqn:E0.
  - rewrite (shouldRetry_spec e0). cbn -[shouldRetry waitTime transient].
    destruct (transient e0) eqn:T0.
    + assert (Hex : ∃ e, inl (B:=R) e0 = inl e ∧ transient e = true) by eauto.
      assert (Hno : ∀ e, inl (B:=R) e0 = inl e → transient e = false → False)
        by (intros e [= <-] ?; congruence).
      destruct (net 1%nat) as [e1|r1] eqn:E1.
      * rewrite (shouldRetry_spec e1). cbn -[transient].
        destruct (transient e1) eqn:T1; cbn;
          (repeat split; try done; try lia;
           [ intros _; eexists _, _; split; [reflexivity|by split]
           | intros e He Te; destruct (Hno e He Te) ]).
      * cbn. repeat split; try done; try lia;
          [ intros _; eexists _, _; split; [reflexivity|by split]
          | intros e He Te; destruct (Hno e He Te) ].
    + cbn. repeat split; try done; try lia.
      * intros (e & He & Te). congruence.
      * intros e He _. congruence.
  - cbn. repeat split; try done; try lia.
    intros (e & He & Te). congruence.
Qed.

(** C3.  [search] and [generateAnswer] make at most two requests; the
    second one is made exactly when the first failed with a transient
    error (timeout, network error, status 500 and above, 408, 429), 500 ms
    after it, and a wait is 500 ms times 1.5 to the attempt; at every
    attempt of the loop [shouldRetry] holds exactly for the transient
    errors, so an HTTP 400 is never retried and is the outcome at once. *)
Theorem retry_bounded_and_transient_only :
  maxRetries DEFAULT_RETRY_CONFIG = 2%nat
  ∧ (∀ e attempt, (attempt < 2)%nat → shouldRetry e attempt 2 = transient e)
  ∧ (∀ attempt,
       (waitTime DEFAULT_RETRY_CONFIG attempt == 500 * (3 # 2) ^ Z.of_nat attempt)%Q)
  ∧ (∀ data, boundedRetry (apiService.search data))
  ∧ (∀ data, boundedRetry (apiService.generateAnswer data))
  ∧ (∀ code r attempt,
       status r = 400%Z →
       code_is code "ECONNABORTED" = false →
       code_is code "ERR_NETWORK" = false →
       transient (AxiosError code (Some r)) = false
       ∧ shouldRetry (AxiosError code (Some r)) attempt 2 = false).
Proof.
  split; [reflexivity|]. split.
  { intros e attempt H. rewrite shouldRetry_spec.
    replace (attempt <? 2)%nat with true; [done|].
    symmetry. by apply Nat.ltb_lt. }
  split; [apply waitTime_default|].
  split; [intros data; apply retryLoop_default|].
  split; [intros data; apply retryLoop_default|].
  intros code r attempt Hst H1 H2.
  assert (T : transient (AxiosError code (Some r)) = false).
  { cbn. by rewrite H1, H2, Hst. }
  split; [exact T|]. rewrite shouldRetry_spec, T. apply andb_false_r.
Qed.

Lemma retry_bounded_and_transient_only_witness :
  shouldRetry Sample.unavailable 0 2 = true
  ∧ shouldRetry Sample.badRequest 0 2 = false
  ∧ apiService.search (IntelligentQueryTab.searchRequest initialState)
      (Sample.rejects Sample.badRequest)
    = (inl Sample.badRequest,
       [Http "POST" "/search"
          (SearchBody (IntelligentQueryTab.searchRequest initialState))]).
Proof.
  pose proof retry_bounded_and_transient_only as (_ & Hs & _ & Hsearch & _ & H400).
  split; [by rewrite (Hs Sample.unavailable 0%nat) by lia|].
  split.
  - apply (H400 (Some "ERR_BAD_REQUEST")
             {| status := 400; statusText := "Bad Request"; data_message := None |}
             0%nat); reflexivity.
  - pose proof (Hsearch (IntelligentQueryTab.searchRequest initialState)
                  (Sample.rejects Sample.badRequest)) as (_ & _ & _ & _ & Hout).
    exact (Hout Sample.badRequest eq_refl eq_refl).
Defined.

(** ** What a handler adds to the log *)

Section Adds.

Context (P : Event → Prop).

Lemma adds_refl (w : World) : adds P w w.
Proof. exists []. by rewrite app_nil_r. Qed.

Lemma adds_emits (es : list Event) (w w' : World) :
  adds P w w' → Forall P es → adds P w (emits es w').
Proof.
  intros (d & Hd & HP) Hes. exists (d ++ es). cbn.
  rewrite Hd, <- app_assoc. split; [done|]. by apply Forall_app.
Qed.

Lemma adds_emit (e : Event) (w w' : World) :
  adds P w w' → P e → adds P w (emit e w').
Proof. intros. apply adds_emits; [done|]. by constructor. Qed.

Lemma adds_toast (k : ToastKind) (s : string) (w w' : World) :
  adds P w w' → P (Toast k (Plain s)) → adds P w (toast k s w').
Proof. apply adds_emit. Qed.

Lemma adds_dispatch (a : StoreAction) (w w' : World) :
  adds P w w' → P (StoreWrite a) → adds P w (dispatch a w').
Proof.
  intros (d & Hd & HP) Ha. exists (d ++ [StoreWrite a]). cbn.
  rewrite Hd, <- app_assoc. split; [done|]. apply Forall_app; auto.
Qed.

Lemma adds_setState (a : TabAction) (w w' : World) :
  adds P w w' → P (TabWrite a) → adds P w (setState a w').
Proof.
  intros (d & Hd & HP) Ha. exists (d ++ [TabWrite a]). cbn.
  rewrite Hd, <- app_assoc. split; [done|]. apply Forall_app; auto.
Qed.

Lemma adds_abort (c : AbortSignal) (w w' : World) :
  adds P w w' → P (Abort c) → adds P w (abort c w').
Proof.
  intros (d & Hd & HP) Ha. exists (d ++ [Abort c]). cbn.
  rewrite Hd, <- app_assoc. split; [done|]. apply Forall_app; auto.
Qed.

Lemma adds_newAbortController (w w' : World) :
  adds P w w' → adds P w (newAbortController w').2.
Proof. done. Qed.

(** The events that are neither a request nor a console error. *)
Hypothesis P_quiet : ∀ e, isRequest e = false → P e.

Lemma adds_interrupt (i : IntelligentQueryTab.Interrupt) (w w' : World) :
  adds P w w' → adds P w (IntelligentQueryTab.interrupt i w').
Proof.
  intros H. destruct i; cbn; [done| |].
  - unfold IntelligentQueryTab.handleCancelSearch.
    destruct (abortController (tab w')); [|done].
    apply adds_toast, P_quiet; [|done].
    apply adds_dispatch, P_quiet; [|done].
    apply adds_setState, P_quiet; [|done].
    by apply adds_abort, P_quiet.
  - unfold IntelligentQueryTab.effectCleanup.
    destruct (abortController (tab w')); [|done].
    by apply adds_abort, P_quiet.
Qed.

Lemma adds_finally (c : AbortSignal) (w w' : World) :
  adds P w w' → adds P w (IntelligentQueryTab.finally c w').
Proof.
  intros H. unfold IntelligentQueryTab.finally.
  destruct (aborted c w'); [done|].
  apply adds_dispatch, P_quiet; [|done].
  by apply adds_setState, P_quiet.
Qed.

End Adds.

(** The events of a client call are its requests, all alike, and waits. *)
Lemma retryLoop_events {R} (cfg : RetryConfig) (path : string)
    (body : RequestBody) (net : Net R) (remaining attempt : nat) (e : JsError) :
  Forall (λ ev, ev = Http "POST" path body ∨ ∃ ms, ev = Delay ms)
    (apiService.retryLoop cfg path body net remaining attempt e).2.
Proof.
  revert attempt e. induction remaining as [|n IH]; intros attempt e; cbn.
  - constructor.
  - destruct (net attempt) as [e'|r]; [|by constructor; [left|]].
    destruct (shouldRetry e' attempt (maxRetries cfg)).
    + specialize (IH (S attempt) e').
      destruct (apiService.retryLoop cfg path body net n (S attempt) e').
      cbn in *. constructor; [by left|]. constructor; [right; eauto|done].
    + by constructor; [left|].
Qed.

(** ** Answer generation is called with retrieved chunks only *)

Lemma answersFor_quiet (rs : option (list SearchResult)) (e : Event) :
  isRequest e = false → answersFor rs e.
Proof. intros H m p data ->. discriminate. Qed.

Ltac adds_steps Q :=
  repeat first
    [ assumption
    | apply adds_refl
    | apply (adds_finally _ Q)
    | apply (adds_interrupt _ Q)
    | apply adds_toast; [|by apply Q]
    | apply adds_emit; [|by apply Q]
    | apply adds_dispatch; [|by apply Q]
    | apply adds_setState; [|by apply Q] ].

Section HandleSearchAdds.

Import IntelligentQueryTab.

Context (P : Event → Prop).
Hypothesis P_quiet : ∀ e, isRequest e = false → P e.

(** The answer stage adds its requests and quiet events. *)
Lemma answerStage_adds (env : Env) (c : AbortSignal) (q : string)
    (rs : list SearchResult) (maxTok temp : number) (w w' : World) :
  (∀ data, retrieved_chunks data = rs → P (Http "POST" "/llm/answer" (AnswerBody data))) →
  adds P w w' →
  adds P w (answerStage env c q rs maxTok temp w').
Proof.
  intros Hreq H. unfold answerStage.
  pose proof (retryLoop_events DEFAULT_RETRY_CONFIG "/llm/answer"
    (AnswerBody {| areq_query := q; retrieved_chunks := rs;
                   areq_max_tokens := Some maxTok; areq_temperature := Some temp |})
    (answer_net env) (maxRetries DEFAULT_RETRY_CONFIG) 0 Undefined) as Hev.
  fold (apiService.generateAnswer
    {| areq_query := q; retrieved_chunks := rs;
       areq_max_tokens := Some maxTok; areq_temperature := Some temp |}
    (answer_net env)) in Hev.
  destruct (apiService.generateAnswer _ _) as [r requests]. cbn in Hev.
  assert (Hreqs : Forall P requests).
  { eapply Forall_impl; [exact Hev|]. intros e [->|[ms ->]]; [by apply Hreq|by apply P_quiet]. }
  assert (H2 : adds P w (interrupt (during_answer env) (emits requests w'))).
  { apply (adds_interrupt _ P_quiet). by apply adds_emits. }
  destruct r as [answerErr|answerResponse].
  - adds_steps P_quiet.
  - destruct (aborted c _); [done|].
    destruct (Js.truthy _); adds_steps P_quiet.
Qed.

(** The search stage: what is in the log before the outcome is read. *)
Lemma searchStage_adds (env : Env) (w : World) :
  (∀ data, P (Http "POST" "/search" (SearchBody data))) →
  let w1 := w |> setState (SetError None)
              |> setState (SetAnswerSources [])
              |> dispatch ClearSearchResults in
  let w3 := (newAbortController w1).2
              |> setState (SetAbortController (Some (newAbortController w1).1))
              |> dispatch (SetIsSearching true) in
  adds P w
    (w3 |> emits (apiService.search (searchRequest (store w)) (search_net env)).2
        |> interrupt (during_search env)).
Proof.
  intros Hreq w1 w3.
  apply (adds_interrupt _ P_quiet). apply adds_emits.
  - subst w3 w1. adds_steps P_quiet.
  - eapply Forall_impl; [apply retryLoop_events|].
    intros e [->|[ms ->]]; [by apply Hreq|by apply P_quiet].
Qed.

End HandleSearchAdds.

Section HandleSearchLog.

Import IntelligentQueryTab.

Context (P : Event → Prop) (env : Env) (w : World).
Hypothesis P_quiet : ∀ e, isRequest e = false → P e.
Hypothesis P_search : ∀ data, P (Http "POST" "/search" (SearchBody data)).
Hypothesis P_answer :
  ∀ l data, retrieved env w = Some l → l ≠ [] → retrieved_chunks data = l →
    P (Http "POST" "/llm/answer" (AnswerBody data)).

(** Every event of a run of [handleSearch] is quiet, a search request, or
    an answer request for the results retrieved in this run, of which
    there is at least one. *)
Lemma handleSearch_adds : adds P w (handleSearch env w).
Proof.
  unfold handleSearch.
  destruct (negb _); [adds_steps P_quiet|].
  pose proof (searchStage_adds P P_quiet env w P_search) as H5.
  unfold retrieved in P_answer.
  unfold newAbortController in *. cbv zeta in H5. cbn [fst snd] in H5.
  destruct (apiService.search _ _) as [r requests]. cbn [fst snd] in *.
  destruct r as [searchErr|searchResponse].
  - destruct (aborted _ _); adds_steps P_quiet.
  - destruct (aborted _ _); [adds_steps P_quiet|].
    destruct (default [] (results searchResponse)) as [|r0 rs] eqn:Hrs;
      [adds_steps P_quiet|].
    apply (adds_finally _ P_quiet).
    apply (answerStage_adds _ P_quiet).
    + intros data Hd. by apply (P_answer (r0 :: rs)).
    + adds_steps P_quiet.
Qed.

End HandleSearchLog.

(** C6.  In a run of [handleSearch], every answer-generation request
    carries the results that this run retrieved, and these are not empty;
    so when the retrieval gave no result (or failed), no such request is
    made. *)
Theorem answer_requested_with_chunks_only
    (env : IntelligentQueryTab.Env) (w : World) :
  ∃ d, log (IntelligentQueryTab.handleSearch env w) = log w ++ d
       ∧ Forall (answersFor (retrieved env w)) d
       ∧ Forall carriesChunks d
       ∧ (retrieved env w = Some [] ∨ retrieved env w = None →
          Forall (λ e, isAnswerRequest e = false) d).
Proof.
  destruct (handleSearch_adds (answersFor (retrieved env w)) env w)
    as (d & Hd & HP).
  - apply answersFor_quiet.
  - intros data m p data' [=].
  - intros l data Hl Hne Hdata m p data' [= _ _ <-]. by rewrite Hdata.
  - exists d. split; [done|]. split; [done|]. split.
    + eapply Forall_impl; [exact HP|].
      intros e He m p data Heq. by destruct (He m p data Heq).
    + intros Hr. eapply Forall_impl; [exact HP|].
      intros e He. destruct e as [| |m p [| data | |]| | | |]; try done.
      destruct (He m p data eq_refl) as [Hsome Hne].
      destruct Hr as [Hr|Hr]; rewrite Hr in Hsome; congruence.
Qed.

Lemma answer_requested_with_chunks_only_witness :
  ∃ d, log (IntelligentQueryTab.handleSearch Sample.emptyStore
              (Sample.world "retention?" None)) = d
       ∧ Forall (λ e, isAnswerRequest e = false) d.
Proof.
  destruct (answer_requested_with_chunks_only Sample.emptyStore
              (Sample.world "retention?" None)) as (d & Hd & _ & _ & Hnone).
  exists d. split; [exact Hd|]. apply Hnone. left. reflexivity.
Defined.

(** ** The fresh abort controller *)

Lemma fresh_not_aborted (l : list bool) :
  default false ((l ++ [false]) !! length l) = false.
Proof. by rewrite list_lookup_middle. Qed.

Lemma fresh_aborted (l : list bool) :
  default false (<[length l := true]> (l ++ [false]) !! length l) = true.
Proof.
  rewrite list_lookup_insert_eq; [done|]. rewrite length_app. cbn. lia.
Qed.

(** Decide the [aborted] tests of the goal for the controller made by the
    run: it is the last flag, nothing but [abort] writes the flags. *)
Ltac decide_aborted :=
  repeat match goal with
  | |- context [aborted ?c ?w] =>
      first
        [ replace (aborted c w) with false
            by (unfold aborted; cbn; by rewrite fresh_not_aborted)
        | replace (aborted c w) with true
            by (unfold aborted; cbn; by rewrite fresh_aborted) ]
  end.

(** ** A search without results *)

Section NoResults.

Import IntelligentQueryTab.

Context (env : Env) (w : World).
Hypothesis query_given : Js.blank (currentQuery (store w)) = false.
Hypothesis not_cancelled : during_search env = NoInterrupt.

Lemma search_requests_quiet :
  Forall (λ e, isAnswerRequest e = false ∧ isConsoleError e = false)
    (apiService.search (searchRequest (store w)) (search_net env)).2.
Proof.
  eapply Forall_impl; [apply retryLoop_events|].
  by intros e [->|[ms ->]].
Qed.

Lemma handleSearch_no_results :
  retrieved env w = Some [] →
  let w' := handleSearch env w in
  tab_error (tab w') = Some "No relevant documents found for this query"
  ∧ currentAnswer (store w') = Some ""
  ∧ searchResults (store w') = []
  ∧ isSearching (store w') = false
  ∧ adds (λ e, isAnswerRequest e = false ∧ isConsoleError e = false) w w'.
Proof.
  unfold retrieved, handleSearch. pose proof search_requests_quiet as Hq.
  rewrite trim_truthy, query_given, not_cancelled. cbn [negb interrupt].
  unfold newAbortController. cbv zeta.
  destruct (apiService.search _ _) as [[e|resp] requests]; cbn [fst snd] in *;
    [done|].
  intros [= Hrs]. decide_aborted. rewrite Hrs.
  unfold finally. decide_aborted.
  do 4 (split; [reflexivity|]).
  unfold adds. cbn. rewrite <- !app_assoc. eexists. split; [reflexivity|].
  repeat (apply Forall_app; split); try done; by repeat constructor.
Qed.

Lemma handleSearch_search_failed (e : JsError) :
  (apiService.search (searchRequest (store w)) (search_net env)).1 = inl e →
  let w' := handleSearch env w in
  tab_error (tab w') = Some ("Search failed: " +:+ getErrorMessage e)
  ∧ currentAnswer (store w') = Some ""
  ∧ searchResults (store w') = []
  ∧ isSearching (store w') = false
  ∧ ∃ d, log w' = log w ++ d ∧ ConsoleError "Search error:" e ∈ d.
Proof.
  unfold handleSearch.
  rewrite trim_truthy, query_given, not_cancelled. cbn [negb interrupt].
  unfold newAbortController. cbv zeta.
  destruct (apiService.search _ _) as [[e'|resp] requests]; cbn [fst snd] in *;
    [|done].
  intros [= ->]. decide_aborted.
  unfold finally. decide_aborted.
  do 4 (split; [reflexivity|]).
  cbn. rewrite <- !app_assoc. eexists. split; [reflexivity|].
  set_solver.
Qed.

End NoResults.

(** C1 (as the code has it).  A search that was not cancelled and
    retrieved nothing is reported through the error field of the tab, with
    the message "No relevant documents found for this query"; the answer
    becomes the empty string, the results the empty list and the searching
    flag is cleared, as after a failed search; no answer request is made
    and nothing is written to the error console.  A failed search is
    reported through the same field with "Search failed: " and the reason,
    which is never the message of the empty result, and is written to the
    error console. *)
Theorem empty_result_reported_in_error_field
    (env : IntelligentQueryTab.Env) (w : World) :
  Js.blank (currentQuery (store w)) = false →
  IntelligentQueryTab.during_search env = IntelligentQueryTab.NoInterrupt →
  let w' := IntelligentQueryTab.handleSearch env w in
  (retrieved env w = Some [] →
     tab_error (tab w') = Some "No relevant documents found for this query"
     ∧ currentAnswer (store w') = Some ""
     ∧ searchResults (store w') = []
     ∧ isSearching (store w') = false
     ∧ adds (λ e, isAnswerRequest e = false ∧ isConsoleError e = false) w w')
  ∧ (∀ e,
       (apiService.search (IntelligentQueryTab.searchRequest (store w))
          (IntelligentQueryTab.search_net env)).1 = inl e →
       tab_error (tab w') = Some ("Search failed: " +:+ getErrorMessage e)
       ∧ tab_error (tab w') ≠ Some "No relevant documents found for this query"
       ∧ currentAnswer (store w') = Some ""
       ∧ searchResults (store w') = []
       ∧ isSearching (store w') = false
       ∧ ∃ d, log w' = log w ++ d ∧ ConsoleError "Search error:" e ∈ d).
Proof.
  intros Hq Hn w'. split.
  - by apply handleSearch_no_results.
  - intros e He.
    destruct (handleSearch_search_failed env w Hq Hn e He)
      as (Herr & Ha & Hr & Hs & Hlog).
    subst w'. split; [exact Herr|]. split; [|done].
    rewrite Herr. discriminate.
Qed.

Lemma empty_result_reported_in_error_field_witness :
  let w := Sample.world "retention?" None in
  tab_error (tab (IntelligentQueryTab.handleSearch Sample.emptyStore w))
    = Some "No relevant documents found for this query"
  ∧ tab_error (tab (IntelligentQueryTab.handleSearch Sample.backendDown w))
    = Some "Search failed: Server is unavailable - please try again later".
Proof.
  intros w. split.
  - exact (proj1 (proj1 (empty_result_reported_in_error_field
                           Sample.emptyStore w eq_refl eq_refl) eq_refl)).
  - exact (proj1 (proj2 (empty_result_reported_in_error_field
                           Sample.backendDown w eq_refl eq_refl)
                    Sample.unavailable eq_refl)).
Defined.

(** C1, as stated, fails: after a search of an empty store (it succeeds,
    with no result) the error field is set, and the shared store is the
    very state a search against a backend that is down leaves behind. *)
Lemma empty_result_recorded_as_error :
  let w := Sample.world "retention?" None in
  retrieved Sample.emptyStore w = Some []
  ∧ retrieved Sample.backendDown w = None
  ∧ tab_error (tab (IntelligentQueryTab.handleSearch Sample.emptyStore w)) ≠ None
  ∧ store (IntelligentQueryTab.handleSearch Sample.emptyStore w)
    = store (IntelligentQueryTab.handleSearch Sample.backendDown w).
Proof. cbv zeta. split; [|split; [|split]]; vm_compute; done. Qed.

(** ** Cancellation *)

Section Cancellation.

Import IntelligentQueryTab.

(** The answer stage when the user cancels while the answer is generated:
    a reply of the language model is dropped, the world is the one the
    Cancel button left; a rejection is still written to the error field
    and resets the answer in the store. *)
Lemma answerStage_cancelled (env : Env) (c : AbortSignal) (q : string)
    (rs : list SearchResult) (maxTok temp : number) (w : World) :
  abortController (tab w) = Some c →
  (c < length (signals w))%nat →
  during_answer env = UserCancel →
  let call :=
    apiService.generateAnswer
      {| areq_query := q; retrieved_chunks := rs;
         areq_max_tokens := Some maxTok; areq_temperature := Some temp |}
      (answer_net env) in
  let w2 := w |> emits call.2 |> handleCancelSearch in
  aborted c w2 = true
  ∧ answerStage env c q rs maxTok temp w
    = match call.1 with
      | inr _ => w2
      | inl answerErr =>
          w2 |> setState (SetError (Some ("Failed to generate answer: "
                                          +:+ getErrorMessage answerErr)))
             |> dispatch (SetCurrentAnswer (Some ""))
             |> emit (ConsoleError "Answer generation error:" answerErr)
      end.
Proof.
  intros Hc Hlt Hcancel call w2.
  assert (Hab : aborted c w2 = true).
  { subst w2. unfold handleCancelSearch, aborted. cbn. rewrite Hc. cbn.
    by rewrite list_lookup_insert_eq. }
  split; [exact Hab|].
  unfold answerStage. fold call. rewrite Hcancel. cbn [interrupt].
  destruct call as [[e|resp] requests]; cbn [fst snd] in *; [done|].
  fold w2. by rewrite Hab.
Qed.

End Cancellation.

(** C4 fails on the code.  One hit is found, the user presses Cancel while
    the answer is generated, and the requests to the language model then
    fail: after the abort, and after the writes of the Cancel button, the
    handler still sets the error of the tab and overwrites the answer in
    the shared store, which held the answer to the previous query. *)
Theorem cancelled_query_still_writes :
  let w := Sample.world "retention?" (Some "An earlier answer.") in
  let w' := IntelligentQueryTab.handleSearch Sample.cancelThenFail w in
  ∃ before after,
    log w' = before ++ Abort 0 :: after
    ∧ after =
        [ TabWrite (SetAbortController None);
          StoreWrite (SetIsSearching false);
          Toast ToastSuccess (Plain "Search cancelled");
          TabWrite (SetError (Some
            "Failed to generate answer: Network error - check your connection and backend status"));
          StoreWrite (SetCurrentAnswer (Some ""));
          ConsoleError "Answer generation error:" Sample.networkError ]
    ∧ currentAnswer (store w) = Some "An earlier answer."
    ∧ currentAnswer (store w') = Some ""
    ∧ tab_error (tab w') = Some
        "Failed to generate answer: Network error - check your connection and backend status".
Proof.
  cbv zeta.
  eexists (take 11 (log (IntelligentQueryTab.handleSearch Sample.cancelThenFail
                           (Sample.world "retention?" (Some "An earlier answer."))))), _.
  split; [vm_compute; reflexivity|]. repeat split.
Qed.

(** The sibling path: the same run, but the language model answers.  The
    guard after the [await] drops the answer: the log ends with the writes
    of the Cancel button and the store keeps the earlier answer. *)
Lemma cancelled_query_drops_answer :
  let w := Sample.world "retention?" (Some "An earlier answer.") in
  let w' := IntelligentQueryTab.handleSearch Sample.cancelThenAnswer w in
  ∃ before,
    log w' = before ++
      [ Abort 0; TabWrite (SetAbortController None);
        StoreWrite (SetIsSearching false);
        Toast ToastSuccess (Plain "Search cancelled") ]
    ∧ currentAnswer (store w') = Some "An earlier answer."
    ∧ tab_error (tab w') = None.
Proof.
  cbv zeta.
  eexists (take 8 (log (IntelligentQueryTab.handleSearch Sample.cancelThenAnswer
                          (Sample.world "retention?" (Some "An earlier answer."))))).
  split; [vm_compute; reflexivity|]. split; reflexivity.
Qed.

(** ** The chunker *)

Section ChunkerFacts.

Import Chunker.

(** [ceil_div] is the ceiling of the quotient. *)
Lemma ceil_div_spec (a b : nat) :
  (0 < b)%nat →
  (a ≤ ceil_div a b * b)%nat ∧ ((0 < a)%nat → ((ceil_div a b - 1) * b < a)%nat).
Proof.
  intros Hb. unfold ceil_div.
  pose proof (Nat.div_mod_eq (a + b - 1) b) as Hdm.
  pose proof (Nat.mod_upper_bound (a + b - 1) b ltac:(lia)) as Hm.
  split; [nia|]. intros Ha. nia.
Qed.

Lemma ceil_step (a s : nat) :
  (0 < s)%nat → (0 < a)%nat →
  ((a + s - 1) / s = S ((a - s + s - 1) / s))%nat.
Proof.
  intros Hs Ha. destruct (le_lt_dec s a) as [Hle|Hlt].
  - replace (a + s - 1)%nat with ((a - s + s - 1) + 1 * s)%nat by lia.
    rewrite Nat.div_add by lia. lia.
  - replace (a - s)%nat with 0%nat by lia. cbn [Nat.add].
    rewrite (Nat.div_small (s - 1) s) by lia.
    symmetry. apply (Nat.div_unique _ _ _ (a - 1)); lia.
Qed.

Lemma ceil_le (a s : nat) : (0 < s)%nat → ((a + s - 1) / s ≤ a)%nat.
Proof.
  intros Hs. destruct a as [|a].
  - rewrite Nat.div_small; lia.
  - apply Nat.Div0.div_le_upper_bound. nia.
Qed.

Lemma chunk_unfold (text : string) (chunk_size overlap : nat) :
  (overlap < chunk_size)%nat → (0 < String.length text)%nat →
  chunk text chunk_size overlap
  = inr (chunksFrom (String.length text) text chunk_size overlap 0).
Proof.
  intros Ho Hl. unfold chunk.
  replace (chunk_size <=? overlap)%nat with false
    by (symmetry; apply Nat.leb_gt; lia).
  destruct text; [cbn in Hl; lia | done].
Qed.

Context (text : string) (chunk_size overlap : nat).
Hypothesis overlap_below : (overlap < chunk_size)%nat.

Let L := String.length text.
Let step := (chunk_size - overlap)%nat.

(** With enough fuel the loop runs to the chunk that reaches the end. *)
Lemma chunksFrom_length (fuel offset : nat) :
  (S ((L - (offset + chunk_size) + step - 1) / step) ≤ fuel)%nat →
  length (chunksFrom fuel text chunk_size overlap offset)
  = S ((L - (offset + chunk_size) + step - 1) / step).
Proof.
  revert offset. induction fuel as [|fuel IH]; intros offset Hf; [lia|].
  cbn [chunksFrom length]. fold L. f_equal.
  destruct (Nat.leb_spec L (offset + chunk_size)) as [Hle|Hlt].
  - replace (L - (offset + chunk_size))%nat with 0%nat by lia.
    cbn [Nat.add length]. subst step. rewrite Nat.div_small; lia.
  - fold step.
    assert (Hstep :
      ((L - (offset + chunk_size) + step - 1) / step
       = S ((L - (offset + step + chunk_size) + step - 1) / step))%nat).
    { rewrite ceil_step by (subst step; lia). do 3 f_equal. lia. }
    rewrite Hstep in *. apply IH. lia.
Qed.

(** The i-th chunk of the loop starts [i] steps after the first. *)
Lemma chunksFrom_lookup (fuel offset i : nat) (c : Chunk) :
  chunksFrom fuel text chunk_size overlap offset !! i = Some c →
  start c = (offset + i * step)%nat
  ∧ chunk_text c = substring (offset + i * step) chunk_size text.
Proof.
  revert offset i. induction fuel as [|fuel IH]; intros offset i; [done|].
  cbn [chunksFrom]. destruct i as [|i]; cbn [lookup list_lookup].
  - intros [= <-]. cbn. by rewrite Nat.add_0_r.
  - destruct (_ <=? _)%nat; [done|].
    intros H. apply IH in H. fold step in H.
    replace (offset + S i * step)%nat with (offset + step + i * step)%nat by lia.
    exact H.
Qed.

Lemma substring_all (s : string) (n : nat) :
  (String.length s ≤ n)%nat → substring 0 n s = s.
Proof.
  revert n. induction s as [|a s IH]; intros n Hn.
  - by destruct n.
  - destruct n as [|n]; cbn in *; [lia|]. rewrite IH; [done|lia].
Qed.

Lemma chunk_long :
  (chunk_size < L)%nat →
  ∃ cs, chunk text chunk_size overlap = inr cs
        ∧ cs = chunksFrom L text chunk_size overlap 0
        ∧ length cs = ceil_div (L - overlap) step.
Proof.
  intros Hlong. rewrite chunk_unfold by (fold L; lia).
  eexists. split; [reflexivity|]. split; [reflexivity|]. fold L.
  rewrite chunksFrom_length.
  - unfold ceil_div. cbn [Nat.add].
    replace (L - overlap + step - 1)%nat
      with ((L - chunk_size + step - 1) + 1 * step)%nat by (subst step; lia).
    rewrite Nat.div_add by (subst step; lia). lia.
  - cbn [Nat.add]. pose proof (ceil_le (L - chunk_size) step). subst step. lia.
Qed.

Lemma chunk_short :
  (0 < L ≤ chunk_size)%nat →
  chunk text chunk_size overlap = inr [ {| start := 0; chunk_text := text |} ].
Proof.
  intros [Hpos Hshort]. rewrite chunk_unfold by (fold L; lia).
  fold L. destruct L as [|n] eqn:EL; [lia|].
  cbn [chunksFrom]. rewrite substring_all by (fold L; lia).
  replace (String.length text <=? 0 + chunk_size)%nat with true; [done|].
  symmetry. apply Nat.leb_le. fold L. lia.
Qed.

End ChunkerFacts.

(** C2.  With an overlap below the chunk size, a text of length L gives
    [ceil ((L - O) / (C - O))] chunks when L > C, one chunk (the whole
    text) when 0 < L <= C, and no chunk only when it is empty, in which
    case the ingestion is rejected as an empty document instead of
    succeeding without chunks; the chunk number i starts at offset
    i * (C - O), so every chunk starts (C - O) after the one before. *)
Theorem chunk_count_and_offsets (text : string) (chunk_size overlap : nat) :
  (overlap < chunk_size)%nat →
  let L := String.length text in
  ∃ cs,
    Chunker.chunk text chunk_size overlap = inr cs
    ∧ ((chunk_size < L)%nat →
       length cs = Chunker.ceil_div (L - overlap) (chunk_size - overlap))
    ∧ ((0 < L ≤ chunk_size)%nat →
       cs = [ {| Chunker.start := 0; Chunker.chunk_text := text |} ]
       ∧ length cs = 1%nat)
    ∧ (length cs = 0%nat ↔ L = 0%nat)
    ∧ (L = 0%nat → Chunker.ingest text chunk_size overlap = inl Chunker.EmptyDocument)
    ∧ ((0 < L)%nat → Chunker.ingest text chunk_size overlap = inr cs)
    ∧ (∀ i c, cs !! i = Some c →
         Chunker.start c = (i * (chunk_size - overlap))%nat
         ∧ Chunker.chunk_text c
           = substring (i * (chunk_size - overlap)) chunk_size text)
    ∧ (∀ i c c', cs !! i = Some c → cs !! S i = Some c' →
         Chunker.start c' = (Chunker.start c + (chunk_size - overlap))%nat).
Proof.
  intros Ho L.
  destruct (Nat.eq_dec L 0) as [H0|Hpos].
  - (* the empty text *)
    assert (text = "") as -> by (destruct text; [done|discriminate]).
    exists []. unfold Chunker.ingest, Chunker.chunk.
    replace (chunk_size <=? overlap)%nat with false
      by (symmetry; apply Nat.leb_gt; lia).
    subst L. cbn. repeat split; try done; lia.
  - assert (Hlookup : ∀ cs, cs = Chunker.chunksFrom L text chunk_size overlap 0 →
      ∀ i c, cs !! i = Some c →
        Chunker.start c = (i * (chunk_size - overlap))%nat
        ∧ Chunker.chunk_text c
          = substring (i * (chunk_size - overlap)) chunk_size text).
    { intros cs -> i c Hc.
      by apply (chunksFrom_lookup text chunk_size overlap) in Hc. }
    pose proof (chunk_unfold text chunk_size overlap Ho ltac:(fold L; lia)) as Hcs.
    fold L in Hcs.
    set (cs := Chunker.chunksFrom L text chunk_size overlap 0) in *.
    assert (Hlen : (0 < length cs)%nat).
    { subst cs. destruct L; [lia|]. cbn. lia. }
    exists cs. split; [exact Hcs|].
    split.
    { intros Hlong.
      destruct (chunk_long text chunk_size overlap Ho Hlong) as (cs' & E & _ & Hn).
      fold L in E, Hn. rewrite Hcs in E. by injection E as <-. }
    split.
    { intros Hshort.
      pose proof (chunk_short text chunk_size overlap Ho Hshort) as E.
      rewrite Hcs in E. injection E as E. by rewrite E. }
    split; [lia|]. split; [lia|]. split.
    { intros _. unfold Chunker.ingest. rewrite Hcs.
      destruct cs; [cbn in Hlen; lia | done]. }
    split; [by apply Hlookup|].
    intros i c c' Hc Hc'.
    apply (Hlookup cs eq_refl) in Hc as [-> _], Hc' as [-> _]. lia.
Qed.

Lemma chunk_count_and_offsets_witness :
  ∃ cs, Chunker.chunk (Sample.textOf 2400) 1000 200 = inr cs
        ∧ length cs = 3%nat
        ∧ Chunker.start <$> cs = [0; 800; 1600]%nat.
Proof.
  destruct (chunk_count_and_offsets (Sample.textOf 2400) 1000 200 ltac:(lia))
    as (cs & Hcs & Hlen & _).
  exists cs. split; [exact Hcs|]. split.
  - rewrite Hlen; [reflexivity | vm_compute; lia].
  - assert (E : Chunker.chunk (Sample.textOf 2400) 1000 200
                = inr (Chunker.chunksFrom 2400 (Sample.textOf 2400) 1000 200 0))
      by (vm_compute; reflexivity).
    rewrite E in Hcs. injection Hcs as <-. vm_compute. reflexivity.
Defined.

(** * Further properties of the code *)

(** ** The document list of the store *)

Section Documents.

Import Store.

Lemma documents_removeDocument (p : string) (s : AppState) :
  documents (removeDocument p s) = filter (λ d, file_path d ≠ p) (documents s).
Proof. reflexivity. Qed.

Lemma removeDocument_commute (p q : string) (s : AppState) :
  removeDocument p (removeDocument q s) = removeDocument q (removeDocument p s).
Proof.
  unfold removeDocument. rewrite !setDocuments_twice.
  cbn [documents setDocuments]. f_equal.
  rewrite !list_filter_filter. apply list_filter_iff. intros d. tauto.
Qed.

End Documents.

(** X1.  After [removeDocument p] the list holds exactly the documents of
    a different path, in their old order; doubles of [p] all go.  Adding a
    document and then removing its path is removing the path; adding one
    and removing another path can be done in either order; removals
    commute. *)
Theorem removeDocument_removes_every_copy (p : string) (s : AppState) :
  (∀ d, d ∈ documents (Store.removeDocument p s)
        ↔ d ∈ documents s ∧ file_path d ≠ p)
  ∧ documents (Store.removeDocument p s) `sublist_of` documents s
  ∧ (∀ d, file_path d = p →
       Store.removeDocument p (Store.addDocument d (Store.addDocument d s))
       = Store.removeDocument p s)
  ∧ (∀ d, file_path d ≠ p →
       Store.removeDocument p (Store.addDocument d s)
       = Store.addDocument d (Store.removeDocument p s))
  ∧ (∀ q, Store.removeDocument p (Store.removeDocument q s)
          = Store.removeDocument q (Store.removeDocument p s)).
Proof.
  split; [|split; [|split; [|split]]].
  - intros d. rewrite documents_removeDocument, list_elem_of_filter. tauto.
  - rewrite documents_removeDocument. apply sublist_filter.
  - intros d Hd. unfold Store.removeDocument, Store.addDocument.
    rewrite !setDocuments_twice. cbn [documents Store.setDocuments]. f_equal.
    rewrite !filter_app, !filter_cons_False, filter_nil, !app_nil_r by tauto.
    reflexivity.
  - intros d Hd. unfold Store.removeDocument, Store.addDocument.
    rewrite !setDocuments_twice. cbn [documents Store.setDocuments]. f_equal.
    by rewrite filter_app, filter_cons_True, filter_nil.
  - intros q. apply removeDocument_commute.
Qed.

Lemma removeDocument_removes_every_copy_witness :
  Store.removeDocument "a.txt"
    (Store.addDocument (Sample.doc "a.txt")
       (Store.addDocument (Sample.doc "a.txt") initialState))
  = Store.removeDocument "a.txt" initialState
  ∧ Store.removeDocument "a.txt" (Store.addDocument (Sample.doc "b.txt") initialState)
    = Store.addDocument (Sample.doc "b.txt")
        (Store.removeDocument "a.txt" initialState).
Proof.
  pose proof (removeDocument_removes_every_copy "a.txt" initialState)
    as (_ & _ & Hsame & Hother & _).
  split.
  - apply Hsame. reflexivity.
  - apply Hother. discriminate.
Defined.

(** ** What is persisted *)

Section Persisted.

Import Store StoreActions.

Lemma partialize_lookups (s : AppState) :
  partialize s !! "activeTab" = Some (PTab (activeTab s))
  ∧ partialize s !! "chunkSize" = Some (PNumber (chunkSize s))
  ∧ partialize s !! "chunkOverlap" = Some (PNumber (chunkOverlap s))
  ∧ partialize s !! "searchK" = Some (PNumber (searchK s))
  ∧ partialize s !! "scoreThreshold" = Some (PNumber (scoreThreshold s))
  ∧ partialize s !! "temperature" = Some (PNumber (temperature s))
  ∧ partialize s !! "maxTokens" = Some (PNumber (maxTokens s))
  ∧ partialize s !! "selectedModel" = Some (PString (selectedModel s)).
Proof. unfold partialize. repeat split; by simplify_map_eq. Qed.

Lemma partialize_agree (s s' : AppState) :
  activeTab s = activeTab s' → chunkSize s = chunkSize s' →
  chunkOverlap s = chunkOverlap s' → searchK s = searchK s' →
  scoreThreshold s = scoreThreshold s' → temperature s = temperature s' →
  maxTokens s = maxTokens s' → selectedModel s = selectedModel s' →
  partialize s = partialize s'.
Proof.
  intros H1 H2 H3 H4 H5 H6 H7 H8.
  unfold partialize. by rewrite H1, H2, H3, H4, H5, H6, H7, H8.
Qed.

End Persisted.

(** Two chains of inserts with the same lookups. *)
Ltac same_map :=
  apply map_eq; intros i; unfold Store.partialize; cbn;
  rewrite ?lookup_insert; repeat case_decide; congruence.

(** X2.  The persisted projection and the eight settings determine each
    other: two states are persisted alike exactly when they agree on the
    active tab, the chunk size and overlap, k, the score threshold, the
    temperature, the token limit and the model. *)
Theorem partialize_determines_settings (s s' : AppState) :
  Store.partialize s = Store.partialize s'
  ↔ activeTab s = activeTab s'
    ∧ chunkSize s = chunkSize s'
    ∧ chunkOverlap s = chunkOverlap s'
    ∧ searchK s = searchK s'
    ∧ scoreThreshold s = scoreThreshold s'
    ∧ temperature s = temperature s'
    ∧ maxTokens s = maxTokens s'
    ∧ selectedModel s = selectedModel s'.
Proof.
  split.
  - intros H.
    pose proof (partialize_lookups s) as (H1 & H2 & H3 & H4 & H5 & H6 & H7 & H8).
    pose proof (partialize_lookups s') as (G1 & G2 & G3 & G4 & G5 & G6 & G7 & G8).
    rewrite H in H1, H2, H3, H4, H5, H6, H7, H8.
    repeat split; congruence.
  - intros (H1 & H2 & H3 & H4 & H5 & H6 & H7 & H8).
    by apply partialize_agree.
Qed.

Lemma partialize_determines_settings_witness :
  searchK (StoreActions.setSearchK (num 9) initialState) ≠ searchK initialState
  ∧ Store.partialize (StoreActions.setSearchK (num 9) initialState)
    ≠ Store.partialize initialState.
Proof.
  assert (H : searchK (StoreActions.setSearchK (num 9) initialState)
              ≠ searchK initialState) by discriminate.
  split; [exact H|].
  intros E.
  apply (proj1 (partialize_determines_settings _ _)) in E
    as (_ & _ & _ & Hk & _).
  exact (H Hk).
Defined.

(** X3.  Each of the eight settings actions rewrites its own property of
    the persisted projection and nothing else of it, and the other actions
    of the store (documents, results, query, answer, error, statistics,
    connection and search flags) leave the persisted projection as it
    is. *)
Theorem settings_actions_update_persisted (s : AppState) :
  (∀ t, Store.partialize (StoreActions.setActiveTab t s)
        = <["activeTab" := Store.PTab t]> (Store.partialize s))
  ∧ (∀ n, Store.partialize (StoreActions.setChunkSize n s)
          = <["chunkSize" := Store.PNumber n]> (Store.partialize s))
  ∧ (∀ n, Store.partialize (StoreActions.setChunkOverlap n s)
          = <["chunkOverlap" := Store.PNumber n]> (Store.partialize s))
  ∧ (∀ n, Store.partialize (StoreActions.setSearchK n s)
          = <["searchK" := Store.PNumber n]> (Store.partialize s))
  ∧ (∀ n, Store.partialize (StoreActions.setScoreThreshold n s)
          = <["scoreThreshold" := Store.PNumber n]> (Store.partialize s))
  ∧ (∀ n, Store.partialize (StoreActions.setTemperature n s)
          = <["temperature" := Store.PNumber n]> (Store.partialize s))
  ∧ (∀ n, Store.partialize (StoreActions.setMaxTokens n s)
          = <["maxTokens" := Store.PNumber n]> (Store.partialize s))
  ∧ (∀ m, Store.partialize (StoreActions.setSelectedModel m s)
          = <["selectedModel" := Store.PString m]> (Store.partialize s))
  ∧ (∀ ds, Store.partialize (Store.setDocuments ds s) = Store.partialize s)
  ∧ (∀ d, Store.partialize (Store.addDocument d s) = Store.partialize s)
  ∧ (∀ p, Store.partialize (Store.removeDocument p s) = Store.partialize s)
  ∧ (∀ rs, Store.partialize (Store.setSearchResults rs s) = Store.partialize s)
  ∧ (∀ q, Store.partialize (Store.setCurrentQuery q s) = Store.partialize s)
  ∧ (∀ a, Store.partialize (Store.setCurrentAnswer a s) = Store.partialize s)
  ∧ Store.partialize (Store.clearQueryState s) = Store.partialize s
  ∧ (∀ e, Store.partialize (StoreActions.setError e s) = Store.partialize s)
  ∧ (∀ st, Store.partialize (StoreActions.setStats st s) = Store.partialize s)
  ∧ (∀ b, Store.partialize (StoreActions.setBackendConnected b s)
          = Store.partialize s)
  ∧ (∀ b, Store.partialize (Store.setIsSearching b s) = Store.partialize s)
  ∧ (∀ g, Store.partialize (StoreActions.setSearchAbortSignal g s)
          = Store.partialize s).
Proof.
  repeat split; intros; try reflexivity; same_map.
Qed.

(** ** The retry loop in general *)

Lemma requestCount_cons_request (e : Event) (es : list Event) :
  isRequest e = true → requestCount (e :: es) = S (requestCount es).
Proof. intros H. unfold requestCount. cbn. by rewrite H. Qed.

Lemma requestCount_cons_quiet (e : Event) (es : list Event) :
  isRequest e = false → requestCount (e :: es) = requestCount es.
Proof. intros H. unfold requestCount. cbn. by rewrite H. Qed.

(** The loop from any attempt on, [remaining] iterations before the bound. *)
Lemma retryLoop_run {R} (cfg : RetryConfig) (path : string) (body : RequestBody)
    (net : Net R) (remaining attempt : nat) (last : JsError) :
  (attempt + remaining = maxRetries cfg)%nat →
  let res := apiService.retryLoop cfg path body net remaining attempt last in
  (requestCount res.2 ≤ remaining)%nat
  ∧ match res.1 with
    | inr x =>
        ∃ k, (attempt ≤ k < maxRetries cfg)%nat ∧ net k = inr x
             ∧ requestCount res.2 = S (k - attempt)
             ∧ length (delays res.2) = (k - attempt)%nat
             ∧ ∀ j, (attempt ≤ j < k)%nat → ∃ e, net j = inl e ∧ transient e = true
    | inl e =>
        (remaining = 0%nat ∧ e = last ∧ res.2 = [])
        ∨ ∃ k, (attempt ≤ k < maxRetries cfg)%nat ∧ net k = inl e
               ∧ requestCount res.2 = S (k - attempt)
               ∧ (∀ j, (attempt ≤ j < k)%nat →
                    ∃ e', net j = inl e' ∧ transient e' = true)
               ∧ (transient e = false ∧ length (delays res.2) = (k - attempt)%nat
                  ∨ S k = maxRetries cfg ∧ transient e = true
                    ∧ length (delays res.2) = S (k - attempt))
    end.
Proof.
  revert attempt last.
  induction remaining as [|rem IH]; intros attempt last Hsum; cbn zeta.
  - cbn. split; [done|]. by left.
  - cbn [apiService.retryLoop].
    destruct (net attempt) as [e|x] eqn:Enet.
    + rewrite shouldRetry_spec.
      replace (attempt <? maxRetries cfg)%nat with true
        by (symmetry; apply Nat.ltb_lt; lia).
      cbn [andb]. destruct (transient e) eqn:Te.
      * specialize (IH (S attempt) e ltac:(lia)). cbn zeta in IH.
        destruct (apiService.retryLoop cfg path body net rem (S attempt) e)
          as [r es]. cbn [fst snd] in *.
        destruct IH as [Hle IH].
        rewrite requestCount_cons_request, requestCount_cons_quiet by done.
        split; [lia|].
        assert (Hdel : ∀ ms, length (delays (Http "POST" path body :: Delay ms :: es))
                             = S (length (delays es))) by done.
        rewrite Hdel.
        destruct r as [e'|x].
        -- right. destruct IH as [(-> & -> & ->)|(k & Hk & Hnet & Hc & Hbefore & Hend)].
           ++ exists attempt. rewrite Nat.sub_diag. cbn.
              repeat split; try done; try lia.
              right. repeat split; try done; lia.
           ++ exists k. split; [lia|]. split; [done|].
              split; [rewrite Hc; lia|]. split.
              ** intros j Hj. destruct (decide (j = attempt)) as [->|Hne]; [eauto|].
                 apply Hbefore. lia.
              ** destruct Hend as [(? & Hd)|(? & ? & Hd)]; [left|right];
                   repeat split; try done; lia.
        -- destruct IH as (k & Hk & Hnet & Hc & Hd & Hbefore).
           exists k. split; [lia|]. split; [done|].
           split; [rewrite Hc; lia|]. split; [lia|].
           intros j Hj. destruct (decide (j = attempt)) as [->|Hne]; [eauto|].
           apply Hbefore. lia.
      * cbn. split; [lia|]. right. exists attempt. rewrite Nat.sub_diag.
        repeat split; try done; try lia. by left.
    + cbn. split; [lia|]. exists attempt. rewrite Nat.sub_diag.
      repeat split; try done; try lia.
Qed.

Lemma retryLoop_settles {R} (cfg : RetryConfig) (path : string)
    (body : RequestBody) :
  settlesWithLastReply (R:=R) (maxRetries cfg)
    (λ net, apiService.retryLoop cfg path body net (maxRetries cfg) 0 Undefined).
Proof.
  intros net.
  pose proof (retryLoop_run cfg path body net (maxRetries cfg) 0 Undefined eq_refl)
    as [Hle H].
  cbn zeta in *. split; [exact Hle|].
  destruct (apiService.retryLoop cfg path body net (maxRetries cfg) 0 Undefined)
    as [[e|x] es]; cbn [fst snd] in *.
  - destruct H as [(? & ? & ?)|(k & Hk & Hnet & Hc & Hb & Hend)]; [by left|right].
    exists k. rewrite Nat.sub_0_r in *. split; [lia|]. split; [done|].
    split; [done|]. split; [intros j Hj; apply Hb; lia|done].
  - destruct H as (k & Hk & Hnet & Hc & Hd & Hb).
    exists k. rewrite Nat.sub_0_r in *. split; [lia|]. split; [done|].
    split; [done|]. split; [done|]. intros j Hj; apply Hb; lia.
Qed.

(** X4.  Whatever the retry configuration, the loop of the client makes
    at most [maxRetries] requests and settles with what the backend said to
    the last of them: a resolved call returns the reply to its last
    request, a rejected call throws the rejection of its last request,
    every request before the last failed with a transient error, and an
    early rejection is one that is not transient.  So [search] and
    [generateAnswer], which allow two attempts, never throw the initial
    [undefined] of [lastError]. *)
Theorem client_settles_with_last_reply :
  (∀ R cfg path body,
     settlesWithLastReply (R:=R) (maxRetries cfg)
       (λ net, apiService.retryLoop cfg path body net (maxRetries cfg) 0 Undefined))
  ∧ (∀ data, settlesWithLastReply 2 (apiService.search data))
  ∧ (∀ data, settlesWithLastReply 2 (apiService.generateAnswer data))
  ∧ (∀ data net e, (apiService.search data net).1 = inl e →
       ∃ k, (k < 2)%nat ∧ net k = inl e)
  ∧ (∀ data net e, (apiService.generateAnswer data net).1 = inl e →
       ∃ k, (k < 2)%nat ∧ net k = inl e).
Proof.
  split; [intros; apply retryLoop_settles|].
  split; [intros data; apply (retryLoop_settles DEFAULT_RETRY_CONFIG)|].
  split; [intros data; apply (retryLoop_settles DEFAULT_RETRY_CONFIG)|].
  split; intros data net e He.
  - destruct (retryLoop_settles DEFAULT_RETRY_CONFIG "/search" (SearchBody data) net)
      as [_ H].
    change (apiService.retryLoop DEFAULT_RETRY_CONFIG "/search" (SearchBody data) net
              (maxRetries DEFAULT_RETRY_CONFIG) 0 Undefined)
      with (apiService.search data net) in H.
    rewrite He in H. destruct H as [(? & _)|(k & Hk & Hnet & _)]; [done|eauto].
  - destruct (retryLoop_settles DEFAULT_RETRY_CONFIG "/llm/answer" (AnswerBody data) net)
      as [_ H].
    change (apiService.retryLoop DEFAULT_RETRY_CONFIG "/llm/answer" (AnswerBody data) net
              (maxRetries DEFAULT_RETRY_CONFIG) 0 Undefined)
      with (apiService.generateAnswer data net) in H.
    rewrite He in H. destruct H as [(? & _)|(k & Hk & Hnet & _)]; [done|eauto].
Qed.

Lemma client_settles_with_last_reply_witness :
  ∃ k, (k < 2)%nat ∧ Sample.rejects (R:=SearchResponse) Sample.unavailable k
                     = inl Sample.unavailable.
Proof.
  pose proof client_settles_with_last_reply as (_ & _ & _ & H & _).
  exact (H (IntelligentQueryTab.searchRequest initialState)
           (Sample.rejects Sample.unavailable) Sample.unavailable eq_refl).
Defined.

(** X5.  When both attempts of [search] or [generateAnswer] fail with a
    transient error, the call rejects with the second error after two
    requests and two waits, 500 ms between the requests and 750 ms after
    the second one; there is no third request. *)
Theorem retry_budget_exhausted
    (e0 e1 : JsError) (sdata : SearchRequest) (adata : AnswerRequest)
    (snet : Net SearchResponse) (anet : Net AnswerResponse) :
  transient e0 = true → transient e1 = true →
  (snet 0%nat = inl e0 → snet 1%nat = inl e1 →
   apiService.search sdata snet
   = (inl e1, [ Http "POST" "/search" (SearchBody sdata); Delay 500;
                Http "POST" "/search" (SearchBody sdata); Delay 750 ]))
  ∧ (anet 0%nat = inl e0 → anet 1%nat = inl e1 →
     apiService.generateAnswer adata anet
     = (inl e1, [ Http "POST" "/llm/answer" (AnswerBody adata); Delay 500;
                  Http "POST" "/llm/answer" (AnswerBody adata); Delay 750 ])).
Proof.
  intros T0 T1.
  split; intros H0 H1;
    unfold apiService.search, apiService.generateAnswer;
    cbn -[shouldRetry waitTime];
    rewrite H0, H1, !shouldRetry_spec, T0, T1; reflexivity.
Qed.

Lemma retry_budget_exhausted_witness :
  apiService.search (IntelligentQueryTab.searchRequest initialState)
    (Sample.rejects Sample.unavailable)
  = (inl Sample.unavailable,
     [ Http "POST" "/search"
         (SearchBody (IntelligentQueryTab.searchRequest initialState));
       Delay 500;
       Http "POST" "/search"
         (SearchBody (IntelligentQueryTab.searchRequest initialState));
       Delay 750 ]).
Proof.
  exact (proj1 (retry_budget_exhausted Sample.unavailable Sample.unavailable
                  (IntelligentQueryTab.searchRequest initialState)
                  {| areq_query := ""; retrieved_chunks := [];
                     areq_max_tokens := None; areq_temperature := None |}
                  (Sample.rejects Sample.unavailable)
                  (Sample.rejects Sample.unavailable) eq_refl eq_refl)
           eq_refl eq_refl).
Defined.

(** ** Error messages *)

Lemma or_else_truthy (a b : string) :
  Js.truthy b = true → Js.truthy (Js.or_else a b) = true.
Proof. intros H. unfold Js.or_else. by destruct (Js.truthy a) eqn:E. Qed.

(** X6.  [getErrorMessage] never gives an empty message, except the empty
    message of an [APIError] itself.  For an axios error the order of the
    tests decides: the timeout code gives the timeout message whatever
    else the error holds; otherwise a missing response or the network code
    gives the network message; otherwise a message of the server, if it is
    not empty, is shown as it is, before any message by status. *)
Theorem getErrorMessage_total_and_ordered :
  (∀ e, (∀ m, e ≠ APIError m) → Js.truthy (getErrorMessage e) = true)
  ∧ (∀ m, getErrorMessage (APIError m) = m)
  ∧ (∀ resp, getErrorMessage (AxiosError (Some "ECONNABORTED") resp)
             = "Request timeout - backend is not responding")
  ∧ (∀ code, code_is code "ECONNABORTED" = false →
       getErrorMessage (AxiosError code None)
       = "Network error - check your connection and backend status")
  ∧ (∀ resp, getErrorMessage (AxiosError (Some "ERR_NETWORK") resp)
             = "Network error - check your connection and backend status")
  ∧ (∀ code r m,
       code_is code "ECONNABORTED" = false →
       code_is code "ERR_NETWORK" = false →
       data_message r = Some m → Js.truthy m = true →
       getErrorMessage (AxiosError code (Some r)) = m).
Proof.
  split; [|split; [|split; [|split; [|split]]]].
  - intros [|m|code resp|m] Hne; cbn; try done.
    + by destruct (Hne m).
    + destruct (code_is code "ECONNABORTED"); [done|].
      destruct resp as [r|]; [|done].
      destruct (code_is code "ERR_NETWORK"); [done|].
      destruct (data_message r) as [dm|] eqn:Edm; cbn.
      * destruct (Js.truthy dm) eqn:Tdm; [done|].
        repeat (case_match; [done|]). by apply or_else_truthy.
      * repeat (case_match; [done|]). by apply or_else_truthy.
    + by apply or_else_truthy.
  - done.
  - done.
  - intros code H. cbn. by rewrite H.
  - by intros [r|].
  - intros code r m H1 H2 Hm Tm. cbn. by rewrite H1, H2, Hm; cbn; rewrite Tm.
Qed.

Lemma getErrorMessage_total_and_ordered_witness :
  Js.truthy (getErrorMessage Sample.badRequest) = true
  ∧ getErrorMessage
      (AxiosError (Some "ERR_BAD_RESPONSE")
         (Some {| status := 500; statusText := "";
                  data_message := Some "index is being rebuilt" |}))
    = "index is being rebuilt".
Proof.
  pose proof getErrorMessage_total_and_ordered as (Hne & _ & _ & _ & _ & Hmsg).
  split.
  - apply Hne. discriminate.
  - apply Hmsg; reflexivity.
Defined.

(** ** What a run of the query handler leaves alone *)

Section Frame.

Import IntelligentQueryTab.

Lemma frame_dispatch (a : StoreAction) (w : World) :
  (∀ p, a ≠ RemoveDocument p) →
  outsideQueryOutcome (store (dispatch a w)) = outsideQueryOutcome (store w).
Proof. intros H. destruct a; try done. by destruct (H filePath). Qed.

Lemma frame_interrupt (i : Interrupt) (w : World) :
  outsideQueryOutcome (store (interrupt i w)) = outsideQueryOutcome (store w).
Proof.
  destruct i; cbn; [done| |].
  - unfold handleCancelSearch. by destruct (abortController (tab w)).
  - unfold effectCleanup. by destruct (abortController (tab w)).
Qed.

Lemma frame_finally (c : AbortSignal) (w : World) :
  outsideQueryOutcome (store (finally c w)) = outsideQueryOutcome (store w).
Proof. unfold finally. by destruct (aborted c w). Qed.

Lemma frame_answerStage (env : Env) (c : AbortSignal) (q : string)
    (rs : list SearchResult) (maxTok temp : number) (w : World) :
  outsideQueryOutcome (store (answerStage env c q rs maxTok temp w))
  = outsideQueryOutcome (store w).
Proof.
  unfold answerStage.
  destruct (apiService.generateAnswer _ _) as [[e|a] requests].
  - cbn [store dispatch setState emit emits]. cbn [reduce].
    change (outsideQueryOutcome
              (store (interrupt (during_answer env) (emits requests w)))
            = outsideQueryOutcome (store w)).
    by rewrite frame_interrupt.
  - destruct (aborted c _); [by rewrite frame_interrupt|].
    destruct (Js.truthy (answer a));
      cbn [store dispatch setState emit emits toast]; cbn [reduce];
      change (outsideQueryOutcome
                (store (interrupt (during_answer env) (emits requests w)))
              = outsideQueryOutcome (store w));
      by rewrite frame_interrupt.
Qed.

End Frame.

Lemma frame_emits (es : list Event) (w : World) :
  outsideQueryOutcome (store (emits es w)) = outsideQueryOutcome (store w).
Proof. reflexivity. Qed.

Lemma frame_emit (e : Event) (w : World) :
  outsideQueryOutcome (store (emit e w)) = outsideQueryOutcome (store w).
Proof. reflexivity. Qed.

Lemma frame_toast (k : ToastKind) (s : string) (w : World) :
  outsideQueryOutcome (store (toast k s w)) = outsideQueryOutcome (store w).
Proof. reflexivity. Qed.

Lemma frame_setState (a : TabAction) (w : World) :
  outsideQueryOutcome (store (setState a w)) = outsideQueryOutcome (store w).
Proof. reflexivity. Qed.

Ltac frame_steps :=
  repeat first
    [ rewrite frame_finally
    | rewrite frame_answerStage
    | rewrite frame_interrupt
    | rewrite frame_dispatch by done
    | rewrite frame_setState
    | rewrite frame_toast
    | rewrite frame_emit
    | rewrite frame_emits
    | progress cbn [store] ].

(** X7.  Whatever the backend answers and whenever the user cancels, a
    run of [handleSearch] changes nothing in the store but the search
    results, the answer and the searching flag: the documents, the query
    text, the settings, the statistics, the store's own error and the
    connection flag are as before, and so is what is persisted. *)
Theorem handleSearch_writes_query_outcome_only
    (env : IntelligentQueryTab.Env) (w : World) :
  let s := store w in
  let s' := store (IntelligentQueryTab.handleSearch env w) in
  outsideQueryOutcome s' = outsideQueryOutcome s
  ∧ documents s' = documents s
  ∧ currentQuery s' = currentQuery s
  ∧ error s' = error s
  ∧ Store.partialize s' = Store.partialize s.
Proof.
  cbv zeta.
  assert (H : outsideQueryOutcome (store (IntelligentQueryTab.handleSearch env w))
              = outsideQueryOutcome (store w)).
  { unfold IntelligentQueryTab.handleSearch.
    destruct (negb _); [by frame_steps|].
    unfold newAbortController. cbv zeta.
    destruct (apiService.search _ _) as [[e|resp] requests].
    - destruct (aborted _ _); by frame_steps.
    - destruct (aborted _ _); [by frame_steps|].
      destruct (default [] (results resp)); by frame_steps. }
  split; [exact H|].
  unfold outsideQueryOutcome in H.
  injection H as H1 H2 H3 H4 H5 H6 H7 H8 H9 H10 H11 H12 H13 H14.
  repeat split; try done.
  by apply partialize_agree.
Qed.

(** ** Runs that are not cancelled *)

(** Split a run of [handleSearch] with a query and without interrupts into
    its five paths: search failed, nothing retrieved, answer rejected,
    answer given, answer empty. *)
Ltac uncancelled_paths Hq Hs Ha :=
  unfold IntelligentQueryTab.handleSearch;
  rewrite trim_truthy, Hq, Hs;
  cbn [negb IntelligentQueryTab.interrupt];
  unfold newAbortController; cbv zeta;
  destruct (apiService.search _ _) as [[?e|?resp] ?requests];
  cbn [fst snd]; decide_aborted;
  [ | destruct (default [] (results _)) as [|?r0 ?rs] eqn:?Hrs;
      [ | unfold IntelligentQueryTab.answerStage; rewrite Ha;
          cbn [IntelligentQueryTab.interrupt];
          destruct (apiService.generateAnswer _ _) as [[?e|?a] ?requests2];
          cbn [fst snd]; decide_aborted;
          [ | destruct (Js.truthy (answer _)) eqn:?Ht ] ] ];
  unfold IntelligentQueryTab.finally; decide_aborted.

(** X8.  A run of [handleSearch] with a query that nobody cancels ends
    with the searching flag cleared and the controller forgotten, and with
    either an error or an answer on the screen, never both and never
    neither; an answer is on the screen only together with the results it
    was generated from, which are the ones retrieved in this run. *)
Theorem uncancelled_run_shows_answer_or_error
    (env : IntelligentQueryTab.Env) (w : World) :
  Js.blank (currentQuery (store w)) = false →
  IntelligentQueryTab.during_search env = IntelligentQueryTab.NoInterrupt →
  IntelligentQueryTab.during_answer env = IntelligentQueryTab.NoInterrupt →
  let w' := IntelligentQueryTab.handleSearch env w in
  isSearching (store w') = false
  ∧ abortController (tab w') = None
  ∧ QueryView.showsError (tab w') = negb (QueryView.showsAnswer (store w'))
  ∧ QueryView.showsEmptyState (store w') (tab w') = false
  ∧ (QueryView.showsAnswer (store w') = true →
     QueryView.showsResults (store w') = true
     ∧ retrieved env w = Some (searchResults (store w'))).
Proof.
  intros Hq Hs Ha. cbv zeta. unfold retrieved.
  uncancelled_paths Hq Hs Ha; cbn; repeat split; try done.
  - by rewrite Ht.
  - unfold QueryView.showsEmptyState, QueryView.showsAnswer. cbn.
    by rewrite Ht.
Qed.

Lemma uncancelled_run_shows_answer_or_error_witness :
  let w' := IntelligentQueryTab.handleSearch Sample.backendDown
              (Sample.world "retention?" (Some "An earlier answer.")) in
  QueryView.showsError (tab w') = true ∧ QueryView.showsAnswer (store w') = false.
Proof.
  pose proof (uncancelled_run_shows_answer_or_error Sample.backendDown
                (Sample.world "retention?" (Some "An earlier answer."))
                eq_refl eq_refl eq_refl) as (_ & _ & H & _).
  cbv zeta. split; [|reflexivity]. rewrite H. reflexivity.
Defined.

(** X9.  In a run that nobody cancels and that retrieved something, the
    retrieved results are in the store at the end whatever becomes of the
    answer.  A rejected answer request is reported as "Failed to generate
    answer: " with the reason and written to the error console, an empty
    answer as "Failed to generate answer - empty response", both with the
    answer reset to the empty string; an answer that is not empty is
    stored as it is, with the names of its sources and no error. *)
Theorem results_stay_whatever_the_answer
    (env : IntelligentQueryTab.Env) (w : World) (rs : list SearchResult) :
  Js.blank (currentQuery (store w)) = false →
  IntelligentQueryTab.during_search env = IntelligentQueryTab.NoInterrupt →
  IntelligentQueryTab.during_answer env = IntelligentQueryTab.NoInterrupt →
  retrieved env w = Some rs → rs ≠ [] →
  let call := apiService.generateAnswer (answerRequest (store w) rs)
                (IntelligentQueryTab.answer_net env) in
  let w' := IntelligentQueryTab.handleSearch env w in
  searchResults (store w') = rs
  ∧ match call.1 with
    | inl e =>
        tab_error (tab w')
          = Some ("Failed to generate answer: " +:+ getErrorMessage e)
        ∧ currentAnswer (store w') = Some ""
        ∧ ConsoleError "Answer generation error:" e ∈ log w'
    | inr a =>
        if Js.truthy (answer a)
        then currentAnswer (store w') = Some (answer a)
             ∧ tab_error (tab w') = None
             ∧ answerSources (tab w')
               = IntelligentQueryTab.sourceDocs (sources a)
             ∧ Toast ToastSuccess (Plain "Answer generated successfully") ∈ log w'
        else tab_error (tab w')
               = Some "Failed to generate answer - empty response"
             ∧ currentAnswer (store w') = Some ""
    end.
Proof.
  intros Hq Hs Ha Hret Hne. cbv zeta.
  unfold IntelligentQueryTab.handleSearch.
  rewrite trim_truthy, Hq, Hs. cbn [negb IntelligentQueryTab.interrupt].
  unfold newAbortController. cbv zeta.
  revert Hret. unfold retrieved.
  destruct (apiService.search _ _) as [[e|resp] requests]; cbn [fst snd];
    [done|].
  intros [= Hrs]. decide_aborted. rewrite Hrs.
  destruct rs as [|r0 rs0]; [done|].
  unfold IntelligentQueryTab.answerStage, answerRequest.
  rewrite Ha. cbn [IntelligentQueryTab.interrupt].
  destruct (apiService.generateAnswer _ _) as [[e|a] requests2]; cbn [fst snd].
  - unfold IntelligentQueryTab.finally. decide_aborted. cbn.
    repeat split. set_solver.
  - decide_aborted. destruct (Js.truthy (answer a));
      unfold IntelligentQueryTab.finally; decide_aborted; cbn;
      repeat split. set_solver.
Qed.

Lemma results_stay_whatever_the_answer_witness :
  let env := {| IntelligentQueryTab.search_net := Sample.replies (Sample.found [Sample.hit]);
                IntelligentQueryTab.during_search := IntelligentQueryTab.NoInterrupt;
                IntelligentQueryTab.answer_net := Sample.rejects Sample.unavailable;
                IntelligentQueryTab.during_answer := IntelligentQueryTab.NoInterrupt |} in
  searchResults (store (IntelligentQueryTab.handleSearch env
                          (Sample.world "retention?" None)))
  = [Sample.hit].
Proof.
  intros env.
  refine (proj1 (results_stay_whatever_the_answer env
                   (Sample.world "retention?" None) [Sample.hit]
                   eq_refl eq_refl eq_refl eq_refl _)).
  discriminate.
Defined.

(** ** The requests of a run *)

Lemma requestCount_app (l1 l2 : list Event) :
  requestCount (l1 ++ l2) = (requestCount l1 + requestCount l2)%nat.
Proof. unfold requestCount. by rewrite List.filter_app, length_app. Qed.

Section RequestCount.

Import IntelligentQueryTab.

Lemma rc_emits (es : list Event) (w : World) :
  requestCount (log (emits es w)) = (requestCount (log w) + requestCount es)%nat.
Proof. apply requestCount_app. Qed.

Lemma rc_emit (e : Event) (w : World) :
  isRequest e = false → requestCount (log (emit e w)) = requestCount (log w).
Proof.
  intros H. unfold emit. rewrite rc_emits.
  rewrite requestCount_cons_quiet by done. cbn. lia.
Qed.

Lemma rc_toast (k : ToastKind) (s : string) (w : World) :
  requestCount (log (toast k s w)) = requestCount (log w).
Proof. by apply rc_emit. Qed.

Lemma rc_dispatch (a : StoreAction) (w : World) :
  requestCount (log (dispatch a w)) = requestCount (log w).
Proof.
  unfold dispatch. cbn [log]. rewrite requestCount_app.
  unfold requestCount. cbn. lia.
Qed.

Lemma rc_setState (a : TabAction) (w : World) :
  requestCount (log (setState a w)) = requestCount (log w).
Proof.
  unfold setState. cbn [log]. rewrite requestCount_app.
  unfold requestCount. cbn. lia.
Qed.

Lemma rc_abort (c : AbortSignal) (w : World) :
  requestCount (log (abort c w)) = requestCount (log w).
Proof.
  unfold abort. cbn [log]. rewrite requestCount_app.
  unfold requestCount. cbn. lia.
Qed.

Lemma rc_interrupt (i : Interrupt) (w : World) :
  requestCount (log (interrupt i w)) = requestCount (log w).
Proof.
  destruct i; cbn [interrupt]; [done| |].
  - unfold handleCancelSearch. destruct (abortController (tab w)); [|done].
    by rewrite rc_toast, rc_dispatch, rc_setState, rc_abort.
  - unfold effectCleanup. destruct (abortController (tab w)); [|done].
    by rewrite rc_abort.
Qed.

Lemma rc_finally (c : AbortSignal) (w : World) :
  requestCount (log (finally c w)) = requestCount (log w).
Proof.
  unfold finally. destruct (aborted c w); [done|].
  by rewrite rc_dispatch, rc_setState.
Qed.

Ltac rc_steps :=
  repeat first
    [ rewrite rc_finally | rewrite rc_interrupt | rewrite rc_dispatch
    | rewrite rc_setState | rewrite rc_toast | rewrite rc_emit by done
    | rewrite rc_emits | rewrite rc_abort | progress cbn [log] ].

Lemma rc_answerStage (env : Env) (c : AbortSignal) (q : string)
    (rs : list SearchResult) (maxTok temp : number) (w : World) :
  (requestCount (log w) < requestCount (log (answerStage env c q rs maxTok temp w))
   ≤ requestCount (log w) + 2)%nat.
Proof.
  unfold answerStage.
  pose proof (retryLoop_default (R:=AnswerResponse) "/llm/answer"
    (AnswerBody {| areq_query := q; retrieved_chunks := rs;
                   areq_max_tokens := Some maxTok; areq_temperature := Some temp |})
    (answer_net env)) as [Hb _].
  cbv zeta in Hb.
  change (apiService.retryLoop DEFAULT_RETRY_CONFIG "/llm/answer" ?b ?n
            (maxRetries DEFAULT_RETRY_CONFIG) 0 Undefined)
    with (apiService.generateAnswer
            {| areq_query := q; retrieved_chunks := rs;
               areq_max_tokens := Some maxTok; areq_temperature := Some temp |}
            (answer_net env)) in Hb.
  destruct (apiService.generateAnswer _ _) as [[e|a] requests]; cbn [fst snd] in *.
  - rc_steps. lia.
  - destruct (aborted c _); [rc_steps; lia|].
    destruct (Js.truthy _); rc_steps; lia.
Qed.

(** The requests in the log after a run, against those before it. *)
Lemma rc_handleSearch (env : Env) (w : World) :
  let n := requestCount (log w) in
  let n' := requestCount (log (handleSearch env w)) in
  (n ≤ n' ≤ n + 4)%nat
  ∧ (Js.blank (currentQuery (store w)) = true → n' = n)
  ∧ (Js.blank (currentQuery (store w)) = false → (n < n')%nat)
  ∧ (retrieved env w = None ∨ retrieved env w = Some [] → (n' ≤ n + 2)%nat).
Proof.
  cbv zeta. unfold handleSearch, retrieved.
  rewrite trim_truthy.
  destruct (Js.blank (currentQuery (store w))); cbn [negb].
  { rc_steps. repeat split; try done; lia. }
  pose proof (retryLoop_default (R:=SearchResponse) "/search"
    (SearchBody (searchRequest (store w))) (search_net env)) as [Hb _].
  cbv zeta in Hb.
  change (apiService.retryLoop DEFAULT_RETRY_CONFIG "/search" ?b ?n
            (maxRetries DEFAULT_RETRY_CONFIG) 0 Undefined)
    with (apiService.search (searchRequest (store w)) (search_net env)) in Hb.
  unfold newAbortController. cbv zeta.
  destruct (apiService.search _ _) as [[e|resp] requests]; cbn [fst snd] in *.
  - destruct (aborted _ _); rc_steps; repeat split; try done; lia.
  - destruct (aborted _ _); [rc_steps; repeat split; try done; lia|].
    destruct (default [] (results resp)) as [|r0 rs] eqn:Hrs.
    + rc_steps. repeat split; try done; lia.
    + rewrite rc_finally.
      match goal with
      | |- context [answerStage ?env ?c ?q ?l ?m ?t ?w0] =>
          pose proof (rc_answerStage env c q l m t w0) as Ha;
          revert Ha; generalize (requestCount (log (answerStage env c q l m t w0)))
      end.
      rc_steps. intros k Hk. repeat split; try done; try lia.
      intros [?|[=]]; done.
Qed.

End RequestCount.

(** X10.  A run of [handleSearch] adds at most four requests to the log,
    none for a blank query and at least one otherwise, and at most two
    when the retrieval failed or gave nothing. *)
Theorem run_makes_at_most_four_requests
    (env : IntelligentQueryTab.Env) (w : World) :
  ∃ d, log (IntelligentQueryTab.handleSearch env w) = log w ++ d
       ∧ (requestCount d ≤ 4)%nat
       ∧ (Js.blank (currentQuery (store w)) = true → requestCount d = 0%nat)
       ∧ (Js.blank (currentQuery (store w)) = false → (1 ≤ requestCount d)%nat)
       ∧ (retrieved env w = None ∨ retrieved env w = Some [] →
          (requestCount d ≤ 2)%nat).
Proof.
  destruct (handleSearch_adds (λ _, True) env w) as (d & Hd & _); try done.
  pose proof (rc_handleSearch env w) as (H4 & H0 & H1 & H2). cbv zeta in *.
  rewrite Hd, requestCount_app in *.
  exists d. split; [done|]. split; [lia|]. split; [|split].
  - intros Hb. specialize (H0 Hb). lia.
  - intros Hb. specialize (H1 Hb). lia.
  - intros Hr. specialize (H2 Hr). lia.
Qed.

Lemma run_makes_at_most_four_requests_witness :
  ∃ d, log (IntelligentQueryTab.handleSearch Sample.emptyStore
              (Sample.world "retention?" None)) = d
       ∧ (1 ≤ requestCount d ≤ 2)%nat.
Proof.
  destruct (run_makes_at_most_four_requests Sample.emptyStore
              (Sample.world "retention?" None)) as (d & Hd & _ & _ & H1 & H2).
  exists d. split; [exact Hd|]. split.
  - apply H1. reflexivity.
  - apply H2. right. reflexivity.
Defined.

(** ** The Cancel button *)



(** X12.  When the user cancels while the search is awaited, the requests
    of the search are made all the same, and their outcome is dropped,
    reply or rejection: nothing is written after the writes of the Cancel
    button, no answer is requested, the results stay cleared, the answer
    of the previous query stays, and no error is shown. *)
Theorem cancel_during_search_drops_outcome
    (env : IntelligentQueryTab.Env) (w : World) :
  Js.blank (currentQuery (store w)) = false →
  IntelligentQueryTab.during_search env = IntelligentQueryTab.UserCancel →
  let c := length (signals w) in
  let w' := IntelligentQueryTab.handleSearch env w in
  log w' = log w ++ searchPrelude c
             ++ (apiService.search (IntelligentQueryTab.searchRequest (store w))
                   (IntelligentQueryTab.search_net env)).2
             ++ cancelEvents c
  ∧ aborted c w' = true
  ∧ searchResults (store w') = []
  ∧ currentAnswer (store w') = currentAnswer (store w)
  ∧ isSearching (store w') = false
  ∧ tab_error (tab w') = None
  ∧ abortController (tab w') = None.
Proof.
  intros Hq Hs. cbv zeta.
  unfold IntelligentQueryTab.handleSearch.
  rewrite trim_truthy, Hq, Hs. cbn [negb IntelligentQueryTab.interrupt].
  unfold newAbortController. cbv zeta.
  unfold IntelligentQueryTab.handleCancelSearch.
  destruct (apiService.search _ _) as [[e|resp] requests]; cbn [fst snd];
    cbn [tab emits dispatch setState reduce_tab abortController];
    decide_aborted; unfold IntelligentQueryTab.finally; decide_aborted;
    (split; [cbn; by rewrite <- !app_assoc|]);
    repeat split.
Qed.

Lemma cancel_during_search_drops_outcome_witness :
  let env := {| IntelligentQueryTab.search_net := Sample.replies (Sample.found [Sample.hit]);
                IntelligentQueryTab.during_search := IntelligentQueryTab.UserCancel;
                IntelligentQueryTab.answer_net := Sample.replies (Sample.answered "Thirty days.");
                IntelligentQueryTab.during_answer := IntelligentQueryTab.NoInterrupt |} in
  let w' := IntelligentQueryTab.handleSearch env
              (Sample.world "retention?" (Some "An earlier answer.")) in
  searchResults (store w') = [] ∧ currentAnswer (store w') = Some "An earlier answer.".
Proof.
  intros env.
  pose proof (cancel_during_search_drops_outcome env
                (Sample.world "retention?" (Some "An earlier answer."))
                eq_refl eq_refl) as (_ & _ & Hr & Ha & _).
  cbv zeta. split; [exact Hr | exact Ha].
Defined.

(** X13.  When the user cancels while the answer is awaited and the
    language model then replies, the reply is dropped: nothing is written
    after the writes of the Cancel button, the retrieved results stay on
    the screen, the answer of the previous query stays, no error is
    shown. *)
Theorem cancel_during_answer_drops_reply
    (env : IntelligentQueryTab.Env) (w : World)
    (rs : list SearchResult) (a : AnswerResponse) :
  Js.blank (currentQuery (store w)) = false →
  IntelligentQueryTab.during_search env = IntelligentQueryTab.NoInterrupt →
  IntelligentQueryTab.during_answer env = IntelligentQueryTab.UserCancel →
  retrieved env w = Some rs → rs ≠ [] →
  (apiService.generateAnswer (answerRequest (store w) rs)
     (IntelligentQueryTab.answer_net env)).1 = inr a →
  let c := length (signals w) in
  let w' := IntelligentQueryTab.handleSearch env w in
  log w' = log w ++ searchPrelude c
             ++ (apiService.search (IntelligentQueryTab.searchRequest (store w))
                   (IntelligentQueryTab.search_net env)).2
             ++ [StoreWrite (SetSearchResults rs)]
             ++ (apiService.generateAnswer (answerRequest (store w) rs)
                   (IntelligentQueryTab.answer_net env)).2
             ++ cancelEvents c
  ∧ searchResults (store w') = rs
  ∧ currentAnswer (store w') = currentAnswer (store w)
  ∧ isSearching (store w') = false
  ∧ tab_error (tab w') = None.
Proof.
  intros Hq Hs Ha Hret Hne Hans. cbv zeta.
  unfold IntelligentQueryTab.handleSearch.
  rewrite trim_truthy, Hq, Hs. cbn [negb IntelligentQueryTab.interrupt].
  unfold newAbortController. cbv zeta.
  revert Hret. unfold retrieved.
  destruct (apiService.search _ _) as [[e|resp] requests]; cbn [fst snd];
    [done|].
  intros [= Hrs]. decide_aborted. rewrite Hrs.
  destruct rs as [|r0 rs0]; [done|].
  revert Hans.
  unfold IntelligentQueryTab.answerStage, answerRequest.
  rewrite Ha. cbn [IntelligentQueryTab.interrupt].
  unfold IntelligentQueryTab.handleCancelSearch.
  destruct (apiService.generateAnswer _ _) as [[e|a'] requests2]; cbn [fst snd];
    [done|]. intros _.
  cbn [tab emits dispatch setState reduce_tab abortController].
  decide_aborted. unfold IntelligentQueryTab.finally. decide_aborted.
  split; [cbn; by rewrite <- !app_assoc|]. repeat split.
Qed.

Lemma cancel_during_answer_drops_reply_witness :
  let w' := IntelligentQueryTab.handleSearch Sample.cancelThenAnswer
              (Sample.world "retention?" (Some "An earlier answer.")) in
  searchResults (store w') = [Sample.hit]
  ∧ currentAnswer (store w') = Some "An earlier answer.".
Proof.
  assert (Hne : [Sample.hit] ≠ []) by discriminate.
  pose proof (cancel_during_answer_drops_reply Sample.cancelThenAnswer
                (Sample.world "retention?" (Some "An earlier answer."))
                [Sample.hit] (Sample.answered "Thirty days.")
                eq_refl eq_refl eq_refl eq_refl Hne eq_refl) as (_ & Hr & Ha & _).
  cbv zeta. split; [exact Hr | exact Ha].
Defined.

(** ** Selecting files *)

Section Selecting.

Import FileUpload.

Context (supportedFormats : list SupportedFormat).



End Selecting.


(** ** Names and extensions *)








(** ** The drop zone *)

Section DropZoneFacts.

Import DropZone.

Lemma drags_app (ts1 ts2 : list DragType) (d : DragState) :
  drags (ts1 ++ ts2) d = drags ts2 (drags ts1 d).
Proof. apply fold_left_app. Qed.

Lemma drags_counter (ts : list DragType) (d : DragState) :
  dragCounter (drags ts d) = (dragCounter d + dragBalance ts)%Z.
Proof.
  revert d. induction ts as [|t ts IH]; intros d; cbn [drags fold_left dragBalance].
  - lia.
  - change (fold_left (λ d t, handleDrag t d) ts (handleDrag t d))
      with (drags ts (handleDrag t d)).
    rewrite IH. destruct t; cbn; lia.
Qed.

(** Balanced drag events bring the counter back; the zone is then active
    exactly when the counter is not back at zero. *)
Lemma drags_balanced (ts : list DragType) :
  balanced ts →
  ∀ d, (0 ≤ dragCounter d)%Z →
    drags ts d
    = {| dragCounter := dragCounter d;
         isDragActive :=
           match ts with
           | [] => isDragActive d
           | _ :: _ => negb (dragCounter d =? 0)%Z
           end |}.
Proof.
  assert (Hwrap : ∀ t l, t ≠ dragleave →
    (∀ d, (0 ≤ dragCounter d)%Z →
       drags l d
       = {| dragCounter := dragCounter d;
            isDragActive := match l with
                            | [] => isDragActive d
                            | _ :: _ => negb (dragCounter d =? 0)%Z
                            end |}) →
    ∀ d, (0 ≤ dragCounter d)%Z →
      drags (t :: l ++ [dragleave]) d
      = {| dragCounter := dragCounter d;
           isDragActive := negb (dragCounter d =? 0)%Z |}).
  { intros t l Ht IH d Hd.
    change (drags (t :: l ++ [dragleave]) d)
      with (drags (l ++ [dragleave]) (handleDrag t d)).
    rewrite drags_app.
    assert (Hin : handleDrag t d
                  = {| dragCounter := dragCounter d + 1; isDragActive := true |})
      by (by destruct t).
    rewrite Hin, IH by (cbn; lia). cbn [dragCounter isDragActive].
    replace (dragCounter d + 1 =? 0)%Z with false
      by (symmetry; apply Z.eqb_neq; lia).
    assert (Hact : match l with [] => true | _ :: _ => negb false end = true)
      by (by destruct l).
    rewrite Hact. cbn.
    replace (dragCounter d + 1 - 1)%Z with (dragCounter d) by lia.
    by destruct (dragCounter d =? 0)%Z. }
  induction 1 as [|ts Hb IH|ts Hb IH|ts1 ts2 Hb1 IH1 Hb2 IH2]; intros d Hd.
  - by destruct d.
  - by apply Hwrap.
  - by apply Hwrap.
  - rewrite drags_app, IH1, IH2 by (try done; by destruct ts1).
    by destruct ts1 as [|t1 ts1'], ts2 as [|t2 ts2'].
Qed.

End DropZoneFacts.

(** X16.  The counter of the drop zone is its old value plus the entries
    (dragenter, dragover) less the leaves.  After drag events in which
    every entry is closed by its own leave, a zone that was at rest
    (counter 0) is at rest again and not highlighted; after any events
    that end with an entry it is highlighted; a drop resets the counter
    and the highlight whatever came before. *)
Theorem drop_zone_highlight (ts : list DropZone.DragType) (d : DropZone.DragState) :
  DropZone.dragCounter (DropZone.drags ts d)
    = (DropZone.dragCounter d + dragBalance ts)%Z
  ∧ (DropZone.balanced ts → ts ≠ [] → DropZone.dragCounter d = 0%Z →
     DropZone.drags ts d
     = {| DropZone.dragCounter := 0; DropZone.isDragActive := false |})
  ∧ (∀ t, t ≠ DropZone.dragleave →
       DropZone.isDragActive (DropZone.drags (ts ++ [t]) d) = true)
  ∧ DropZone.handleDrop (DropZone.drags ts d)
    = {| DropZone.dragCounter := 0; DropZone.isDragActive := false |}.
Proof.
  split; [apply drags_counter|]. split; [|split; [|done]].
  - intros Hb Hne H0. rewrite drags_balanced by (try done; lia).
    rewrite H0. by destruct ts.
  - intros t Ht. rewrite drags_app. by destruct t.
Qed.

Lemma drop_zone_highlight_witness :
  DropZone.drags
    [DropZone.dragenter; DropZone.dragover; DropZone.dragleave; DropZone.dragleave]
    {| DropZone.dragCounter := 0; DropZone.isDragActive := false |}
  = {| DropZone.dragCounter := 0; DropZone.isDragActive := false |}.
Proof.
  refine (proj1 (proj2 (drop_zone_highlight _ _)) _ _ _).
  - exact (DropZone.balanced_enter _
             (DropZone.balanced_over _ DropZone.balanced_nil)).
  - discriminate.
  - reflexivity.
Defined.

(** ** Deleting a document *)

(** X17.  [handleDelete] sends one DELETE request and removes the document
    from the list only when the backend accepted it: after a rejection the
    store is what it was, an error toast is shown and the rejection goes
    to the error console; after a success the store differs in the
    document list only.  The tab is not touched. *)
Theorem handleDelete_follows_backend
    (p : string) (reply : JsError + unit) (w : World) :
  let w' := DocumentIngestionTab.handleDelete p reply w in
  tab w' = tab w
  ∧ signals w' = signals w
  ∧ Store.setDocuments (documents (store w)) (store w') = store w
  ∧ match reply with
    | inl e =>
        store w' = store w
        ∧ log w' = log w ++ [ Http "DELETE" "/search/delete" (DeleteParams p);
                              Toast ToastError (Plain "Failed to delete document");
                              ConsoleError "Delete error:" e ]
    | inr _ =>
        store w' = Store.removeDocument p (store w)
        ∧ log w' = log w ++ [ Http "DELETE" "/search/delete" (DeleteParams p);
                              StoreWrite (RemoveDocument p);
                              Toast ToastSuccess
                                (Plain "✓ Document removed from vector store") ]
    end.
Proof.
  cbv zeta. unfold DocumentIngestionTab.handleDelete. cbn.
  destruct reply as [e|[]]; cbn; rewrite <- ?app_assoc;
    repeat split; by destruct (store w).
Qed.

(** ** The health check of the page *)

Section Health.

Import AppContent StoreActions.

(** Health checks and dismissals write the connection flag and the error
    of the store only. *)
Lemma step_frame (s : AppState) (e : PageEvent) :
  setBackendConnected (backendConnected s) (setError (error s) (step s e)) = s.
Proof.
  destruct e as [[]|]; cbn; unfold checkBackendHealth; cbn;
    destruct (backendConnected s) eqn:E; cbn; destruct s; cbn in *; by subst.
Qed.

Lemma step_invariant (s : AppState) (e : PageEvent) :
  (showsConnectionError s = true → backendConnected s = false) →
  showsConnectionError (step s e) = true → backendConnected (step s e) = false.
Proof.
  destruct e as [[]|]; cbn; unfold checkBackendHealth; cbn;
    destruct (backendConnected s) eqn:E; cbn; try done.
  intros H Hs. by apply H in Hs.
Qed.

Lemma step_health (s : AppState) (healthy : bool) :
  backendConnected (step s (HealthCheck healthy)) = healthy.
Proof.
  destruct healthy; cbn; unfold checkBackendHealth; cbn;
    by destruct (backendConnected s) eqn:E.
Qed.

Lemma run_app (es1 es2 : list PageEvent) (s : AppState) :
  run (es1 ++ es2) s = run es2 (run es1 s).
Proof. apply fold_left_app. Qed.

Lemma run_invariant (es : list PageEvent) (s : AppState) :
  (showsConnectionError s = true → backendConnected s = false) →
  showsConnectionError (run es s) = true → backendConnected (run es s) = false.
Proof.
  revert s. induction es as [|e es IH]; intros s H; [done|].
  apply (IH (step s e)). by apply step_invariant.
Qed.

Lemma run_frame (es : list PageEvent) (s : AppState) :
  setBackendConnected (backendConnected s) (setError (error s) (run es s)) = s.
Proof.
  revert s. induction es as [|e es IH]; intros s; [by destruct s|].
  cbn [run fold_left].
  change (fold_left step es (step s e)) with (run es (step s e)).
  pose proof (IH (step s e)) as H1. pose proof (step_frame s e) as H2.
  destruct (run es (step s e)), (step s e), s.
  unfold setBackendConnected, setError in *. cbn in *.
  injection H1 as ?; injection H2 as ?. by subst.
Qed.

Lemma run_outage (n : nat) (s : AppState) :
  backendConnected s = false → run (replicate n (HealthCheck false)) s = s.
Proof.
  intros H. induction n as [|n IH]; [done|].
  cbn [replicate run fold_left].
  assert (E : step s (HealthCheck false) = s).
  { cbn. unfold checkBackendHealth. by rewrite H. }
  rewrite E. exact IH.
Qed.

End Health.

(** X18.  Over any sequence of health checks and dismissals of the mounted
    page: the connection error is never on the screen while the backend
    is marked connected; after a health check the connection flag is the
    outcome of that check; nothing but the flag and the error of the store
    changes; and while a backend that was never reached stays down, no
    check ever sets the error. *)
Theorem health_checks_track_the_backend
    (es : list AppContent.PageEvent) (s : AppState) :
  ((AppContent.showsConnectionError s = true → backendConnected s = false) →
   AppContent.showsConnectionError (AppContent.run es s) = true →
   backendConnected (AppContent.run es s) = false)
  ∧ (∀ healthy,
       backendConnected (AppContent.run (es ++ [AppContent.HealthCheck healthy]) s)
       = healthy)
  ∧ StoreActions.setBackendConnected (backendConnected s)
      (StoreActions.setError (error s) (AppContent.run es s)) = s
  ∧ (∀ n, backendConnected s = false →
       AppContent.run (replicate n (AppContent.HealthCheck false)) s = s).
Proof.
  split; [apply run_invariant|]. split; [|split].
  - intros healthy. rewrite run_app. apply step_health.
  - apply run_frame.
  - intros n. apply run_outage.
Qed.

Lemma health_checks_track_the_backend_witness :
  AppContent.run (replicate 3 (AppContent.HealthCheck false)) initialState
  = initialState
  ∧ error (AppContent.run [AppContent.HealthCheck true; AppContent.HealthCheck false]
             initialState)
    = Some "Backend is not accessible at http://localhost:8000".
Proof.
  split.
  - exact (proj2 (proj2 (proj2 (health_checks_track_the_backend [] initialState)))
             3%nat eq_refl).
  - reflexivity.
Defined.

(** ** Tabs and the URL *)

Lemma isValidTab_tabId (t : Tab) : isValidTab (tabId t) = Some t.
Proof. by destruct t. Qed.

Lemma isValidTab_inv (p : string) (t : Tab) : isValidTab p = Some t → p = tabId t.
Proof.
  unfold isValidTab.
  destruct (String.eqb_spec p "ingestion") as [->|_]; [by intros [= <-]|].
  destruct (String.eqb_spec p "query") as [->|_]; [by intros [= <-]|].
  destruct (String.eqb_spec p "analytics") as [->|_]; [by intros [= <-]|done].
Qed.

Lemma tab_eqb_eq (a b : Tab) : tab_eqb a b = true ↔ a = b.
Proof. by destruct a, b. Qed.

(** X19.  A tab and its [tab] parameter determine each other: the
    parameter written by a click on a tab is read back as that tab, and
    only the three identifiers are read as a tab.  The navigation bar
    shows the query tab for any other parameter.  For a valid parameter
    the two effects that sync the store agree, and once the navigation bar
    has synced the store the effect of the page changes nothing; for any
    other parameter the effect of the page leaves the store alone. *)
Theorem tab_parameter_round_trip (p : option string) (s : AppState) :
  (∀ t, isValidTab (tabId t) = Some t
        ∧ Navigation.activeTabOf (Some (tabId t)) = t
        ∧ Navigation.handleTabClick t = "/app?tab=" +:+ tabId t
        ∧ activeTab (AppContent.syncTab (Some (tabId t)) s) = t)
  ∧ (∀ q t, isValidTab q = Some t → q = tabId t)
  ∧ (∀ q, isValidTab q = None → Navigation.activeTabOf (Some q) = query)
  ∧ Navigation.activeTabOf None = query
  ∧ AppContent.syncTab p (Navigation.syncStore p s) = Navigation.syncStore p s
  ∧ (∀ q t, p = Some q → isValidTab q = Some t →
       AppContent.syncTab p s = Navigation.syncStore p s
       ∨ AppContent.syncTab p s = s ∧ activeTab s = t)
  ∧ (p = None ∨ (∃ q, p = Some q ∧ isValidTab q = None) →
     AppContent.syncTab p s = s).
Proof.
  split; [|split; [|split; [|split; [|split; [|split]]]]].
  - intros t. repeat split; try by destruct t.
    unfold AppContent.syncTab. rewrite isValidTab_tabId.
    assert (Js.truthy (tabId t) = true) as -> by (by destruct t).
    destruct (tab_eqb (activeTab s) t) eqn:E; cbn; [|done].
    by apply tab_eqb_eq.
  - apply isValidTab_inv.
  - intros q H. unfold Navigation.activeTabOf. rewrite H. by destruct (Js.truthy q).
  - done.
  - unfold AppContent.syncTab, Navigation.syncStore, Navigation.activeTabOf.
    destruct p as [q|]; [|done]. destruct (Js.truthy q); [|done].
    destruct (isValidTab q) as [t|]; [|done]. cbn.
    assert (tab_eqb t t = true) as -> by (by apply tab_eqb_eq). done.
  - intros q t -> Hq. unfold AppContent.syncTab, Navigation.syncStore,
      Navigation.activeTabOf. rewrite Hq.
    assert (Js.truthy q = true) as ->.
    { apply isValidTab_inv in Hq as ->. by destruct t. }
    destruct (tab_eqb (activeTab s) t) eqn:E; cbn; [right|by left].
    split; [done|]. by apply tab_eqb_eq.
  - intros [->|(q & -> & Hq)]; [done|].
    unfold AppContent.syncTab. rewrite Hq. by destruct (Js.truthy q).
Qed.

Lemma tab_parameter_round_trip_witness :
  AppContent.syncTab (Some "notes") initialState = initialState
  ∧ Navigation.activeTabOf (Some "notes") = query.
Proof.
  pose proof (tab_parameter_round_trip (Some "notes") initialState)
    as (_ & _ & Hnav & _ & _ & _ & Hpage).
  split.
  - apply Hpage. right. exists "notes". split; reflexivity.
  - apply Hnav. reflexivity.
Defined.

(** ** Cleaning the text shown *)

Section TextFacts.

Import AnswerText.

Lemma length_append (a b : string) :
  String.length (a +:+ b) = (String.length a + String.length b)%nat.
Proof. induction a as [|c a IH]; simpl; [done|]. by f_equal. Qed.

Lemma removeAll_length (m : string → option nat) (skip : nat) (s : string) :
  (String.length (removeAll m skip s) ≤ String.length s)%nat.
Proof.
  revert skip. induction s as [|c r IH]; intros skip; [done|].
  cbn [removeAll]. destruct skip as [|k].
  - destruct (m (String c r)) as [[|n]|]; cbn; try (specialize (IH 0%nat); lia).
    specialize (IH n). lia.
  - specialize (IH k). cbn. lia.
Qed.

(** A pattern that needs the character [c] to start finds nothing in a
    text without [c]. *)
Lemma removeAll_without (m : string → option nat) (c : ascii) (s : string) :
  (∀ c' r, Ascii.eqb c' c = false → m (String c' r) = None) →
  occurs c s = false → removeAll m 0 s = s.
Proof.
  intros Hm. induction s as [|c' r IH]; [done|]. cbn.
  destruct (Ascii.eqb c' c) eqn:E; [done|]. cbn. intros Hr.
  by rewrite (Hm c' r E), IH.
Qed.

Lemma citation_needs_bracket (c' : ascii) (r : string) :
  Ascii.eqb c' "[" = false → citation (String c' r) = None.
Proof. by destruct c' as [[] [] [] [] [] [] [] []]. Qed.

Lemma sourceMarker_needs_paren (c' : ascii) (r : string) :
  Ascii.eqb c' "(" = false → sourceMarker (String c' r) = None.
Proof. by destruct c' as [[] [] [] [] [] [] [] []]. Qed.

Lemma substring_length (n : nat) (s : string) :
  String.length (substring 0 n s) = (n `min` String.length s)%nat.
Proof.
  revert n. induction s as [|c r IH]; intros [|n]; cbn; try done.
  by rewrite IH.
Qed.

End TextFacts.

(** X20.  The text of a search result is shown with at most 500
    characters and is never longer than the text it comes from; a text
    with neither "[" nor "(" is shown as its first 500 characters,
    unchanged; an empty text gives the empty string. *)
Theorem formatSearchResult_bounded (text : string) :
  (String.length (AnswerText.formatSearchResult text) ≤ 500)%nat
  ∧ (String.length (AnswerText.formatSearchResult text) ≤ String.length text)%nat
  ∧ (occurs "[" text = false → occurs "(" text = false →
     AnswerText.formatSearchResult text = substring 0 500 text)
  ∧ AnswerText.formatSearchResult "" = "".
Proof.
  unfold AnswerText.formatSearchResult.
  pose proof (removeAll_length AnswerText.citation 0 text) as H1.
  pose proof (removeAll_length AnswerText.sourceMarker 0
                (AnswerText.remove AnswerText.citation text)) as H2.
  split; [|split; [|split; [|done]]].
  - destruct (Js.truthy text); cbn [negb]; [|cbn; lia].
    rewrite substring_length. lia.
  - destruct (Js.truthy text); cbn [negb]; [|cbn; lia].
    rewrite substring_length. unfold AnswerText.remove in *. lia.
  - intros Hb Hp. unfold AnswerText.remove.
    rewrite (removeAll_without AnswerText.citation "[")
      by (try done; apply citation_needs_bracket).
    rewrite (removeAll_without AnswerText.sourceMarker "(")
      by (try done; apply sourceMarker_needs_paren).
    by destruct text.
Qed.

Lemma formatSearchResult_bounded_witness :
  AnswerText.formatSearchResult (Sample.textOf 600) = Sample.textOf 500.
Proof.
  rewrite (proj1 (proj2 (proj2 (formatSearchResult_bounded (Sample.textOf 600)))))
    by (vm_compute; reflexivity).
  vm_compute. reflexivity.
Defined.

Section CleanTextFacts.

Import AnswerText.

Lemma trimStart_length (s : string) :
  (String.length (Js.trimStart s) ≤ String.length s)%nat.
Proof.
  induction s as [|c r IH]; cbn; [done|].
  destruct (Js.is_white_space c); cbn; lia.
Qed.

Lemma trimEnd_length (s : string) :
  (String.length (Js.trimEnd s) ≤ String.length s)%nat.
Proof.
  induction s as [|c r IH]; cbn; [done|].
  destruct (Js.is_white_space c && negb (Js.truthy (Js.trimEnd r))); cbn; lia.
Qed.

Lemma trim_length (s : string) :
  (String.length (Js.trim s) ≤ String.length s)%nat.
Proof.
  unfold Js.trim. pose proof (trimEnd_length (Js.trimStart s)).
  pose proof (trimStart_length s). lia.
Qed.

Lemma trimStart_head (s : string) :
  Js.trimStart s = ""
  ∨ ∃ c r, Js.trimStart s = String c r ∧ Js.is_white_space c = false.
Proof.
  induction s as [|c r IH]; cbn; [by left|].
  destruct (Js.is_white_space c) eqn:E; [done|]. right. eauto.
Qed.

Lemma trimEnd_idemp (s : string) : Js.trimEnd (Js.trimEnd s) = Js.trimEnd s.
Proof.
  induction s as [|c r IH]; cbn; [done|].
  destruct (Js.is_white_space c && negb (Js.truthy (Js.trimEnd r))) eqn:E;
    [done|].
  cbn. by rewrite IH, E.
Qed.

Lemma trimEnd_cons (c : ascii) (r : string) :
  Js.is_white_space c = false → Js.trimEnd (String c r) = String c (Js.trimEnd r).
Proof. intros H. cbn. by rewrite H. Qed.

Lemma trimStart_cons (c : ascii) (r : string) :
  Js.is_white_space c = false → Js.trimStart (String c r) = String c r.
Proof. intros H. cbn. by rewrite H. Qed.

(** Trimming a trimmed string changes nothing. *)
Lemma trim_idemp (s : string) : Js.trim (Js.trim s) = Js.trim s.
Proof.
  unfold Js.trim.
  destruct (trimStart_head s) as [->|(c & r & -> & Hc)]; [done|].
  rewrite (trimEnd_cons c r Hc), (trimStart_cons c _ Hc).
  by rewrite (trimEnd_cons c _ Hc), trimEnd_idemp.
Qed.

Lemma splitParagraphs_cons (c : ascii) (r : string) :
  splitParagraphs (String c r)
  = match r with
    | String c' r' =>
        if Ascii.eqb c "010" && Ascii.eqb c' "010"
        then "" :: splitParagraphs r'
        else match splitParagraphs r with
             | p :: ps => String c p :: ps
             | [] => [String c ""]
             end
    | "" => match splitParagraphs r with
            | p :: ps => String c p :: ps
            | [] => [String c ""]
            end
    end.
Proof. by destruct r. Qed.

(** Joining the paragraphs of a text gives the text back. *)
Lemma concat_splitParagraphs (s : string) :
  String.concat paragraphBreak (splitParagraphs s) = s
  ∧ splitParagraphs s ≠ [].
Proof.
  assert (H : (String.concat paragraphBreak (splitParagraphs s) = s
               ∧ splitParagraphs s ≠ [])
              ∧ ∀ c, String.concat paragraphBreak (splitParagraphs (String c s))
                     = String c s
                     ∧ splitParagraphs (String c s) ≠ []); [|by destruct H].
  induction s as [|a r [[IHr IHne] IHc]].
  - split; [done|]. intros c. done.
  - split; [apply IHc|]. intros c.
    rewrite splitParagraphs_cons.
    destruct (Ascii.eqb c "010" && Ascii.eqb a "010") eqn:E.
    + apply andb_prop in E as [->%Ascii.eqb_eq ->%Ascii.eqb_eq].
      split; [|done].
      destruct (splitParagraphs r) as [|p ps] eqn:Er; [done|].
      cbn [String.concat]. cbn [String.concat] in IHr.
      rewrite IHr. reflexivity.
    + destruct (IHc a) as [Hc Hne].
      destruct (splitParagraphs (String a r)) as [|p ps]; [done|].
      split; [|done].
      destruct ps as [|p' ps']; [cbn in *; by rewrite Hc|].
      change (String.concat paragraphBreak (String c p :: p' :: ps'))
        with (String c (String.concat paragraphBreak (p :: p' :: ps'))).
      by rewrite Hc.
Qed.

End CleanTextFacts.

Section CleanTextLength.

Import AnswerText.

Lemma concat_length_cons (sep x : string) (l : list string) :
  String.length (String.concat sep (x :: l))
  = (String.length x
     + match l with
       | [] => 0
       | _ :: _ => String.length sep + String.length (String.concat sep l)
       end)%nat.
Proof.
  destruct l as [|y l]; cbn [String.concat]; [lia|].
  by rewrite !length_append.
Qed.

(** Trimming the pieces and leaving out the empty ones does not lengthen
    the joined text. *)
Lemma concat_kept_length (sep : string) (l : list string) :
  (String.length (String.concat sep (List.filter Js.truthy (Js.trim <$> l)))
   ≤ String.length (String.concat sep l))%nat.
Proof.
  induction l as [|x l IH]; [done|].
  rewrite (concat_length_cons sep x l). cbn [fmap list_fmap List.filter].
  pose proof (trim_length x) as Hx.
  destruct (Js.truthy (Js.trim x)).
  - rewrite concat_length_cons.
    destruct (List.filter Js.truthy (Js.trim <$> l)) as [|y k] eqn:Ek;
      [lia|].
    destruct l as [|z l']; [done|]. lia.
  - destruct l as [|z l']; [cbn; lia|]. lia.
Qed.

Lemma removeAll_blank (m : string → option nat) (skip : nat) (s : string) :
  Js.blank s = true → Js.blank (removeAll m skip s) = true.
Proof.
  revert skip. induction s as [|c r IH]; intros skip; [done|].
  cbn [Js.blank removeAll]. intros [Hc Hr]%andb_prop.
  destruct skip as [|k]; [|by apply IH].
  destruct (m (String c r)) as [[|n]|]; cbn; rewrite ?Hc; cbn; by apply IH.
Qed.

Lemma splitParagraphs_blank (s : string) :
  Js.blank s = true → Forall (λ p, Js.blank p = true) (splitParagraphs s).
Proof.
  assert (H : (Js.blank s = true → Forall (λ p, Js.blank p = true) (splitParagraphs s))
              ∧ ∀ c, Js.blank (String c s) = true →
                     Forall (λ p, Js.blank p = true) (splitParagraphs (String c s)));
    [|by destruct H].
  induction s as [|a r [IHr IHc]].
  - split; [by repeat constructor|]. intros c Hc. cbn in *.
    repeat constructor. cbn. exact Hc.
  - split; [apply IHc|]. intros c Hc.
    rewrite splitParagraphs_cons.
    cbn [Js.blank] in Hc. apply andb_prop in Hc as [Hc Har].
    destruct (Ascii.eqb c "010" && Ascii.eqb a "010").
    + constructor; [done|]. apply IHr.
      cbn [Js.blank] in Har. by apply andb_prop in Har as [_ ?].
    + specialize (IHc a Har).
      destruct (splitParagraphs (String a r)) as [|p ps].
      * repeat constructor. cbn. by rewrite Hc.
      * inversion IHc; subst. constructor; [|done]. cbn. by rewrite Hc.
Qed.

Lemma kept_blank (l : list string) :
  Forall (λ p, Js.blank p = true) l →
  List.filter Js.truthy (Js.trim <$> l) = [].
Proof.
  induction 1 as [|x l Hx _ IH]; [done|]. cbn.
  by rewrite trim_truthy, Hx.
Qed.

End CleanTextLength.

(** X21.  The paragraphs [cleanText] keeps are not empty and have no white
    space at either end; the cleaned text is never longer than the text
    it comes from; a text of white space only, like an empty one, is
    cleaned to the empty string, and so is a missing answer. *)
Theorem cleanText_paragraphs (text : string) (s : AppState) :
  Forall (λ p, Js.truthy p = true ∧ Js.trim p = p) (AnswerText.paragraphs text)
  ∧ (String.length (AnswerText.cleanText text) ≤ String.length text)%nat
  ∧ (Js.blank text = true → AnswerText.cleanText text = "")
  ∧ (currentAnswer s = None ∨ currentAnswer s = Some "" →
     AnswerText.cleanedAnswer s = "").
Proof.
  split; [|split; [|split]].
  - unfold AnswerText.paragraphs. apply Forall_forall. intros p Hp.
    apply list_elem_of_In, List.filter_In in Hp as [Hp Ht].
    split; [done|].
    apply list_elem_of_In, list_elem_of_fmap in Hp as (q & -> & _).
    apply trim_idemp.
  - unfold AnswerText.cleanText, AnswerText.paragraphs.
    destruct (Js.truthy text); cbn [negb]; [|cbn; lia].
    etrans; [apply concat_kept_length|].
    rewrite (proj1 (concat_splitParagraphs _)). unfold AnswerText.remove.
    pose proof (removeAll_length AnswerText.citation 0 text).
    pose proof (removeAll_length AnswerText.sourceMarker 0
                  (AnswerText.removeAll AnswerText.citation 0 text)).
    pose proof (removeAll_length AnswerText.referenceMarker 0
                  (AnswerText.removeAll AnswerText.sourceMarker 0
                     (AnswerText.removeAll AnswerText.citation 0 text))).
    lia.
  - intros Hb. unfold AnswerText.cleanText, AnswerText.paragraphs.
    destruct (Js.truthy text); [|done]. cbn [negb].
    rewrite kept_blank; [done|].
    apply splitParagraphs_blank. unfold AnswerText.remove.
    by do 3 apply removeAll_blank.
  - unfold AnswerText.cleanedAnswer. by intros [->| ->].
Qed.

Lemma cleanText_paragraphs_witness :
  AnswerText.cleanText "   " = ""
  ∧ AnswerText.cleanedAnswer initialState = "".
Proof.
  pose proof (cleanText_paragraphs "   " initialState) as (_ & _ & Hb & Hn).
  split; [apply Hb; reflexivity | apply Hn; left; reflexivity].
Defined.

(** ** The Clear button and the sources *)

(** X22.  The Clear button empties the query, the answer, the results,
    the sources and the error, so that nothing but the empty state is left
    on the tab, and it keeps the documents and the persisted settings;
    whenever the button is offered, pressing it leads to the empty state.
    After a run that nobody cancelled the button is offered exactly when
    results are on the screen: after a failed search or a search without
    results only the error is there. *)
Theorem clear_button (st : AppState * TabState)
    (env : IntelligentQueryTab.Env) (w : World) :
  (let st' := QueryView.handleClear st in
   QueryView.showsError st'.2 = false
   ∧ QueryView.showsAnswer st'.1 = false
   ∧ QueryView.showsResults st'.1 = false
   ∧ QueryView.showsClear st'.1 = false
   ∧ currentQuery st'.1 = ""
   ∧ answerSources st'.2 = []
   ∧ QueryView.showsEmptyState st'.1 st'.2 = negb (isSearching st.1)
   ∧ (QueryView.showsClear st.1 = true →
      QueryView.showsEmptyState st'.1 st'.2 = true)
   ∧ QueryView.handleClear st' = st'
   ∧ documents st'.1 = documents st.1
   ∧ Store.partialize st'.1 = Store.partialize st.1)
  ∧ (Js.blank (currentQuery (store w)) = false →
     IntelligentQueryTab.during_search env = IntelligentQueryTab.NoInterrupt →
     IntelligentQueryTab.during_answer env = IntelligentQueryTab.NoInterrupt →
     let w' := IntelligentQueryTab.handleSearch env w in
     QueryView.showsClear (store w') = QueryView.showsResults (store w')
     ∧ (retrieved env w = None ∨ retrieved env w = Some [] →
        QueryView.showsClear (store w') = false
        ∧ QueryView.showsError (tab w') = true)).
Proof.
  split.
  - destruct st as [s t]. cbv zeta. cbn.
    unfold QueryView.showsEmptyState, QueryView.showsClear,
      QueryView.showsAnswer, QueryView.showsResults. cbn.
    repeat split.
    + by destruct (isSearching s).
    + intros H. apply andb_prop in H as [_ H]. by destruct (isSearching s).
  - intros Hq Hs Ha. cbv zeta. unfold retrieved.
    uncancelled_paths Hq Hs Ha;
      unfold QueryView.showsClear, QueryView.showsAnswer,
        QueryView.showsResults, QueryView.showsError; cbn;
      (split; [try done; try (by rewrite Ht) | intros [?|?]; by simplify_eq]).
Qed.

Lemma clear_button_witness :
  let st := (store (IntelligentQueryTab.handleSearch Sample.cancelThenAnswer
                      (Sample.world "retention?" (Some "An earlier answer."))),
             Sample.tab0) in
  QueryView.showsClear st.1 = true
  ∧ QueryView.showsEmptyState (QueryView.handleClear st).1
      (QueryView.handleClear st).2 = true.
Proof.
  intros st.
  assert (H : QueryView.showsClear st.1 = true) by reflexivity.
  split; [exact H|].
  pose proof (proj1 (clear_button st Sample.emptyStore
                       (Sample.world "retention?" None)))
    as (_ & _ & _ & _ & _ & _ & _ & Hc & _).
  exact (Hc H).
Defined.

(** X23.  The sources shown under an answer are the names found in the
    reply, in the order of the reply and without the empty ones: a plain
    string is its own name, an object is named by its [file_name] and, if
    that is missing or empty, by its [source].  A name that occurs twice
    is shown twice.  A reply whose [sources] is missing or not an array
    has no sources. *)
Theorem sources_shown (l1 l2 : list Source) :
  Forall (λ n, Js.truthy n = true)
    (IntelligentQueryTab.sourceDocs (SourcesArray l1))
  ∧ IntelligentQueryTab.sourceDocs (SourcesArray (l1 ++ l2))
    = IntelligentQueryTab.sourceDocs (SourcesArray l1)
      ++ IntelligentQueryTab.sourceDocs (SourcesArray l2)
  ∧ (length (IntelligentQueryTab.sourceDocs (SourcesArray l1)) ≤ length l1)%nat
  ∧ (∀ n, IntelligentQueryTab.sourceDocs (SourcesArray [SrcString n])
          = if Js.truthy n then [n] else [])
  ∧ (∀ fn src, Js.truthy fn = true →
       IntelligentQueryTab.sourceDocs (SourcesArray [SrcObject (Some fn) src]) = [fn])
  ∧ (∀ fn src, Js.truthy_opt fn = false → Js.truthy src = true →
       IntelligentQueryTab.sourceDocs (SourcesArray [SrcObject fn (Some src)]) = [src])
  ∧ IntelligentQueryTab.sourceDocs SourcesMissing = []
  ∧ IntelligentQueryTab.sourceDocs SourcesNotArray = [].
Proof.
  unfold IntelligentQueryTab.sourceDocs.
  split; [|split; [|split; [|split; [|split; [|split]]]]].
  - apply Forall_forall. intros n Hn.
    by apply list_elem_of_In, List.filter_In in Hn as [_ ?].
  - by rewrite fmap_app, List.filter_app.
  - etrans; [apply List.filter_length_le|]. by rewrite length_fmap.
  - done.
  - intros fn src H. cbn. unfold Js.or_else. by rewrite H, H.
  - intros fn src Hfn Hsrc. cbn. unfold Js.or_else.
    destruct fn as [fn|]; cbn in *; rewrite ?Hfn, Hsrc; by rewrite ?Hsrc.
  - done.
Qed.

Lemma sources_shown_witness :
  IntelligentQueryTab.sourceDocs
    (SourcesArray [SrcObject (Some "") (Some "guide.pdf");
                   SrcObject (Some "notes.md") (Some "other")])
  = ["guide.pdf"; "notes.md"].
Proof.
  pose proof (sources_shown [SrcObject (Some "") (Some "guide.pdf")]
                [SrcObject (Some "notes.md") (Some "other")])
    as (_ & Happ & _ & _ & Hfn & Hsrc & _).
  change (IntelligentQueryTab.sourceDocs
            (SourcesArray ([SrcObject (Some "") (Some "guide.pdf")]
                           ++ [SrcObject (Some "notes.md") (Some "other")]))
          = ["guide.pdf"] ++ ["notes.md"]).
  rewrite Happ, (Hsrc (Some "") "guide.pdf" eq_refl eq_refl),
    (Hfn "notes.md" (Some "other") eq_refl).
  reflexivity.
Defined.

(** ** The analytics tab *)

(** X24.  [handleCleanupOldFiles] always ends with the cleaning flag
    cleared and leaves the loading flag and the auto-refresh choice alone.
    After a rejected cleanup it has made the one cleanup request, shown
    one error toast and kept the statistics, the storage information and
    the refresh error.  After an accepted cleanup it has made three
    requests, cleanup, storage, statistics, in this order; statistics and
    storage information are what the two refreshes gave (nothing for a
    failed one), and the refresh error is that of the statistics refresh
    alone: a failure of the storage refresh is forgotten when the
    statistics refresh succeeds. *)
Theorem cleanup_ends_clean
    (cleanup : KnowledgeAnalyticsTab.Thrown + KnowledgeAnalyticsTab.CleanupResponse)
    (storage : KnowledgeAnalyticsTab.Thrown + KnowledgeAnalyticsTab.StorageInfo)
    (stats : KnowledgeAnalyticsTab.Thrown + VectorStoreStats)
    (w : KnowledgeAnalyticsTab.AWorld) :
  let w' := KnowledgeAnalyticsTab.handleCleanupOldFiles cleanup storage stats w in
  let s := KnowledgeAnalyticsTab.state w in
  let s' := KnowledgeAnalyticsTab.state w' in
  KnowledgeAnalyticsTab.isCleaningUp s' = false
  ∧ KnowledgeAnalyticsTab.isLoading s' = KnowledgeAnalyticsTab.isLoading s
  ∧ KnowledgeAnalyticsTab.autoRefresh s' = KnowledgeAnalyticsTab.autoRefresh s
  ∧ ∃ d, KnowledgeAnalyticsTab.alog w' = KnowledgeAnalyticsTab.alog w ++ d
    ∧ match cleanup with
      | inl e =>
          KnowledgeAnalyticsTab.requests d = [("POST", "/search/storage/cleanup")]
          ∧ KnowledgeAnalyticsTab.toasts d
            = [(ToastError,
                KnowledgeAnalyticsTab.Text (KnowledgeAnalyticsTab.cleanupFailed e))]
          ∧ KnowledgeAnalyticsTab.a_stats s' = KnowledgeAnalyticsTab.a_stats s
          ∧ KnowledgeAnalyticsTab.storageInfo s' = KnowledgeAnalyticsTab.storageInfo s
          ∧ KnowledgeAnalyticsTab.refreshError s' = KnowledgeAnalyticsTab.refreshError s
      | inr _ =>
          KnowledgeAnalyticsTab.requests d
          = [("POST", "/search/storage/cleanup"); ("GET", "/search/storage");
             ("GET", "/search/stats")]
          ∧ KnowledgeAnalyticsTab.a_stats s'
            = match stats with inr x => Some x | inl _ => None end
          ∧ KnowledgeAnalyticsTab.storageInfo s'
            = match storage with inr x => Some x | inl _ => None end
          ∧ KnowledgeAnalyticsTab.refreshError s'
            = match stats with
              | inr _ => None
              | inl e => Some (KnowledgeAnalyticsTab.errorOr e
                                 "Failed to fetch analytics")
              end
      end.
Proof.
  cbv zeta. unfold KnowledgeAnalyticsTab.handleCleanupOldFiles.
  destruct cleanup as [e|data].
  - cbn. repeat split. rewrite <- !app_assoc. eexists. split; [reflexivity|].
    repeat split.
  - destruct storage as [es|info], stats as [et|st]; cbn;
      (repeat split); rewrite <- !app_assoc;
      (eexists; split; [reflexivity|]); repeat split.
Qed.

(** X25.  A successful fetch of the statistics clears the refresh error
    and, unless the tab is loading, brings up the cards; a failed one
    drops the statistics that were shown, so that the tab shows the notice
    without data together with an error that is never empty, the error of
    the server or "Failed to fetch analytics", and announces it by one
    toast.  A failed fetch of the storage information shows no toast,
    keeps the statistics and withdraws the cleanup button. *)
Theorem fetches_and_view
    (w : KnowledgeAnalyticsTab.AWorld) (e : KnowledgeAnalyticsTab.Thrown)
    (data : VectorStoreStats) :
  KnowledgeAnalyticsTab.isLoading (KnowledgeAnalyticsTab.state w) = false →
  (∃ offered,
     KnowledgeAnalyticsTab.view
       (KnowledgeAnalyticsTab.state (KnowledgeAnalyticsTab.fetchStats (inr data) w))
     = KnowledgeAnalyticsTab.Cards data offered)
  ∧ KnowledgeAnalyticsTab.refreshError
      (KnowledgeAnalyticsTab.state (KnowledgeAnalyticsTab.fetchStats (inr data) w))
    = None
  ∧ (let w' := KnowledgeAnalyticsTab.fetchStats (inl e) w in
     let msg := KnowledgeAnalyticsTab.errorOr e "Failed to fetch analytics" in
     Js.truthy msg = true
     ∧ KnowledgeAnalyticsTab.view (KnowledgeAnalyticsTab.state w')
       = KnowledgeAnalyticsTab.NoData (Some msg)
     ∧ KnowledgeAnalyticsTab.alog w'
       = KnowledgeAnalyticsTab.alog w
         ++ [ KnowledgeAnalyticsTab.Request "GET" "/search/stats";
              KnowledgeAnalyticsTab.ConsoleErr "Failed to fetch analytics:" e;
              KnowledgeAnalyticsTab.Notify ToastError (KnowledgeAnalyticsTab.Text msg) ])
  ∧ (let w' := KnowledgeAnalyticsTab.fetchStorageInfo (inl e) w in
     KnowledgeAnalyticsTab.a_stats (KnowledgeAnalyticsTab.state w')
     = KnowledgeAnalyticsTab.a_stats (KnowledgeAnalyticsTab.state w)
     ∧ KnowledgeAnalyticsTab.toasts (KnowledgeAnalyticsTab.alog w')
       = KnowledgeAnalyticsTab.toasts (KnowledgeAnalyticsTab.alog w)
     ∧ ∀ st, KnowledgeAnalyticsTab.a_stats (KnowledgeAnalyticsTab.state w) = Some st →
         KnowledgeAnalyticsTab.view (KnowledgeAnalyticsTab.state w')
         = KnowledgeAnalyticsTab.Cards st false).
Proof.
  intros Hl.
  assert (Hmsg : ∀ fb, Js.truthy fb = true →
            Js.truthy (KnowledgeAnalyticsTab.errorOr e fb) = true).
  { intros fb Hfb. by apply or_else_truthy. }
  split; [|split; [|split]].
  - unfold KnowledgeAnalyticsTab.view. cbn. rewrite Hl. eauto.
  - done.
  - cbv zeta. split; [by apply Hmsg|]. split.
    + unfold KnowledgeAnalyticsTab.view. cbn. rewrite Hl.
      by rewrite (Hmsg "Failed to fetch analytics" eq_refl).
    + cbn. by rewrite <- !app_assoc.
  - cbv zeta. split; [done|]. split.
    + cbn. unfold KnowledgeAnalyticsTab.toasts.
      by rewrite !omap_app, !app_nil_r.
    + intros st Hst. unfold KnowledgeAnalyticsTab.view. cbn. by rewrite Hl, Hst.
Qed.

Lemma fetches_and_view_witness :
  let w := {| KnowledgeAnalyticsTab.state :=
                {| KnowledgeAnalyticsTab.a_stats := None;
                   KnowledgeAnalyticsTab.storageInfo := None;
                   KnowledgeAnalyticsTab.isLoading := false;
                   KnowledgeAnalyticsTab.isCleaningUp := false;
                   KnowledgeAnalyticsTab.autoRefresh := true;
                   KnowledgeAnalyticsTab.refreshError := None |};
              KnowledgeAnalyticsTab.alog := [] |} in
  let e := {| KnowledgeAnalyticsTab.data_error := None;
              KnowledgeAnalyticsTab.data_message' := None;
              KnowledgeAnalyticsTab.thrown_message := Some "Network Error" |} in
  KnowledgeAnalyticsTab.view
    (KnowledgeAnalyticsTab.state (KnowledgeAnalyticsTab.fetchStats (inl e) w))
  = KnowledgeAnalyticsTab.NoData (Some "Failed to fetch analytics").
Proof.
  intros w e.
  pose proof (fetches_and_view w e
    {| total_vectors := num 0; total_documents := num 0; embedding_model := "";
       dimension := num 0; store_path := ""; vs_documents := [];
       storage_size_mb := num 0 |} eq_refl) as (_ & _ & (_ & Hv & _) & _).
  exact Hv.
Defined.
